(** * IDF 3.0 checker: a shallow embedding of [emnObj.py] and of the batch
      loader of [idfCheckingTool.py], with the properties of its scanner,
      record decoder and validation suite.

    Conventions of the embedding.
    - Python [float] is IEEE binary64: Rocq's primitive [float].
    - Python [str] is [string]; a character is a code point below 256.
    - A Python exception is the [Raise] branch of [result]; statements that
      run in sequence are chained with the bind of that error monad.
    - [self.errors] is a list of messages.  A message is kept as the template
      that produced it together with the values interpolated into it
      ([diag]); [diag_text] gives the text once a ["%.2f"] formatter is
      supplied.
    - [math.atan2] and [str.upper] are parameters of the suite; [math.fmod],
      [math.radians], [math.fabs], [math.isclose] and [float(str)] are
      defined on binary64. *)

From Stdlib Require Import ZArith List String Ascii Bool Lia Floats.
Import ListNotations.

Local Open Scope string_scope.
Local Open Scope list_scope.

(* ================================================================= *)
(** * Part I.  The Python runtime the program relies on              *)
(* ================================================================= *)

Module Py.

(** ** Exceptions *)

Inductive exn : Set :=
| IndexError   (* sequence index out of range *)
| ValueError   (* float() of a malformed string, math domain error *)
| NameError.   (* a local variable read before any assignment *)

Inductive result (A : Type) : Type :=
| Ok (a : A)
| Raise (e : exn).

Arguments Ok {A} a.
Arguments Raise {A} e.

Definition bind {A B : Type} (m : result A) (k : A -> result B) : result B :=
  match m with
  | Ok a => k a
  | Raise e => Raise e
  end.

Definition is_ok {A : Type} (m : result A) : bool :=
  match m with Ok _ => true | Raise _ => false end.

(** [for x in xs: body] over a state, stopping at the first exception. *)
Fixpoint for_each {A S : Type} (body : S -> A -> result S) (xs : list A) (st : S)
  : result S :=
  match xs with
  | [] => Ok st
  | x :: rest => bind (body st x) (for_each body rest)
  end.

(** [[f(x) for x in xs]], stopping at the first exception. *)
Fixpoint map_m {A B : Type} (f : A -> result B) (xs : list A) : result (list B) :=
  match xs with
  | [] => Ok []
  | x :: rest =>
      bind (f x) (fun y => bind (map_m f rest) (fun ys => Ok (y :: ys)))
  end.

(** ** Sequences *)

(** [l[k]], with Python's negative indices. *)
Definition index {A : Type} (l : list A) (k : Z) : result A :=
  let n := Z.of_nat (List.length l) in
  let j := if (k <? 0)%Z then (k + n)%Z else k in
  if ((j <? 0) || (n <=? j))%Z then Raise IndexError
  else match nth_error l (Z.to_nat j) with
       | Some a => Ok a
       | None => Raise IndexError
       end.

(** [range(n)] *)
Definition range (n : nat) : list Z := map Z.of_nat (seq 0 n).

(** ** Strings *)

Definition code (c : ascii) : N := N_of_ascii c.

(** [c.isspace()] for a code point below 256. *)
Definition isspace (c : ascii) : bool :=
  let n := code c in
  ((9 <=? n) && (n <=? 13) || (28 <=? n) && (n <=? 32)
   || (n =? 133) || (n =? 160))%N.

(** [s.split()]: the maximal runs of non-whitespace characters. *)
Fixpoint split (s : string) : list string :=
  match s with
  | EmptyString => []
  | String c r =>
      if isspace c then split r
      else match r with
           | EmptyString => [String c EmptyString]
           | String c' _ =>
               if isspace c' then String c EmptyString :: split r
               else match split r with
                    | w :: ws => String c w :: ws
                    | [] => [String c EmptyString]
                    end
           end
  end.

(** [s.split(sep)] for a one-character separator. *)
Fixpoint split_on (sep : ascii) (s : string) : list string :=
  match s with
  | EmptyString => [EmptyString]
  | String c r =>
      if Ascii.eqb c sep then EmptyString :: split_on sep r
      else match split_on sep r with
           | w :: ws => String c w :: ws
           | [] => [String c EmptyString]
           end
  end.

(** Leading, then trailing, characters in the class [sp] dropped. *)
Fixpoint lstrip_of (sp : ascii -> bool) (s : string) : string :=
  match s with
  | EmptyString => EmptyString
  | String c r => if sp c then lstrip_of sp r else s
  end.

Fixpoint rstrip_of (sp : ascii -> bool) (s : string) : string :=
  match s with
  | EmptyString => EmptyString
  | String c r =>
      match rstrip_of sp r with
      | EmptyString => if sp c then EmptyString else String c EmptyString
      | r' => String c r'
      end
  end.

(** [s.strip()] *)
Definition strip (s : string) : string := rstrip_of isspace (lstrip_of isspace s).

(** [sub in s] *)
Fixpoint str_in (sub s : string) : bool :=
  String.prefix sub s
  || match s with
     | EmptyString => false
     | String _ r => str_in sub r
     end.

(** [x in xs] for a list of strings. *)
Definition list_in (x : string) (xs : list string) : bool :=
  existsb (String.eqb x) xs.

(** [s[0]] *)
Definition first_char (s : string) : result ascii :=
  match s with
  | EmptyString => Raise IndexError
  | String c _ => Ok c
  end.

(** ** float(s) *)

Definition is_digit (c : ascii) : bool := ((48 <=? code c) && (code c <=? 57))%N.
Definition digit_val (c : ascii) : Z := (Z.of_N (code c) - 48)%Z.

(** Lower-case an ASCII letter; used for the case-insensitive words
    [inf], [infinity] and [nan]. *)
Definition lower_ascii (c : ascii) : ascii :=
  if ((65 <=? code c) && (code c <=? 90))%N then ascii_of_N (code c + 32) else c.

Fixpoint lower (s : string) : string :=
  match s with
  | EmptyString => EmptyString
  | String c r => String (lower_ascii c) (lower r)
  end.

(** [digitpart ::= digit (["_"] digit)*].  Reads the longest digit part at
    the head of [s] into the accumulator [acc]; [n] counts the digits read.
    An underscore is consumed only between two digits. *)
Fixpoint digitpart (s : string) (acc : Z) (n : Z) : Z * Z * string :=
  match s with
  | String c r =>
      if is_digit c then digitpart r (acc * 10 + digit_val c)%Z (n + 1)%Z
      else if (Ascii.eqb c "_" && (0 <? n)%Z
               && match r with String d _ => is_digit d | EmptyString => false end)%bool
           then digitpart r acc n
           else (acc, n, s)
  | EmptyString => (acc, n, s)
  end.

(** [exponent ::= ("e" | "E") [sign] digitpart]; [None] when [s] does not
    start with a complete exponent. *)
Definition exponent (s : string) : option (Z * string) :=
  match s with
  | String c r =>
      if (Ascii.eqb c "e" || Ascii.eqb c "E")%bool then
        let '(neg, r1) :=
          match r with
          | String "-" r' => (true, r')
          | String "+" r' => (false, r')
          | _ => (false, r)
          end in
        let '(v, n, rest) := digitpart r1 0%Z 0%Z in
        if (n =? 0)%Z then None
        else Some (if neg then (- v)%Z else v, rest)
      else None
  | EmptyString => None
  end.

(** The binary64 nearest to [(-1)^neg * m * 10^e] (ties to even, overflow
    to an infinity), as [strtod] rounds. *)
Definition float_of_decimal (neg : bool) (m e : Z) : float :=
  match m with
  | Zpos p =>
      let num := Z.to_pos (Zpos p * 10 ^ Z.max e 0) in
      let den := Z.to_pos (10 ^ Z.max (- e) 0) in
      SF2Prim (SFdiv prec emax (S754_finite neg num 0) (S754_finite false den 0))
  | _ => if neg then neg_zero else zero
  end.

(** [floatnumber ::= ([digitpart] "." digitpart | digitpart ["."]) [exponent]],
    the whole of [s]. *)
Definition floatnumber (neg : bool) (s : string) : result float :=
  let '(ip, ni, r1) := digitpart s 0%Z 0%Z in
  let '(m, nf, r2) :=
    match r1 with
    | String "." r => let '(m, nf, r2) := digitpart r ip 0%Z in (m, nf, r2)
    | _ => (ip, 0%Z, r1)
    end in
  if (ni + nf =? 0)%Z then Raise ValueError
  else
    match r2 with
    | EmptyString => Ok (float_of_decimal neg m (- nf)%Z)
    | _ =>
        match exponent r2 with
        | Some (ex, EmptyString) => Ok (float_of_decimal neg m (ex - nf)%Z)
        | _ => Raise ValueError
        end
    end.

(** The whitespace [float] drops around its argument: the C locale's
    (tab to carriage return, space) and the Unicode spaces above ASCII,
    which it first rewrites to a space.  The separators 28 to 31, which
    [str.split] honours, are not part of it. *)
Definition float_space (c : ascii) : bool :=
  let n := code c in
  ((9 <=? n) && (n <=? 13) || (n =? 32) || (n =? 133) || (n =? 160))%N.

(** [float(s)] for a string [s]: surrounding whitespace is dropped, then an
    optional sign and [inf], [infinity], [nan] (any case) or a decimal
    number must fill the rest. *)
Definition float_of_str (s : string) : result float :=
  let t := rstrip_of float_space (lstrip_of float_space s) in
  let '(neg, u) :=
    match t with
    | String "-" r => (true, r)
    | String "+" r => (false, r)
    | _ => (false, t)
    end in
  let w := lower u in
  if (String.eqb w "inf" || String.eqb w "infinity")%bool
  then Ok (if neg then neg_infinity else infinity)
  else if String.eqb w "nan" then Ok nan
  else floatnumber neg u.

(** ** The comparisons and [math] functions used by the checks *)

(** [bool(x)] for a float: [x != 0.0]. *)
Definition truthy (x : float) : bool := negb (x =? 0)%float.

(** [x != y] *)
Definition fneq (x y : float) : bool := negb (x =? y)%float.

Definition pi : float := 0x1.921fb54442d18p+1%float.
Definition tau : float := 0x1.921fb54442d18p+2%float.

(** [math.radians(x)]: [x * (pi / 180.0)]. *)
Definition radians (x : float) : float := (x * (pi / 180))%float.

(** [math.fabs] *)
Definition fabs (x : float) : float := abs x.

(** The integer [n] with [x = n * 2^e], for finite [x]. *)
Definition scaled (x : spec_float) (e : Z) : Z :=
  match x with
  | S754_finite _ m ex => Z.shiftl (Zpos m) (ex - e)
  | _ => 0%Z
  end.

Definition sf_exp (x : spec_float) : Z :=
  match x with
  | S754_finite _ _ e => e
  | _ => 0%Z
  end.

(** [math.fmod(x, y)]: the exact remainder of [x / y] truncated toward
    zero, with the sign of [x]; [ValueError] (math domain error) when [x] is
    infinite or [y] is zero and neither is a NaN. *)
Definition fmod (x y : float) : result float :=
  if (is_nan x || is_nan y)%bool then Ok nan
  else if is_infinity x then Raise ValueError
  else if is_zero y then Raise ValueError
  else if is_infinity y then Ok x
  else if is_zero x then Ok x
  else
    let sx := Prim2SF x in
    let sy := Prim2SF y in
    let e := Z.min (sf_exp sx) (sf_exp sy) in
    let r := Z.rem (scaled sx e) (scaled sy e) in
    let neg := get_sign x in
    Ok (SF2Prim (binary_normalize prec emax (if neg then (- r)%Z else r) e neg)).

(** [math.isclose(a, b, rel_tol=rel, abs_tol=tol)] *)
Definition isclose (a b rel tol : float) : bool :=
  if (a =? b)%float then true
  else if (is_infinity a || is_infinity b)%bool then false
  else
    let diff := fabs (b - a)%float in
    ((diff <=? fabs (rel * b)) || (diff <=? fabs (rel * a)) || (diff <=? tol))%float.

End Py.

Import Py.

Declare Scope py_scope.
Delimit Scope py_scope with py.
Notation "x <- m ;; k" := (bind m (fun x => k))
  (at level 61, m at next level, right associativity) : py_scope.
Notation "' pat <- m ;; k" := (bind m (fun x => match x with pat => k end))
  (at level 61, pat pattern, m at next level, right associativity) : py_scope.
Local Open Scope py_scope.

(* ================================================================= *)
(** * Part II.  emnObj.py                                            *)
(* ================================================================= *)

(** ** Section markers of the IDF 3.0 standard, as the module spells them *)

Definition BOARD_START         := ".BOARD_OUTLINE".
Definition BOARD_END           := ".END_BOARD_OUTLINE".
Definition DRILL_START         := ".DRILLED_HOLES".
Definition DRILL_END           := ".END_DRILLED_HOLES".
Definition HEADER_START        := ".HEADER".
Definition HEADER_END          := ".END_HEADER".
Definition OTHER_START         := ".OTHER_OUTLINE".
Definition OTHER_END           := ".END_OTHER_OUTLINE".
Definition PLACE_KEEPOUT_START := ".PLACE_KEEPOUT".
Definition PLACE_KEEPOUT_END   := ".END_PLACE_KEEPOUT".
Definition PLACE_OUTLINE_START := ".PLACE_OUTLINE".
Definition PLACE_OUTLINE_END   := ".END_PLACE_OUTLINE".
Definition PLACEMENT_START     := ".PLACEMENT".
Definition PLACEMENT_END       := ".END_PLACEMENT".
Definition ROUTE_START         := ".ROUTE_OUTLINE".
Definition ROUTE_END           := ".END_ROUTE_OUTLINE".
Definition ROUTE_KEEPOUT_START := ".ROUTE_KEEOUT".
Definition ROUTE_KEEPOUT_END   := ".END_ROUTE_KEEPOUT".
Definition VIA_KEEPOUT_START   := ".VIA_KEEPOUT".
Definition VIA_KEEPOUT_END     := ".END_VIA_KEEPOUT".

Definition SHAPE_STARTS : list string :=
  [ BOARD_START; OTHER_START; PLACE_KEEPOUT_START; PLACE_OUTLINE_START;
    ROUTE_START; ROUTE_KEEPOUT_START; VIA_KEEPOUT_START ].

Definition SHAPE_ENDS : list string :=
  [ BOARD_END; OTHER_END; PLACE_KEEPOUT_END; PLACE_OUTLINE_END;
    ROUTE_END; ROUTE_KEEPOUT_END; VIA_KEEPOUT_END ].

(** ** Data *)

(** A vertex, the four-element list [[cutout, xPos, yPos, arc]]; the field
    at list index 0 is [cutout], at index 3 [arc]. *)
Record coord : Set := mkCoord {
  cutout : float;
  xPos   : float;
  yPos   : float;
  arc    : float
}.

(** class [shape].  The private [_sData] is read by the constructor only
    and is not kept. *)
Record shape : Set := mkShape {
  sType       : string;
  coordinates : list (list coord);
  outline     : list coord;
  cutouts     : list (list coord);
  height      : float
}.

(** class [part]; [part_coordinates] is the list [[xPos, yPos, rot]].  The
    private [_pData] aliases the two-line buffer that [getParts] overwrites
    for the next part, but nothing reads it once the constructor has run,
    so it is not kept. *)
Record part : Set := mkPart {
  part_coordinates : float * float * float;
  side   : string;
  name   : string;
  refDes : string
}.

(** class [drill]; [drill_coordinates] is the list [[xPos, yPos]]. *)
Record drill : Set := mkDrill {
  drill_coordinates : float * float;
  diameter : float
}.

(** What [shape.__str__], [part.__str__] and [drill.__str__] interpolate. *)
Record shape_str : Set := mkShapeStr { ss_type : string; ss_x : float; ss_y : float }.
Record part_str : Set :=
  mkPartStr { ps_name : string; ps_refDes : string; ps_x : float; ps_y : float }.
Record drill_str : Set := mkDrillStr { ds_dia : float; ds_x : float; ds_y : float }.

(** The messages appended to [self.errors], one constructor per template. *)
Inductive diag : Set :=
| NoUnits                                           (* getUnits *)
| InvalidChars (nm rd : string)                     (* checkLibErrors *)
| NotInLibrary (nm : string)
| InvalidCharsSummary
| TooShort (s : shape_str)                          (* checkHeightErrors *)
| RecommendKeepout
| ShapeNegative (s : shape_str)                     (* checkNegErrors *)
| PartNegative (p : part_str)
| DrillNegative (d : drill_str)
| NotClosed (s : shape_str)                         (* checkClosedErrors *)
| CutoutNotClosed (s : shape_str) (x y : float)
| RRefDes (p : part_str)                            (* checkRefDesErrors *)
| CircularCutout (s : shape_str) (x y : float)      (* checkRoundCutout *)
| NoShapes                                          (* checkEmpty *)
| InfinitesimalArc (x y : float).                   (* checkArcAngle *)

(** class [emnObj] *)
Record emnObj : Set := mkEmn {
  emnData  : list string;
  fileName : string;
  parts    : list part;
  shapes   : list shape;
  errors   : list diag;
  units    : string;
  drills   : list drill
}.

(** [self.errors.append(d)] *)
Definition append_error (e : emnObj) (d : diag) : emnObj :=
  mkEmn (emnData e) (fileName e) (parts e) (shapes e) (errors e ++ [d])
        (units e) (drills e).

Definition set_errors (e : emnObj) (ds : list diag) : emnObj :=
  mkEmn (emnData e) (fileName e) (parts e) (shapes e) ds (units e) (drills e).

(** ** Message texts *)

Section Text.
(** ["%.2f" % x] *)
Variable fmt2 : float -> string.

Definition point_text (x y : float) : string :=
  "[" ++ fmt2 x ++ "," ++ fmt2 y ++ "]".

Definition shape_text (s : shape_str) : string :=
  ss_type s ++ " starting at " ++ point_text (ss_x s) (ss_y s).

Definition part_text (p : part_str) : string :=
  ps_name p ++ " (" ++ ps_refDes p ++ ") at " ++ point_text (ps_x p) (ps_y p).

Definition drill_text (d : drill_str) : string :=
  "Drill with diameter " ++ fmt2 (ds_dia d) ++ " at "
    ++ point_text (ds_x d) (ds_y d).

Definition diag_text (d : diag) : string :=
  match d with
  | NoUnits => "Could not find units in file"
  | InvalidChars nm rd =>
      nm ++ " (" ++ rd ++ ") has invalid characters in its part name."
  | NotInLibrary nm => nm ++ " not found in parts library"
  | InvalidCharsSummary =>
      "Part names with invalid characters were detected. "
        ++ "Please check CircuitWorks settings."
  | TooShort s =>
      shape_text s ++ " is too short to be checked in Board Modeler Lite."
  | RecommendKeepout =>
      "Recommend using .PLACE_KEEPOUT instead of zero-height placement areas."
  | ShapeNegative s => shape_text s ++ " has coordinates in negative X,Y space."
  | PartNegative p => "Part " ++ part_text p ++ " is in negative X,Y space."
  | DrillNegative d => drill_text d ++ " is in negative X,Y space."
  | NotClosed s => shape_text s ++ " is not a closed shape."
  | CutoutNotClosed s x y =>
      shape_text s ++ " has a cutout at " ++ point_text x y
        ++ " that is not a closed shape."
  | RRefDes p => part_text p ++ " has an 'R' reference designator."
  | CircularCutout s x y =>
      shape_text s ++ " has a cutout at " ++ point_text x y
        ++ " that is circular."
  | NoShapes => "No shapes found. Is this IDF 3.0 data?"
  | InfinitesimalArc x y =>
      "Infinitesimal arc intersection found at " ++ point_text x y
  end.
End Text.

(** ** class shape *)

Definition len {A : Type} (l : list A) : Z := Z.of_nat (List.length l).

(** [shape.__str__]: the type and the first outline vertex. *)
Definition shape__str__ (sh : shape) : result shape_str :=
  v <- index (outline sh) 0 ;;
  Ok (mkShapeStr (sType sh) (xPos v) (yPos v)).

(** State of the second loop of [shape.getCoords]. *)
Record coords_state : Set := mkCoordsState {
  subshapeList    : list (list coord);
  currentSubshape : list coord;
  cutoutIndex     : float
}.

(** One iteration of [for line in shapeStrs], [line] being the four fields
    of a coordinate line. *)
Definition getCoords_step (st : coords_state) (line : list string)
  : result coords_state :=
  f0 <- index line 0 ;; c <- float_of_str f0 ;;
  f1 <- index line 1 ;; x <- float_of_str f1 ;;
  f2 <- index line 2 ;; y <- float_of_str f2 ;;
  f3 <- index line 3 ;; a <- float_of_str f3 ;;
  let coord := mkCoord c x y a in
  if (cutoutIndex st =? cutout coord)%float then
    Ok (mkCoordsState (subshapeList st) (currentSubshape st ++ [coord])
                      (cutoutIndex st))
  else
    Ok (mkCoordsState (subshapeList st ++ [currentSubshape st]) [coord]
                      (cutout coord)).

(** The first loop of [shape.getCoords]: only and all lines of four fields
    are coordinate lines. *)
Definition shapeStrs (sData : list string) : list (list string) :=
  map split (filter (fun line => (len (split line) =? 4)%Z) sData).

Definition getCoords (sData : list string) : result (list (list coord)) :=
  st <- for_each getCoords_step (shapeStrs sData) (mkCoordsState [] [] 0) ;;
  Ok (subshapeList st ++ [currentSubshape st]).

Definition getHeight (sType : string) (sData : list string) : result float :=
  if String.eqb sType BOARD_START then
    l <- index sData 1 ;; float_of_str l
  else if (String.eqb sType OTHER_START || String.eqb sType PLACE_OUTLINE_START)%bool then
    line <- index sData 1 ;;
    f <- index (split line) 1 ;;
    float_of_str f
  else Ok 0%float.

(** [shape(sData)] *)
Definition shape_init (sData : list string) : result shape :=
  l0 <- index sData 0 ;;
  ty <- index (split l0) 0 ;;
  cs <- getCoords sData ;;
  ol <- index cs 0 ;;
  h <- getHeight ty sData ;;
  Ok (mkShape ty cs ol (tl cs) h).

(** ** class part *)

Definition part__str__ (p : part) : part_str :=
  let '(x, y, _) := part_coordinates p in
  mkPartStr (name p) (refDes p) x y.

Definition part_getCoords (pData : string * string)
  : result (float * float * float) :=
  f0 <- index (split (snd pData)) 0 ;; x <- float_of_str f0 ;;
  f1 <- index (split (snd pData)) 1 ;; y <- float_of_str f1 ;;
  f3 <- index (split (snd pData)) 3 ;; r <- float_of_str f3 ;;
  Ok (x, y, r).

Definition dquote : ascii := ascii_of_nat 34.

Definition getNames (pData : string * string) : result (string * string) :=
  if str_in (String dquote EmptyString) (fst pData) then
    pName <- index (split_on dquote (fst pData)) 1 ;;
    rName <- index (split_on dquote (fst pData)) (-1) ;;
    Ok (pName, strip rName)
  else
    pName <- index (split (fst pData)) 0 ;;
    rName <- index (split (fst pData)) (-1) ;;
    Ok (pName, rName).

(** [part(pData)], [pData] being the two lines of a placement record. *)
Definition part_init (pData : string * string) : result part :=
  xy <- part_getCoords pData ;;
  sd <- index (split (snd pData)) 4 ;;
  '(pName, rName) <- getNames pData ;;
  Ok (mkPart xy sd pName rName).

(** ** class drill *)

Definition drill_init (dData : string) : result drill :=
  f0 <- index (split dData) 0 ;; dia <- float_of_str f0 ;;
  f1 <- index (split dData) 1 ;; x <- float_of_str f1 ;;
  f2 <- index (split dData) 2 ;; y <- float_of_str f2 ;;
  Ok (mkDrill (x, y) dia).

Definition drill__str__ (d : drill) : drill_str :=
  mkDrillStr (diameter d) (fst (drill_coordinates d)) (snd (drill_coordinates d)).

(** ** class emnObj: the scanners run by the constructor *)

Record parts_state : Set := mkPartsState {
  partsRange : bool;
  firstLine  : bool;
  partLines0 : string;
  partList   : list part
}.

Definition getParts_step (st : parts_state) (line : string) : result parts_state :=
  let range := if str_in PLACEMENT_END line then false else partsRange st in
  st' <- (if range then
            if firstLine st then Ok (mkPartsState range false line (partList st))
            else
              p <- part_init (partLines0 st, line) ;;
              Ok (mkPartsState range true (partLines0 st) (partList st ++ [p]))
          else Ok (mkPartsState range (firstLine st) (partLines0 st) (partList st))) ;;
  Ok (if str_in PLACEMENT_START line
      then mkPartsState true (firstLine st') (partLines0 st') (partList st')
      else st').

Definition getParts (emnData : list string) : result (list part) :=
  st <- for_each getParts_step emnData (mkPartsState false true EmptyString []) ;;
  Ok (partList st).

Record shapes_state : Set := mkShapesState {
  shapeList    : list shape;
  currentLines : list string;
  coordRange   : bool
}.

(** [for keyword in SHAPE_ENDS: if keyword in line: ...] *)
Definition getShapes_end (line : string) (st : shapes_state) (keyword : string)
  : result shapes_state :=
  if str_in keyword line then
    sh <- shape_init (currentLines st) ;;
    Ok (mkShapesState (shapeList st ++ [sh]) [] false)
  else Ok st.

Definition getShapes_step (st : shapes_state) (line : string) : result shapes_state :=
  let range :=
    fold_left (fun r keyword => if str_in keyword line then true else r)
              SHAPE_STARTS (coordRange st) in
  let lines := if range then currentLines st ++ [line] else currentLines st in
  for_each (getShapes_end line) SHAPE_ENDS (mkShapesState (shapeList st) lines range).

Definition getShapes (emnData : list string) : result (list shape) :=
  st <- for_each getShapes_step emnData (mkShapesState [] [] false) ;;
  Ok (shapeList st).

(** [getUnits]: the loop leaves at the first line naming a unit, or at the
    header end, where it appends to [errors]. Returns [boardUnits] and the
    new [errors]. *)
Fixpoint getUnits_loop (lines : list string) (boardUnits : string)
  (errs : list diag) : string * list diag :=
  match lines with
  | [] => (boardUnits, errs)
  | line :: rest =>
      if str_in "THOU" line then ("THOU", errs)
      else if str_in "MM" line then ("MM", errs)
      else if str_in HEADER_END line then ("ERROR", errs ++ [NoUnits])
      else getUnits_loop rest "ERROR" errs
  end.

Definition getUnits (emnData : list string) (errs : list diag)
  : string * list diag :=
  getUnits_loop emnData EmptyString errs.

Record drills_state : Set := mkDrillsState {
  drillList  : list drill;
  drillRange : bool
}.

Definition getDrills_step (st : drills_state) (line : string) : result drills_state :=
  let range := if str_in DRILL_END line then false else drillRange st in
  ds <- (if range then d <- drill_init line ;; Ok (drillList st ++ [d])
         else Ok (drillList st)) ;;
  Ok (mkDrillsState ds (if str_in DRILL_START line then true else range)).

Definition getDrills (emnData : list string) : result (list drill) :=
  st <- for_each getDrills_step emnData (mkDrillsState [] false) ;;
  Ok (drillList st).

(** [emnObj(currentData, fname)]: parts, shapes, then [errors = []], units
    (which may append to [errors]), drills. *)
Definition emnObj_init (currentData : list string) (fname : string) : result emnObj :=
  ps <- getParts currentData ;;
  ss <- getShapes currentData ;;
  let '(u, errs) := getUnits currentData [] in
  ds <- getDrills currentData ;;
  Ok (mkEmn currentData fname ps ss errs u ds).

(** ** class emnObj: the error checking suite *)

(** The float literals [0.026] and [0.01], and the integer literals the
    checks compare floats with. *)
Definition lit_0_026 : float := 0x1.a9fbe76c8b439p-6%float.
Definition lit_0_01  : float := 0x1.47ae147ae147bp-7%float.

(** [toCheck] of [checkClosedErrors] and [checkArcAngle]: the outline, then
    the cutouts when there are any. *)
Definition toCheck_of (sh : shape) : list (list coord) :=
  [outline sh] ++ match cutouts sh with
                  | [] => []
                  | _ :: _ => cutouts sh
                  end.

(** *** checkHeightErrors *)

(** One iteration over [self.shapes]; the state is [heightFlag] and
    [self]. *)
Definition checkHeightErrors_step (st : bool * emnObj) (currentShape : shape)
  : result (bool * emnObj) :=
  let '(heightFlag, e) := st in
  let '(heightError, heightFlag) :=
    if (String.eqb (sType currentShape) PLACE_OUTLINE_START
        && String.eqb (units e) "MM"
        && (height currentShape <=? lit_0_026)%float)%bool
    then (true, true)
    else if (String.eqb (sType currentShape) PLACE_OUTLINE_START
             && String.eqb (units e) "THOU"
             && (height currentShape <=? 1)%float)%bool
    then (true, true)
    else (false, heightFlag) in
  if heightError : bool then
    s <- shape__str__ currentShape ;;
    Ok (heightFlag, append_error e (TooShort s))
  else Ok (heightFlag, e).

Definition checkHeightErrors (e : emnObj) : result emnObj :=
  '(heightFlag, e1) <- for_each checkHeightErrors_step (shapes e) (false, e) ;;
  Ok (if heightFlag : bool then append_error e1 RecommendKeepout else e1).

(** *** checkNegErrors *)

Definition negShape_of (sh : shape) : bool :=
  fold_left
    (fun neg coordList =>
       fold_left
         (fun neg c =>
            if ((xPos c <? 0) || (yPos c <? 0))%float then true else neg)
         coordList neg)
    (coordinates sh) false.

Definition checkNeg_shape (e : emnObj) (currentShape : shape) : result emnObj :=
  if negShape_of currentShape then
    s <- shape__str__ currentShape ;;
    Ok (append_error e (ShapeNegative s))
  else Ok e.

Definition checkNeg_part (e : emnObj) (currentPart : part) : result emnObj :=
  let '(x, y, _) := part_coordinates currentPart in
  Ok (if ((x <? 0) || (y <? 0))%float
      then append_error e (PartNegative (part__str__ currentPart))
      else e).

Definition checkNeg_drill (e : emnObj) (currentDrill : drill) : result emnObj :=
  let '(x, y) := drill_coordinates currentDrill in
  Ok (if ((x <? 0) || (y <? 0))%float
      then append_error e (DrillNegative (drill__str__ currentDrill))
      else e).

Definition checkNegErrors (e : emnObj) : result emnObj :=
  e1 <- for_each checkNeg_shape (shapes e) e ;;
  e2 <- for_each checkNeg_part (parts e) e1 ;;
  for_each checkNeg_drill (drills e) e2.

(** *** checkClosedErrors *)

(** [a[:3] != b[:3]] for two vertices held by different list objects: the
    elementwise comparison of the first three fields. *)
Definition slice3_ne (a b : coord) : bool :=
  negb ((cutout a =? cutout b) && (xPos a =? xPos b) && (yPos a =? yPos b))%float.

Definition checkClosed_sub (currentShape : shape) (e : emnObj) (s : list coord)
  : result emnObj :=
  open3 <- (if (3 <=? len s)%Z then
              a <- index s 0 ;; b <- index s (-1) ;; Ok (slice3_ne a b)
            else Ok false) ;;
  if open3 : bool then
    a <- index s 0 ;;
    if (cutout a =? 0)%float then
      str <- shape__str__ currentShape ;;
      Ok (append_error e (NotClosed str))
    else
      str <- shape__str__ currentShape ;;
      Ok (append_error e (CutoutNotClosed str (xPos a) (yPos a)))
  else
    open2 <- (if (len s =? 2)%Z then
                v <- index s 1 ;; Ok (fneq (arc v) 360)
              else Ok false) ;;
    if open2 : bool then
      str <- shape__str__ currentShape ;;
      Ok (append_error e (NotClosed str))
    else Ok e.

Definition checkClosed_shape (e : emnObj) (currentShape : shape) : result emnObj :=
  for_each (checkClosed_sub currentShape) (toCheck_of currentShape) e.

Definition checkClosedErrors (e : emnObj) : result emnObj :=
  for_each checkClosed_shape (shapes e) e.

(** *** checkRefDesErrors *)

Definition checkRefDes_part (e : emnObj) (p : part) : result emnObj :=
  c <- first_char (refDes p) ;;
  Ok (if Ascii.eqb c "R" then append_error e (RRefDes (part__str__ p)) else e).

Definition checkRefDesErrors (e : emnObj) : result emnObj :=
  for_each checkRefDes_part (parts e) e.

(** *** checkRoundCutout *)

(** The first loop: [toCheck] is reset at every shape, and [currentShape]
    keeps its last value once the loop is over. *)
Definition roundCutout_scan (st : list (list coord) * option shape)
  (currentShape : shape) : list (list coord) * option shape :=
  (match cutouts currentShape with
   | [] => []
   | _ :: _ => cutouts currentShape
   end, Some currentShape).

(** The second loop, run after the first. *)
Definition checkRound_sub (currentShape : option shape) (e : emnObj)
  (s : list coord) : result emnObj :=
  round <- (if (len s =? 2)%Z then
              v <- index s 1 ;; Ok (arc v =? 360)%float
            else Ok false) ;;
  if round : bool then
    sh <- match currentShape with
          | Some sh => Ok sh
          | None => Raise NameError
          end ;;
    str <- shape__str__ sh ;;
    a <- index s 0 ;;
    Ok (append_error e (CircularCutout str (xPos a) (yPos a)))
  else Ok e.

Definition checkRoundCutout (e : emnObj) : result emnObj :=
  let '(toCheck, currentShape) :=
    fold_left roundCutout_scan (shapes e) ([], None) in
  for_each (checkRound_sub currentShape) toCheck e.

(** *** checkEmpty *)

Definition checkEmpty (e : emnObj) : result emnObj :=
  Ok (match shapes e with
      | [] => append_error e NoShapes
      | _ :: _ => e
      end).

Section Suite.

(** [math.atan2] and [str.upper], supplied by the platform. *)
Variable atan2 : float -> float -> float.
Variable upper : string -> string.

(** *** checkArcAngle *)

(** The body of [for i in range(len(s))], [s] being the sub-shape without
    its first vertex. *)
Definition checkArc_at (s : list coord) (e : emnObj) (i : Z) : result emnObj :=
  v0 <- index s (i - 1) ;;
  v1 <- index s i ;;
  let phi0 := arc v0 in
  let phi1 := arc v1 in
  if (truthy phi0 || truthy phi1)%bool then
    let phi0 := radians phi0 in
    let phi1 := radians phi1 in
    p0 <- index s (i - 2) ;;
    p1 <- index s (i - 1) ;;
    p2 <- index s i ;;
    let alpha0 := atan2 (yPos p0 - yPos p1)%float (xPos p0 - xPos p1)%float in
    let alpha1 := atan2 (yPos p2 - yPos p1)%float (xPos p2 - xPos p1)%float in
    alpha0 <- fmod (alpha0 + tau)%float tau ;;
    alpha1 <- fmod (alpha1 + tau)%float tau ;;
    let beta0 := (alpha0 + phi0 / 2)%float in
    let beta1 := (alpha1 - phi1 / 2)%float in
    let delta := fabs (beta1 - beta0)%float in
    delta <- fmod delta tau ;;
    if (isclose delta 0 lit_0_01 lit_0_01 || isclose delta tau lit_0_01 lit_0_01)%bool
    then Ok (append_error e (InfinitesimalArc (xPos p1) (yPos p1)))
    else Ok e
  else Ok e.

Definition checkArc_sub (e : emnObj) (s : list coord) : result emnObj :=
  let s := tl s in
  if (2 <? len s)%Z then for_each (checkArc_at s) (range (List.length s)) e
  else Ok e.

Definition checkArc_shape (e : emnObj) (currentShape : shape) : result emnObj :=
  for_each checkArc_sub (toCheck_of currentShape) e.

Definition checkArcAngle (e : emnObj) : result emnObj :=
  for_each checkArc_shape (shapes e) e.

(** *** checkLibErrors *)

Definition checkLib_part (partsLibrary : list string) (st : bool * emnObj)
  (p : part) : result (bool * emnObj) :=
  let '(circFlag, e) := st in
  let invalid :=
    (str_in "_" (name p) || str_in "^" (name p) || str_in "_cc" (name p))%bool in
  let e1 := if invalid then append_error e (InvalidChars (name p) (refDes p)) else e in
  let invCharFlag := invalid in
  let circFlag := if invalid then true else circFlag in
  Ok (circFlag,
      if (negb (list_in (upper (name p)) partsLibrary) && negb invCharFlag)%bool
      then append_error e1 (NotInLibrary (name p))
      else e1).

Definition checkLibErrors (e : emnObj) (partsLibrary : list string) : result emnObj :=
  '(circFlag, e1) <- for_each (checkLib_part partsLibrary) (parts e) (false, e) ;;
  Ok (if circFlag : bool then append_error e1 InvalidCharsSummary else e1).

(** *** checkAllErrors *)

(** [if(partsLibrary)]: a list is true when it is not empty; [None] is
    false. *)
Definition library_given (partsLibrary : option (list string)) : bool :=
  match partsLibrary with
  | Some (_ :: _) => true
  | _ => false
  end.

Definition checkAllErrors (e : emnObj) (partsLibrary : option (list string))
  : result emnObj :=
  e <- checkHeightErrors e ;;
  e <- checkNegErrors e ;;
  e <- checkClosedErrors e ;;
  e <- checkRefDesErrors e ;;
  e <- checkRoundCutout e ;;
  e <- checkEmpty e ;;
  e <- checkArcAngle e ;;
  if library_given partsLibrary
  then checkLibErrors e (match partsLibrary with Some lib => lib | None => [] end)
  else Ok e.

End Suite.

(* ================================================================= *)
(** * Part III.  idfCheckingTool.py                                  *)
(* ================================================================= *)

(** [getEmnsInFolder], the files matched by [glob.glob("*.emn")] being given
    as pairs of a name and its lines. *)
Definition getEmnsInFolder_step (emnObjList : list emnObj)
  (file : string * list string) : result (list emnObj) :=
  newEmnObj <- emnObj_init (snd file) (fst file) ;;
  Ok (emnObjList ++ [newEmnObj]).

Definition getEmnsInFolder (files : list (string * list string))
  : result (list emnObj) :=
  for_each getEmnsInFolder_step files [].

(** The checking loop of [main] over the boards of the folder: each board is
    checked in turn and its errors are kept in the board. *)
Definition main_check (atan2 : float -> float -> float) (upper : string -> string)
  (files : list (string * list string)) (partsLibrary : list string)
  : result (list emnObj) :=
  emnsToCheck <- getEmnsInFolder files ;;
  map_m (fun currentEmn => checkAllErrors atan2 upper currentEmn (Some partsLibrary))
        emnsToCheck.

(* ================================================================= *)
(** * Part IV.  Concrete platform functions for worked examples      *)
(* ================================================================= *)

(** [math.atan2(y, x)] on the vectors that lie on an axis, where C99
    (Annex F.10.1.4) fixes the result: [+-0] or [+-pi] when [y] is a zero,
    [+-pi/2] when [x] is a zero.  Off the axes the table has no entry and
    answers NaN; the examples only use axis-aligned segments. *)
Definition atan2_axis (y x : float) : float :=
  if (is_nan x || is_nan y)%bool then nan
  else if is_zero y then
    if ((0 <? x)%float || (is_zero x && negb (get_sign x)))%bool then y
    else if get_sign y then (- pi)%float else pi
  else if is_zero x then
    if (0 <? y)%float then (pi / 2)%float else (- (pi / 2))%float
  else nan.

(** [str.upper] on ASCII text. *)
Definition upper_ascii_char (c : ascii) : ascii :=
  if ((97 <=? code c) && (code c <=? 122))%N then ascii_of_N (code c - 32) else c.

Fixpoint upper_ascii (s : string) : string :=
  match s with
  | EmptyString => EmptyString
  | String c r => String (upper_ascii_char c) (upper_ascii r)
  end.

(* ================================================================= *)
(** * Part V.  Vocabulary of the statements                          *)
(* ================================================================= *)

(** ** What a check may change *)

(** [e'] is [e] up to its [errors]. *)
Definition same_model (e e' : emnObj) : Prop :=
  emnData e' = emnData e /\ fileName e' = fileName e /\ parts e' = parts e
  /\ shapes e' = shapes e /\ units e' = units e /\ drills e' = drills e.

(** [e'] is [e] with messages appended, each satisfying [P]. *)
Definition adds (P : diag -> Prop) (e e' : emnObj) : Prop :=
  same_model e e'
  /\ exists added, errors e' = errors e ++ added /\ Forall P added.

Definition is_lib_diag (d : diag) : bool :=
  match d with
  | InvalidChars _ _ | NotInLibrary _ | InvalidCharsSummary => true
  | _ => false
  end.

Definition is_round_diag (d : diag) : bool :=
  match d with CircularCutout _ _ _ => true | _ => false end.

Definition is_closure_diag (d : diag) : bool :=
  match d with NotClosed _ | CutoutNotClosed _ _ _ => true | _ => false end.

(** A message of the suite other than those of the library check. *)
Definition not_lib (d : diag) : Prop := is_lib_diag d = false.

(** The seven checks that need no library, in the order [checkAllErrors]
    runs them. *)
Definition seven_checks (atan2 : float -> float -> float) (e : emnObj) : result emnObj :=
  e <- checkHeightErrors e ;;
  e <- checkNegErrors e ;;
  e <- checkClosedErrors e ;;
  e <- checkRefDesErrors e ;;
  e <- checkRoundCutout e ;;
  e <- checkEmpty e ;;
  checkArcAngle atan2 e.

(** ** Vertices of a sub-shape *)

Definition origin : coord := mkCoord 0 0 0 0.

Definition first_of (s : list coord) : coord := hd origin s.
Definition second_of (s : list coord) : coord := nth 1 s origin.
Definition last_of (s : list coord) : coord := last s origin.

(** The vertex at index [k] of the loop [s], counted circularly. *)
Definition circ (s : list coord) (k : Z) : coord :=
  nth (Z.to_nat (k mod len s)) s origin.

(** The name a message gives a shape that has an outline vertex. *)
Definition label (sh : shape) : shape_str :=
  mkShapeStr (sType sh) (xPos (first_of (outline sh))) (yPos (first_of (outline sh))).

(** ** The span scanner of [getShapes], without the shape constructor *)

(** The inner loop over the end markers: the groups of lines handed to the
    constructor at [line], then the lines and range flag it leaves. *)
Fixpoint spans_end (line : string) (keywords : list string)
  (cur : list string) (range : bool) : list (list string) * list string * bool :=
  match keywords with
  | [] => ([], cur, range)
  | keyword :: rest =>
      if str_in keyword line then
        let '(out, cur', range') := spans_end line rest [] false in
        (cur :: out, cur', range')
      else spans_end line rest cur range
  end.

(** The groups of lines handed to the constructor while scanning [lines]
    from the state [(cur, range)]. *)
Fixpoint spans_from (lines : list string) (cur : list string) (range : bool)
  : list (list string) :=
  match lines with
  | [] => []
  | line :: rest =>
      let range1 :=
        fold_left (fun r keyword => if str_in keyword line then true else r)
                  SHAPE_STARTS range in
      let cur1 := if range1 then cur ++ [line] else cur in
      let '(out, cur2, range2) := spans_end line SHAPE_ENDS cur1 range1 in
      out ++ spans_from rest cur2 range2
  end.

Definition spans_of (lines : list string) : list (list string) :=
  spans_from lines [] false.

(** ** The placement and drill scanners, without the constructors *)

(** The pairs of lines handed to [part] while scanning [lines] from the
    state [(range, first, l0)] of [getParts]. *)
Fixpoint part_records_from (lines : list string) (range first : bool) (l0 : string)
  : list (string * string) :=
  match lines with
  | [] => []
  | line :: rest =>
      let range1 := if str_in PLACEMENT_END line then false else range in
      let range2 := if str_in PLACEMENT_START line then true else range1 in
      if range1 then
        if first then part_records_from rest range2 false line
        else (l0, line) :: part_records_from rest range2 true l0
      else part_records_from rest range2 first l0
  end.

Definition part_records (lines : list string) : list (string * string) :=
  part_records_from lines false true EmptyString.

(** The lines handed to [drill] while scanning [lines] from the state
    [range] of [getDrills]. *)
Fixpoint drill_lines_from (lines : list string) (range : bool) : list string :=
  match lines with
  | [] => []
  | line :: rest =>
      let range1 := if str_in DRILL_END line then false else range in
      let range2 := if str_in DRILL_START line then true else range1 in
      if range1 then line :: drill_lines_from rest range2
      else drill_lines_from rest range2
  end.

Definition drill_lines (lines : list string) : list string :=
  drill_lines_from lines false.

(** Field [k] of a record exists and [float] rejects it. *)
Definition bad_number (fields : list string) (k : Z) : Prop :=
  exists f, index fields k = Ok f /\ float_of_str f = Raise ValueError.

(** A record line that reaches its decoder with a malformed numeric field:
    a four-field line of a group handed to [shape], the second line of a
    pair handed to [part] (fields 0, 1, 3), or a line handed to [drill]
    (fields 0, 1, 2). *)
Definition malformed_record (lines : list string) : Prop :=
  (exists span line k,
      In span (spans_of lines) /\ In line span /\ len (split line) = 4%Z
      /\ (0 <= k < 4)%Z /\ bad_number (split line) k)
  \/ (exists rec k,
         In rec (part_records lines) /\ (k = 0 \/ k = 1 \/ k = 3)%Z
         /\ bad_number (split (snd rec)) k)
  \/ (exists line k,
         In line (drill_lines lines) /\ (k = 0 \/ k = 1 \/ k = 2)%Z
         /\ bad_number (split line) k).

(** ** Shapes of a placement line *)

Fixpoint all_chars (p : ascii -> bool) (s : string) : bool :=
  match s with
  | EmptyString => true
  | String c r => (p c && all_chars p r)%bool
  end.

(** No double quote occurs in [s]. *)
Definition no_quote (s : string) : bool :=
  all_chars (fun c => negb (Ascii.eqb c dquote)) s.

(** [s] is made of whitespace only. *)
Definition blank (s : string) : bool := all_chars isspace s.

(** ** Height rule, in the words of the specification *)

Definition flagged_height (u : string) (sh : shape) : bool :=
  (String.eqb (sType sh) PLACE_OUTLINE_START
   && ((String.eqb u "MM" && (height sh <=? lit_0_026)%float)
       || (String.eqb u "THOU" && (height sh <=? 1)%float)))%bool.

Definition height_diags (u : string) (ss : list shape) : list diag :=
  flat_map (fun sh => if flagged_height u sh then [TooShort (label sh)] else []) ss
  ++ (if existsb (flagged_height u) ss then [RecommendKeepout] else []).

(** ** Closure rule, in the words of the specification *)

Definition xy_differs (a b : coord) : bool :=
  negb ((xPos a =? xPos b) && (yPos a =? yPos b))%float.

(** A sub-shape of three or more vertices is open when its first and last
    positions differ; one of exactly two vertices is open unless the second
    sweeps a full circle. *)
Definition open_sub (s : list coord) : bool :=
  if (3 <=? len s)%Z then xy_differs (first_of s) (last_of s)
  else if (len s =? 2)%Z then fneq (arc (second_of s)) 360
  else false.

(** The message for an open sub-shape: the cutout form, with the start of
    the sub-shape, when it has three or more vertices and a loop index
    other than 0. *)
Definition closure_diag (sh : shape) (s : list coord) : diag :=
  if ((3 <=? len s)%Z && negb (cutout (first_of s) =? 0)%float)%bool
  then CutoutNotClosed (label sh) (xPos (first_of s)) (yPos (first_of s))
  else NotClosed (label sh).

Definition closure_diags (ss : list shape) : list diag :=
  flat_map
    (fun sh =>
       flat_map (fun s => if open_sub s then [closure_diag sh s] else [])
                (toCheck_of sh))
    ss.

(** All vertices of a sub-shape carry one loop index: the builder's
    partition into runs. *)
Definition one_loop (s : list coord) : Prop :=
  (forall v, In v s -> (0 =? cutout v)%float = true)
  \/ (forall v, In v (tl s) -> (cutout (first_of s) =? cutout v)%float = true).

(** ** What the shape builder establishes *)

(** The run being read: it started at the top with index 0, or at a vertex
    whose index became the current one. *)
Definition run_ok (cur : list coord) (k : float) : Prop :=
  (k = 0%float /\ forall v, In v cur -> (0 =? cutout v)%float = true)
  \/ (exists c r, cur = c :: r /\ k = cutout c
                  /\ forall v, In v r -> (cutout c =? cutout v)%float = true).

Definition coords_inv (st : coords_state) : Prop :=
  Forall one_loop (subshapeList st) /\ run_ok (currentSubshape st) (cutoutIndex st).

(** What the constructor establishes. *)
Definition built (sh : shape) : Prop :=
  coordinates sh = outline sh :: cutouts sh /\ Forall one_loop (coordinates sh).

(** ** Arc-tangent rule, in the words of the specification *)

(** The tangency test at the vertex [shared], reached by the segment of
    sweep [phi0] from [before] and left by the segment of sweep [phi1]
    toward [after]. *)
Definition tangent_defect (atan2 : float -> float -> float) (phi0 phi1 : float)
  (before shared after : coord) : result bool :=
  if (truthy phi0 || truthy phi1)%bool then
    alpha0 <- fmod (atan2 (yPos before - yPos shared) (xPos before - xPos shared)
                    + tau)%float tau ;;
    alpha1 <- fmod (atan2 (yPos after - yPos shared) (xPos after - xPos shared)
                    + tau)%float tau ;;
    let beta0 := (alpha0 + radians phi0 / 2)%float in
    let beta1 := (alpha1 - radians phi1 / 2)%float in
    delta <- fmod (fabs (beta1 - beta0)%float) tau ;;
    Ok (isclose delta 0 lit_0_01 lit_0_01 || isclose delta tau lit_0_01 lit_0_01)%bool
  else Ok false.

(** What the test finds at index [i] of the loop [s], a sub-shape without
    its first vertex, indices counted circularly: [phi0] is the sweep of
    vertex [i-1], [phi1] that of vertex [i]; the tangents are compared at
    vertex [i-1], between vertex [i-2] and vertex [i]; a defect gives one
    message, which carries vertex [i-1]. *)
Definition arc_finding (atan2 : float -> float -> float) (s : list coord) (i : Z)
  : result (list diag) :=
  defect <- tangent_defect atan2 (arc (circ s (i - 1))) (arc (circ s i))
              (circ s (i - 2)) (circ s (i - 1)) (circ s i) ;;
  Ok (if defect : bool
      then [InfinitesimalArc (xPos (circ s (i - 1))) (yPos (circ s (i - 1)))]
      else []).

(** Every index of a sub-shape that keeps more than 2 vertices once its
    first vertex is dropped; nothing for a shorter one. *)
Definition arc_findings_sub (atan2 : float -> float -> float) (s0 : list coord)
  : result (list diag) :=
  if (2 <? len (tl s0))%Z then
    found <- map_m (arc_finding atan2 (tl s0)) (range (List.length (tl s0))) ;;
    Ok (List.concat found)
  else Ok [].

(** The outline, then each cutout. *)
Definition arc_findings_shape (atan2 : float -> float -> float) (sh : shape)
  : result (list diag) :=
  found <- map_m (arc_findings_sub atan2) (outline sh :: cutouts sh) ;;
  Ok (List.concat found).

(** Every shape of the board, in order. *)
Definition arc_findings (atan2 : float -> float -> float) (ss : list shape)
  : result (list diag) :=
  found <- map_m (arc_findings_shape atan2) ss ;;
  Ok (List.concat found).

(* ================================================================= *)
(** * Part VI.  Worked inputs                                        *)
(* ================================================================= *)

Definition LF : string := String (ascii_of_nat 10) EmptyString.

(** The lines of a file as iterating over it yields them: each ends with
    its newline. *)
Definition file_lines (ls : list string) : list string :=
  map (fun l => (l ++ LF)%string) ls.

Definition header_mm : list string :=
  [".HEADER"; "BOARD_FILE 3.0 demo 2020/01/01 1"; "board MM"; ".END_HEADER"].

(** A header that ends without naming a unit. *)
Definition ex_no_units : list string :=
  file_lines [".HEADER"; "BOARD_FILE 3.0 demo 2020/01/01 1"; ".END_HEADER"].

(** A closed outline (1,0) -> (2,0) -> (0,0) -> (1,0) whose last segment is
    an arc of half a degree: the boundary turns back on itself at (0,0). *)
Definition ex_spike : list string :=
  file_lines (header_mm ++
    [".BOARD_OUTLINE MCAD"; "1.6";
     "0 1 0 0"; "0 2 0 0"; "0 0 0 0"; "0 1 0 0.5";
     ".END_BOARD_OUTLINE"]).

Definition spike_A : coord := mkCoord 0 2 0 0.
Definition spike_B : coord := mkCoord 0 0 0 0.
Definition spike_C : coord := mkCoord 0 1 0 0.5.

(** A board outline with a full-circle cutout at (2,2), followed by a
    second shape without cutouts. *)
Definition ex_round_then_plain : list string :=
  file_lines (header_mm ++
    [".BOARD_OUTLINE MCAD"; "1.6";
     "0 0 0 0"; "0 9 0 0"; "0 9 9 0"; "0 0 0 0";
     "1 2 2 0"; "1 3 2 360";
     ".END_BOARD_OUTLINE";
     ".OTHER_OUTLINE MCAD"; "shield 1.0 TOP";
     "0 0 0 0"; "0 4 0 0"; "0 4 4 0"; "0 0 0 0";
     ".END_OTHER_OUTLINE"]).

(** The same file cut after its first shape. *)
Definition ex_round_alone : list string := firstn 13 ex_round_then_plain.

(** A routing keepout section, spelled as IDF 3.0 spells it. *)
Definition ex_route_keepout : list string :=
  file_lines (header_mm ++
    [".ROUTE_KEEPOUT ECAD"; "ALL";
     "0 0 0 0"; "0 1 0 0"; "0 1 1 0"; "0 0 0 0";
     ".END_ROUTE_KEEPOUT"]).

(** The same vertices in a routing outline section. *)
Definition ex_route_outline : list string :=
  file_lines (header_mm ++
    [".ROUTE_OUTLINE ECAD"; "ALL";
     "0 0 0 0"; "0 1 0 0"; "0 1 1 0"; "0 0 0 0";
     ".END_ROUTE_OUTLINE"]).

(** A board outline whose second vertex has a malformed y field. *)
Definition ex_bad_vertex : list string :=
  file_lines (header_mm ++
    [".BOARD_OUTLINE MCAD"; "1.6";
     "0 0 0 0"; "0 9 0,5 0"; "0 9 9 0"; "0 0 0 0";
     ".END_BOARD_OUTLINE"]).

Definition ex_good : list string :=
  file_lines (header_mm ++
    [".BOARD_OUTLINE MCAD"; "1.6";
     "0 0 0 0"; "0 9 0 0"; "0 9 9 0"; "0 0 0 0";
     ".END_BOARD_OUTLINE"]).

(** The malformed vertex line in a section that no end marker closes. *)
Definition ex_bad_vertex_unclosed : list string := removelast ex_bad_vertex.

(** A placement record whose rotation, and a drilled hole whose diameter,
    is not a number. *)
Definition ex_bad_part : list string :=
  file_lines (header_mm ++
    [".PLACEMENT"; "cap_0402 PN-1 C1"; "10.0 20.0 0.0 ninety TOP PLACED";
     ".END_PLACEMENT"]).

Definition ex_bad_drill : list string :=
  file_lines (header_mm ++
    [".DRILLED_HOLES"; "0.8mm 5.0 5.0 PTH BOARD VIA ECAD"; ".END_DRILLED_HOLES"]).

Definition ex_batch : list (string * list string) :=
  [("a_bad.emn", ex_bad_vertex); ("b_good.emn", ex_good)].

(** A placement outline of height 0 with no vertex line. *)
Definition ex_place_outline_bare : list string :=
  file_lines (header_mm ++
    [".PLACE_OUTLINE MCAD"; "TOP 0.0"; ".END_PLACE_OUTLINE"]).

(** Placement outlines at and just above the two height limits. *)
Definition ex_place_outline (h : string) : list string :=
  [".PLACE_OUTLINE MCAD"; ("TOP " ++ h)%string;
   "0 0 0 0"; "0 5 0 0"; "0 5 5 0"; "0 0 0 0";
   ".END_PLACE_OUTLINE"].

Definition ex_heights (unit_line : string) : list string :=
  file_lines ([".HEADER"; "BOARD_FILE 3.0 demo 2020/01/01 1"; unit_line; ".END_HEADER"]
              ++ ex_place_outline "0.026" ++ ex_place_outline "0.0261"
              ++ ex_place_outline "1" ++ ex_place_outline "1.01").

(** A board outline section whose only loop is numbered 1, and is open. *)
Definition ex_cutout_only : list string :=
  file_lines (header_mm ++
    [".BOARD_OUTLINE MCAD"; "1.6";
     "1 0 0 0"; "1 1 0 0"; "1 1 1 0";
     ".END_BOARD_OUTLINE"]).

(** An open outline, one closed and one open cutout, and a two-vertex
    cutout that is not a full circle. *)
Definition ex_open_shapes : list string :=
  file_lines (header_mm ++
    [".BOARD_OUTLINE MCAD"; "1.6";
     "0 0 0 0"; "0 9 0 0"; "0 9 9 0";
     "1 2 2 0"; "1 3 2 0"; "1 3 3 0"; "1 2 2 0";
     "2 5 5 0"; "2 6 5 0"; "2 6 6 0";
     "3 7 7 0"; "3 8 7 180";
     ".END_BOARD_OUTLINE"]).

(** A placement outline of height 5 without a vertex line, then one of
    height 0 with its vertices. *)
Definition ex_place_outline_mixed : list string :=
  file_lines (header_mm
              ++ [".PLACE_OUTLINE MCAD"; "TOP 5.0"; ".END_PLACE_OUTLINE"]
              ++ ex_place_outline "0.0").

(** A placement outline of height 0 with its vertices, then one of height
    0 without a vertex line. *)
Definition ex_place_outline_then_bare : list string :=
  file_lines (header_mm
              ++ ex_place_outline "0.0"
              ++ [".PLACE_OUTLINE MCAD"; "TOP 0.0"; ".END_PLACE_OUTLINE"]).

(** A section whose only loop is numbered 1 and is closed, then an open
    board outline. *)
Definition ex_closed_cutout_only_then_open : list string :=
  file_lines (header_mm ++
    [".OTHER_OUTLINE MCAD"; "shield 1.0 TOP";
     "1 0 0 0"; "1 1 0 0"; "1 1 1 0"; "1 0 0 0";
     ".END_OTHER_OUTLINE";
     ".BOARD_OUTLINE MCAD"; "1.6";
     "0 0 0 0"; "0 9 0 0"; "0 9 9 0";
     ".END_BOARD_OUTLINE"]).

(** Two shapes with straight outlines; the cutout of the second is the
    loop of [ex_spike] moved to (3,3). *)
Definition ex_spike_in_cutout : list string :=
  file_lines (header_mm ++
    [".BOARD_OUTLINE MCAD"; "1.6";
     "0 0 0 0"; "0 9 0 0"; "0 9 9 0"; "0 0 9 0"; "0 0 0 0";
     ".END_BOARD_OUTLINE";
     ".OTHER_OUTLINE MCAD"; "shield 1.0 TOP";
     "0 0 0 0"; "0 8 0 0"; "0 8 8 0"; "0 0 8 0"; "0 0 0 0";
     "1 4 3 0"; "1 5 3 0"; "1 3 3 0"; "1 4 3 0.5";
     ".END_OTHER_OUTLINE"]).

(** A section whose only loop is numbered 1 and is a full circle. *)
Definition ex_round_cutout_only : list string :=
  file_lines (header_mm ++
    [".BOARD_OUTLINE MCAD"; "1.6";
     "1 2 2 0"; "1 3 2 360";
     ".END_BOARD_OUTLINE"]).

(** Three colinear vertices joined by straight segments. *)
Definition ex_colinear_sub : list coord :=
  [mkCoord 0 0 0 0; mkCoord 0 1 0 0; mkCoord 0 2 0 0].

Definition ex_colinear : list string :=
  file_lines (header_mm ++
    [".BOARD_OUTLINE MCAD"; "1.6";
     "0 0 0 0"; "0 1 0 0"; "0 2 0 0";
     ".END_BOARD_OUTLINE"]).

(** A placement record whose first line ends after the closing quote. *)
Definition ex_blank_refdes : list string :=
  file_lines (header_mm ++
    [".PLACEMENT";
     (String dquote "CAP_0402" ++ String dquote "   ")%string;
     "10.0 20.0 0.0 90.0 TOP PLACED";
     ".END_PLACEMENT"]).

Definition ex_part_lines : string * string :=
  ((String dquote "CAP_0402" ++ String dquote "   " ++ LF)%string,
   ("10.0 20.0 0.0 90.0 TOP PLACED" ++ LF)%string).

(** A board with no shape, used where a check is run on given parts. *)
Definition empty_board : emnObj := mkEmn [] "none.emn" [] [] [] "MM" [].

(* ================================================================= *)
(** * Part VI-b.  Further vocabulary and the remaining functions     *)
(* ================================================================= *)

(** ** Lines and markers *)

(** Some keyword of the list occurs in the line. *)
Definition mentions (keywords : list string) (line : string) : bool :=
  existsb (fun keyword => str_in keyword line) keywords.

(** How many keywords of the list occur in the line. *)
Definition mention_count (keywords : list string) (line : string) : nat :=
  List.length (filter (fun keyword => str_in keyword line) keywords).

(** Consecutive pairs of a list of lines; an odd last line is left out. *)
Fixpoint pairs_of (ls : list string) : list (string * string) :=
  match ls with
  | a :: b :: rest => (a, b) :: pairs_of rest
  | _ => []
  end.

(** The pairs [getParts] forms from the lines of a placement section when
    it enters it expecting a first line ([first]) or holding one ([l0]). *)
Fixpoint pairs_from (first : bool) (l0 : string) (ls : list string)
  : list (string * string) :=
  match ls with
  | [] => []
  | line :: rest =>
      if first then pairs_from false line rest
      else (l0, line) :: pairs_from true l0 rest
  end.

(** A line that decides nothing for [getUnits]. *)
Definition no_unit_no_end (line : string) : bool :=
  (negb (str_in "THOU" line) && negb (str_in "MM" line)
   && negb (str_in HEADER_END line))%bool.

(** ** Decoding and grouping of the vertex lines *)

(** One coordinate line decoded: the four floats of its four fields. *)
Definition decode_vertex (fields : list string) : result coord :=
  f0 <- index fields 0 ;; c <- float_of_str f0 ;;
  f1 <- index fields 1 ;; x <- float_of_str f1 ;;
  f2 <- index fields 2 ;; y <- float_of_str f2 ;;
  f3 <- index fields 3 ;; a <- float_of_str f3 ;;
  Ok (mkCoord c x y a).

(** Each run is non-empty and starts at a vertex whose loop index differs
    from the index [k] of the run before it. *)
Fixpoint runs_differ (k : float) (runs : list (list coord)) : Prop :=
  match runs with
  | [] => True
  | s :: rest =>
      s <> [] /\ (k =? cutout (first_of s))%float = false
      /\ runs_differ (cutout (first_of s)) rest
  end.

(** The loop index of the last run, [k] when there is none. *)
Definition last_index (k : float) (runs : list (list coord)) : float :=
  fold_left (fun _ s => cutout (first_of s)) runs k.

(** The sub-shapes read so far, the one being read last. *)
Definition runs_of (st : coords_state) : list (list coord) :=
  subshapeList st ++ [currentSubshape st].

Definition partition_inv (st : coords_state) (vs : list coord) : Prop :=
  List.concat (runs_of st) = vs
  /\ exists o rest,
       runs_of st = o :: rest /\ runs_differ 0 rest
       /\ cutoutIndex st = last_index 0 rest.

(** ** What the checks report, stated on the model *)

(** A position left of or below the origin. *)
Definition neg_xy (x y : float) : bool := ((x <? 0) || (y <? 0))%float.

(** Some vertex of the outline or of a cutout is in negative space. *)
Definition shape_negative (sh : shape) : bool :=
  existsb (existsb (fun c => neg_xy (xPos c) (yPos c))) (coordinates sh).

Definition part_negative (p : part) : bool :=
  neg_xy (fst (fst (part_coordinates p))) (snd (fst (part_coordinates p))).

Definition drill_negative (d : drill) : bool :=
  neg_xy (fst (drill_coordinates d)) (snd (drill_coordinates d)).

(** One message for each shape, then each part, then each drill in negative
    space. *)
Definition neg_diags (e : emnObj) : list diag :=
  flat_map (fun sh => if shape_negative sh then [ShapeNegative (label sh)] else [])
           (shapes e)
  ++ flat_map (fun p => if part_negative p then [PartNegative (part__str__ p)] else [])
              (parts e)
  ++ flat_map (fun d => if drill_negative d then [DrillNegative (drill__str__ d)] else [])
              (drills e).

(** The reference designator begins with a capital R. *)
Definition starts_with_R (s : string) : bool :=
  match s with
  | String c _ => Ascii.eqb c "R"
  | EmptyString => false
  end.

Definition refdes_diags (ps : list part) : list diag :=
  flat_map (fun p => if starts_with_R (refDes p) then [RRefDes (part__str__ p)] else [])
           ps.

(** The part name holds an underscore or a caret. *)
Definition invalid_name (nm : string) : bool :=
  (str_in "_" nm || str_in "^" nm)%bool.

(** Per part, the invalid-character message or else the not-found message;
    then the summary when some name was invalid. *)
Definition lib_diags (upper : string -> string) (lib : list string) (ps : list part)
  : list diag :=
  flat_map
    (fun p =>
       if invalid_name (name p) then [InvalidChars (name p) (refDes p)]
       else if list_in (upper (name p)) lib then []
            else [NotInLibrary (name p)])
    ps
  ++ (if existsb (fun p => invalid_name (name p)) ps then [InvalidCharsSummary] else []).

(** A sub-shape of exactly two vertices whose second sweeps 360 degrees. *)
Definition round_sub (s : list coord) : bool :=
  ((len s =? 2)%Z && (arc (second_of s) =? 360)%float)%bool.

Definition round_diags (sh : shape) : list diag :=
  flat_map
    (fun s =>
       if round_sub s
       then [CircularCutout (label sh) (xPos (first_of s)) (yPos (first_of s))]
       else [])
    (cutouts sh).

(** ** The checks by the messages they write *)

Definition is_height_diag (d : diag) : bool :=
  match d with TooShort _ | RecommendKeepout => true | _ => false end.

Definition is_neg_diag (d : diag) : bool :=
  match d with
  | ShapeNegative _ | PartNegative _ | DrillNegative _ => true
  | _ => false
  end.

Definition is_refdes_diag (d : diag) : bool :=
  match d with RRefDes _ => true | _ => false end.

Definition is_empty_diag (d : diag) : bool :=
  match d with NoShapes => true | _ => false end.

Definition is_arc_diag (d : diag) : bool :=
  match d with InfinitesimalArc _ _ => true | _ => false end.

(** Every message of the list is of the kind [k]. *)
Definition all_of (k : diag -> bool) (ds : list diag) : Prop :=
  Forall (fun d => k d = true) ds.

(** A line that opens no placement or drilled-holes section and closes no
    shape section. *)
Definition inert_line (line : string) : Prop :=
  mentions SHAPE_ENDS line = false
  /\ str_in PLACEMENT_START line = false
  /\ str_in DRILL_START line = false.

(** ** Text around a separator *)

(** The character [c] does not occur in [s]. *)
Definition lacks (c : ascii) (s : string) : bool :=
  all_chars (fun x => negb (Ascii.eqb x c)) s.

(** ** idfCheckingTool.py: the dropped file and the library files *)

Definition backslash : ascii := ascii_of_nat 92.
Definition apostrophe : ascii := ascii_of_nat 39.
Definition ampersand : ascii := ascii_of_nat 38.

(** [s[-n:]] for a positive [n]: the last [n] characters, or all of [s]
    when it has fewer. *)
Fixpoint last_chars (n : nat) (s : string) : string :=
  match s with
  | EmptyString => EmptyString
  | String _ r => if (String.length s <=? n)%nat then s else last_chars n r
  end.

(** [getDraggedFile(userIn)]; [lineList] is what reading the file at
    [userIn] line by line gives.  The file is opened only inside the
    [if]. *)
Definition getDraggedFile (userIn : string) (lineList : list string)
  : result (list emnObj) :=
  fName <- index (split_on backslash userIn) (-1) ;;
  if str_in ".emn" (last_chars 4 fName) then
    newEmnObj <- emnObj_init lineList fName ;;
    Ok [newEmnObj]
  else Ok [].

(** [s.replace(c, empty)] for a one-character [c]. *)
Fixpoint remove_char (c : ascii) (s : string) : string :=
  match s with
  | EmptyString => EmptyString
  | String x r =>
      if Ascii.eqb x c then remove_char c r else String x (remove_char c r)
  end.

(** [readLibFile(libFile)], on the lines of the file. *)
Definition readLibFile (upper : string -> string) (libLines : list string)
  : list string :=
  let currentLibParts :=
    filter (String.prefix (String apostrophe EmptyString)) libLines in
  map (fun currentLine =>
         upper (strip (remove_char apostrophe (remove_char ampersand currentLine))))
      currentLibParts.

(** [userIn] is the file name [name], alone or after a path that ends
    with a backslash. *)
Definition names_file (userIn name : string) : Prop :=
  lacks backslash name = true
  /\ (userIn = name \/ exists d, userIn = (d ++ String backslash name)%string).

(** [upper] neither makes nor removes the character [c]. *)
Definition upper_keeps (upper : string -> string) (c : ascii) : Prop :=
  forall s, lacks c (upper s) = lacks c s.

(* ================================================================= *)
(** * Part VII.  Properties                                          *)
(* ================================================================= *)

(** ** The error monad and its loops *)

Lemma bind_ok_inv {A B : Type} (m : result A) (k : A -> result B) (b : B) :
  bind m k = Ok b -> exists a, m = Ok a /\ k a = Ok b.
Proof.
  destruct m as [a|x]; simpl; intros H.
  - exists a. split; [reflexivity | exact H].
  - discriminate H.
Qed.

Ltac ok_inv H :=
  let a := fresh "a" in
  let Ha := fresh "Ha" in
  apply bind_ok_inv in H; destruct H as (a & Ha & H).

Lemma for_each_rel {A S : Type} (R : S -> S -> Prop) (body : S -> A -> result S) :
  (forall st, R st st) ->
  (forall a b c, R a b -> R b c -> R a c) ->
  forall xs,
    (forall st x st', In x xs -> body st x = Ok st' -> R st st') ->
    forall st st', for_each body xs st = Ok st' -> R st st'.
Proof.
  intros Hrefl Htrans xs.
  induction xs as [|x xs IH]; intros Hbody st st' H; simpl in H.
  - injection H as <-. apply Hrefl.
  - ok_inv H. eapply Htrans.
    + eapply Hbody; [left; reflexivity | eassumption].
    + apply IH; [|exact H]. intros st0 y st1 Hy. apply Hbody. right. exact Hy.
Qed.

(** A loop raises as soon as one of its items makes the body raise in
    every state. *)
Lemma for_each_raises {A S : Type} (body : S -> A -> result S) (x : A) :
  (forall st, is_ok (body st x) = false) ->
  forall xs, In x xs -> forall st, is_ok (for_each body xs st) = false.
Proof.
  intros Hx xs. induction xs as [|y xs IH]; intros Hin st; simpl.
  - destruct Hin.
  - destruct Hin as [-> | Hin].
    + specialize (Hx st). destruct (body st x); [discriminate Hx | reflexivity].
    + destruct (body st y) as [st1|err]; simpl; [apply IH; exact Hin | reflexivity].
Qed.

Lemma map_m_app {A B : Type} (f : A -> result B) (xs ys : list A) :
  map_m f (xs ++ ys)
  = bind (map_m f xs) (fun us => bind (map_m f ys) (fun vs => Ok (us ++ vs))).
Proof.
  induction xs as [|x xs IH]; simpl.
  - destruct (map_m f ys); reflexivity.
  - destruct (f x) as [y|err]; simpl; [|reflexivity].
    rewrite IH. destruct (map_m f xs) as [us|err]; simpl; [|reflexivity].
    destruct (map_m f ys); reflexivity.
Qed.

Lemma map_m_raises {A B : Type} (f : A -> result B) (x : A) (xs : list A) :
  In x xs -> is_ok (f x) = false -> is_ok (map_m f xs) = false.
Proof.
  induction xs as [|y xs IH]; intros Hin Hx; simpl.
  - destruct Hin.
  - destruct Hin as [-> | Hin].
    + destruct (f x); [discriminate Hx | reflexivity].
    + destruct (f y) as [b|err]; simpl; [|reflexivity].
      specialize (IH Hin Hx). destruct (map_m f xs); [discriminate IH | reflexivity].
Qed.

Lemma map_m_ok_built {A B : Type} (f : A -> result B) (xs : list A) (ys : list B) :
  map_m f xs = Ok ys -> forall y, In y ys -> exists x, In x xs /\ f x = Ok y.
Proof.
  revert ys. induction xs as [|x xs IH]; intros ys H y Hy; simpl in H.
  - injection H as <-. destruct Hy.
  - ok_inv H. ok_inv H. injection H as <-.
    destruct Hy as [<- | Hy].
    + exists x. split; [left; reflexivity | assumption].
    + destruct (IH _ Ha0 y Hy) as (x0 & Hx0 & Hf). exists x0. split; [right|]; assumption.
Qed.

Lemma not_ok_raises {A : Type} (m : result A) :
  is_ok m = false -> exists x, m = Raise x.
Proof.
  destruct m as [a|x]; simpl; intros H; [discriminate H | exists x; reflexivity].
Qed.

(** ** Messages are only ever appended *)

Lemma same_model_refl e : same_model e e.
Proof. repeat split. Qed.

Lemma same_model_trans a b c : same_model a b -> same_model b c -> same_model a c.
Proof.
  unfold same_model. intros (H1 & H2 & H3 & H4 & H5 & H6) (K1 & K2 & K3 & K4 & K5 & K6).
  repeat split; congruence.
Qed.

Lemma adds_refl P e : adds P e e.
Proof.
  split; [apply same_model_refl|]. exists []. rewrite app_nil_r. split; [reflexivity | constructor].
Qed.

Lemma adds_trans P a b c : adds P a b -> adds P b c -> adds P a c.
Proof.
  intros (Hm1 & l1 & E1 & F1) (Hm2 & l2 & E2 & F2). split.
  - eapply same_model_trans; eassumption.
  - exists (l1 ++ l2). rewrite E2, E1, app_assoc. split; [reflexivity|].
    apply Forall_app. split; assumption.
Qed.

Lemma adds_append (P : diag -> Prop) e d : P d -> adds P e (append_error e d).
Proof.
  intros Hd. split; [repeat split|]. exists [d]. split; [reflexivity|].
  constructor; [exact Hd | constructor].
Qed.

Lemma adds_weaken (P Q : diag -> Prop) e e' :
  (forall d, P d -> Q d) -> adds P e e' -> adds Q e e'.
Proof.
  intros HPQ (Hm & l & E & F). split; [exact Hm|]. exists l. split; [exact E|].
  eapply Forall_impl; eassumption.
Qed.

Lemma for_each_adds {A : Type} (P : diag -> Prop) (body : emnObj -> A -> result emnObj) :
  (forall e x e', body e x = Ok e' -> adds P e e') ->
  forall xs e e', for_each body xs e = Ok e' -> adds P e e'.
Proof.
  intros Hbody xs e e' H.
  apply (for_each_rel (adds P) body (adds_refl P) (adds_trans P) xs); [|exact H].
  intros st x st' _. apply Hbody.
Qed.

Lemma for_each_adds_flag {A : Type} (P : diag -> Prop)
  (body : bool * emnObj -> A -> result (bool * emnObj)) :
  (forall st x st', body st x = Ok st' -> adds P (snd st) (snd st')) ->
  forall xs st st', for_each body xs st = Ok st' -> adds P (snd st) (snd st').
Proof.
  intros Hbody xs st st' H.
  apply (for_each_rel (fun a b => adds P (snd a) (snd b)) body) with (xs := xs);
    [intros; apply adds_refl | intros a b c; apply adds_trans | | exact H].
  intros st0 x st1 _. apply Hbody.
Qed.

Ltac adds_step :=
  match goal with
  | |- adds _ ?e ?e => apply adds_refl
  | |- adds _ ?e (append_error ?e _) => apply adds_append; reflexivity
  | |- adds _ _ (if ?c then _ else _) => destruct c
  | H : Ok _ = Ok _ |- _ => injection H as <-
  | H : Raise _ = Ok _ |- _ => discriminate H
  | H : bind _ _ = Ok _ |- _ => ok_inv H
  | H : (if ?c then _ else _) = Ok _ |- _ => destruct c
  | H : (let '(_, _) := ?p in _) = Ok _ |- _ => destruct p
  end.

Lemma checkHeightErrors_adds e e' :
  checkHeightErrors e = Ok e' -> adds not_lib e e'.
Proof.
  unfold checkHeightErrors. intros H. ok_inv H. destruct a as [flag e1].
  apply (for_each_adds_flag not_lib) in Ha.
  - simpl in Ha. eapply adds_trans; [exact Ha|]. repeat adds_step.
  - clear. intros [flag e] sh st' H. unfold checkHeightErrors_step in H.
    destruct (_ && _ && _)%bool in H; [|destruct (_ && _ && _)%bool in H];
      simpl in H; repeat adds_step; simpl; repeat adds_step.
Qed.

Lemma checkNegErrors_adds e e' :
  checkNegErrors e = Ok e' -> adds not_lib e e'.
Proof.
  unfold checkNegErrors. intros H. ok_inv H. ok_inv H.
  apply (for_each_adds not_lib) in Ha, Ha0, H.
  - eapply adds_trans; [exact Ha|]. eapply adds_trans; eassumption.
  - clear. intros e d e' H. unfold checkNeg_drill in H.
    destruct (drill_coordinates d). repeat adds_step.
  - clear. intros e p e' H. unfold checkNeg_part in H.
    destruct (part_coordinates p) as [[x y] r]. repeat adds_step.
  - clear. intros e sh e' H. unfold checkNeg_shape in H. repeat adds_step.
Qed.

Lemma checkClosed_sub_adds sh e s e' :
  checkClosed_sub sh e s = Ok e' -> adds not_lib e e'.
Proof.
  unfold checkClosed_sub. intros H. repeat adds_step.
Qed.

Lemma checkClosedErrors_adds e e' :
  checkClosedErrors e = Ok e' -> adds not_lib e e'.
Proof.
  apply for_each_adds. intros e0 sh e1. apply for_each_adds.
  intros e2 s e3. apply checkClosed_sub_adds.
Qed.

Lemma checkRefDesErrors_adds e e' :
  checkRefDesErrors e = Ok e' -> adds not_lib e e'.
Proof.
  apply for_each_adds. intros e0 p e1 H. unfold checkRefDes_part in H.
  repeat adds_step.
Qed.

Lemma checkRoundCutout_adds e e' :
  checkRoundCutout e = Ok e' -> adds not_lib e e'.
Proof.
  unfold checkRoundCutout. destruct (fold_left _ _ _) as [toCheck cur].
  apply for_each_adds. intros e0 s e1 H. unfold checkRound_sub in H.
  repeat adds_step.
Qed.

Lemma checkEmpty_adds e e' : checkEmpty e = Ok e' -> adds not_lib e e'.
Proof.
  unfold checkEmpty. intros H. injection H as <-.
  destruct (shapes e); repeat adds_step.
Qed.

Lemma checkArc_at_adds atan2 s e i e' :
  checkArc_at atan2 s e i = Ok e' -> adds not_lib e e'.
Proof.
  unfold checkArc_at. intros H. repeat adds_step.
Qed.

Lemma checkArcAngle_adds atan2 e e' :
  checkArcAngle atan2 e = Ok e' -> adds not_lib e e'.
Proof.
  apply for_each_adds. intros e0 sh e1. apply for_each_adds.
  intros e2 s e3 H. unfold checkArc_sub in H.
  destruct (2 <? len (tl s))%Z; [|repeat adds_step].
  revert H. apply for_each_adds. intros e4 i e5. apply checkArc_at_adds.
Qed.

Lemma checkLibErrors_adds upper e lib e' :
  checkLibErrors upper e lib = Ok e' -> adds (fun _ => True) e e'.
Proof.
  unfold checkLibErrors. intros H. ok_inv H. destruct a as [flag e1].
  apply (for_each_adds_flag (fun _ => True)) in Ha.
  - simpl in Ha. eapply adds_trans; [exact Ha|].
    injection H as <-. destruct flag; [apply adds_append; exact I | apply adds_refl].
  - clear. intros [flag e] p st' H. unfold checkLib_part in H.
    injection H as <-. simpl.
    destruct (_ || _ || _)%bool; destruct (_ && _)%bool;
      repeat first [ apply adds_refl
                   | apply adds_append; exact I
                   | eapply adds_trans; [apply adds_append; exact I|] ].
Qed.

Lemma seven_checks_adds atan2 e e' :
  seven_checks atan2 e = Ok e' -> adds not_lib e e'.
Proof.
  unfold seven_checks. intros H. do 6 ok_inv H.
  apply checkHeightErrors_adds in Ha. apply checkNegErrors_adds in Ha0.
  apply checkClosedErrors_adds in Ha1. apply checkRefDesErrors_adds in Ha2.
  apply checkRoundCutout_adds in Ha3. apply checkEmpty_adds in Ha4.
  apply checkArcAngle_adds in H.
  eapply adds_trans; [exact Ha|]. eapply adds_trans; [exact Ha0|].
  eapply adds_trans; [exact Ha1|]. eapply adds_trans; [exact Ha2|].
  eapply adds_trans; [exact Ha3|]. eapply adds_trans; [exact Ha4|]. exact H.
Qed.

Lemma checkAllErrors_seven atan2 upper e partsLibrary :
  checkAllErrors atan2 upper e partsLibrary
  = (e1 <- seven_checks atan2 e ;;
     if library_given partsLibrary
     then checkLibErrors upper e1 (match partsLibrary with Some l => l | None => [] end)
     else Ok e1).
Proof.
  unfold checkAllErrors, seven_checks.
  destruct (checkHeightErrors e) as [e1|]; simpl; [|reflexivity].
  destruct (checkNegErrors e1) as [e2|]; simpl; [|reflexivity].
  destruct (checkClosedErrors e2) as [e3|]; simpl; [|reflexivity].
  destruct (checkRefDesErrors e3) as [e4|]; simpl; [|reflexivity].
  destruct (checkRoundCutout e4) as [e5|]; simpl; [|reflexivity].
  destruct (checkArcAngle atan2 _) as [e7|]; reflexivity.
Qed.

Lemma checkAllErrors_adds atan2 upper e partsLibrary e' :
  checkAllErrors atan2 upper e partsLibrary = Ok e' -> adds (fun _ => True) e e'.
Proof.
  rewrite checkAllErrors_seven. intros H. ok_inv H.
  apply seven_checks_adds in Ha.
  eapply adds_trans; [eapply adds_weaken; [|exact Ha]; intros; exact I|].
  destruct (library_given partsLibrary).
  - eapply checkLibErrors_adds; exact H.
  - injection H as <-. apply adds_refl.
Qed.

(** ** The constructor *)

Lemma emnObj_init_ok currentData fname e :
  emnObj_init currentData fname = Ok e ->
  getParts currentData = Ok (parts e) /\ getShapes currentData = Ok (shapes e)
  /\ getDrills currentData = Ok (drills e)
  /\ units e = fst (getUnits currentData [])
  /\ errors e = snd (getUnits currentData [])
  /\ emnData e = currentData /\ fileName e = fname.
Proof.
  unfold emnObj_init. intros H. ok_inv H. ok_inv H.
  destruct (getUnits currentData []) as [u errs]. ok_inv H.
  injection H as <-. simpl. repeat split; assumption.
Qed.

Lemma getUnits_loop_errors lines boardUnits errs :
  snd (getUnits_loop lines boardUnits errs) = errs
  \/ (snd (getUnits_loop lines boardUnits errs) = errs ++ [NoUnits]
      /\ fst (getUnits_loop lines boardUnits errs) = "ERROR").
Proof.
  revert boardUnits. induction lines as [|line rest IH]; intros boardUnits; simpl.
  - left. reflexivity.
  - destruct (str_in "THOU" line); [left; reflexivity|].
    destruct (str_in "MM" line); [left; reflexivity|].
    destruct (str_in HEADER_END line); [right; split; reflexivity|].
    apply IH.
Qed.

(** C5, as the claim states it, fails: a header that ends without naming a
    unit leaves the message of [getUnits] in [errors] when the constructor
    returns, before any check has run. *)
Lemma C5_construction_leaves_a_message :
  exists e, emnObj_init ex_no_units "board.emn" = Ok e
            /\ errors e = [NoUnits] /\ errors e <> [].
Proof.
  eexists. split; [vm_compute; reflexivity|].
  split; [reflexivity | discriminate].
Qed.

(** C5 (amended): when the constructor returns, [errors] is empty or holds
    the single message of [getUnits] (and then the units are ["ERROR"]);
    [checkAllErrors] leaves every other field of the board as it was and
    only appends to [errors]. *)
Theorem C5_diagnostics_lifecycle :
  forall atan2 upper currentData fname e,
    emnObj_init currentData fname = Ok e ->
    (errors e = [] \/ (errors e = [NoUnits] /\ units e = "ERROR"))
    /\ (forall partsLibrary e',
           checkAllErrors atan2 upper e partsLibrary = Ok e' ->
           same_model e e' /\ exists added, errors e' = errors e ++ added).
Proof.
  intros atan2 upper currentData fname e H.
  apply emnObj_init_ok in H. destruct H as (_ & _ & _ & Hu & He & _ & _).
  split.
  - rewrite He, Hu. unfold getUnits.
    destruct (getUnits_loop_errors currentData EmptyString []) as [E | [E U]].
    + left. exact E.
    + right. split; assumption.
  - intros partsLibrary e' Hc. apply checkAllErrors_adds in Hc.
    destruct Hc as (Hm & added & Ea & _). split; [exact Hm|].
    exists added. exact Ea.
Qed.

(** The lifecycle on the file whose header names no unit. *)
Lemma C5_diagnostics_lifecycle_witness :
  exists e e',
    emnObj_init ex_no_units "board.emn" = Ok e
    /\ checkAllErrors atan2_axis upper_ascii e (Some ["CAP_0402"]) = Ok e'
    /\ (errors e = [] \/ (errors e = [NoUnits] /\ units e = "ERROR"))
    /\ same_model e e' /\ exists added, errors e' = errors e ++ added.
Proof.
  eexists. eexists.
  split; [vm_compute; reflexivity|].
  split; [vm_compute; reflexivity|].
  pose proof (C5_diagnostics_lifecycle atan2_axis upper_ascii ex_no_units "board.emn" _
                ltac:(vm_compute; reflexivity)) as [H1 H2].
  split; [exact H1|].
  apply (H2 (Some ["CAP_0402"])). vm_compute. reflexivity.
Defined.

(** ** The library check *)

(** C9: an empty parts library is treated as no library: [checkAllErrors]
    returns what it returns without one, which is the result of the seven
    other checks, and no message of the library check is appended. *)
Theorem C9_empty_library_skips_check :
  forall atan2 upper e,
    checkAllErrors atan2 upper e (Some []) = checkAllErrors atan2 upper e None
    /\ checkAllErrors atan2 upper e (Some []) = seven_checks atan2 e
    /\ (forall e', checkAllErrors atan2 upper e (Some []) = Ok e' ->
                   adds (fun d => is_lib_diag d = false) e e').
Proof.
  intros atan2 upper e.
  assert (E : forall lib, library_given lib = false ->
                          checkAllErrors atan2 upper e lib = seven_checks atan2 e).
  { intros lib Hl. rewrite checkAllErrors_seven, Hl.
    destruct (seven_checks atan2 e); reflexivity. }
  split; [rewrite !E by reflexivity; reflexivity|].
  split; [apply E; reflexivity|].
  intros e' H. rewrite E in H by reflexivity.
  apply seven_checks_adds in H. exact H.
Qed.

(** A board whose part the library check would report, checked with an
    empty library. *)
Lemma C9_empty_library_skips_check_witness :
  exists e e',
    emnObj_init ex_blank_refdes "parts.emn" = Ok e
    /\ checkLibErrors upper_ascii e ["RES_0603"] = Ok e'
    /\ errors e' = [InvalidChars "CAP_0402" EmptyString; InvalidCharsSummary]
    /\ checkAllErrors atan2_axis upper_ascii e (Some [])
       = checkAllErrors atan2_axis upper_ascii e None.
Proof.
  eexists. eexists.
  split; [vm_compute; reflexivity|].
  split; [vm_compute; reflexivity|].
  split; [reflexivity|].
  exact (proj1 (C9_empty_library_skips_check atan2_axis upper_ascii _)).
Defined.

(** ** The reference designator check *)

Lemma checkRefDes_total ps :
  Forall (fun p => refDes p <> EmptyString) ps ->
  forall e, exists e', for_each checkRefDes_part ps e = Ok e'.
Proof.
  induction 1 as [|p ps Hp _ IH]; intros e; simpl.
  - exists e. reflexivity.
  - unfold checkRefDes_part at 1. destruct (refDes p) as [|c r]; [contradiction|].
    simpl. apply IH.
Qed.

Lemma checkRefDes_raises ps :
  Exists (fun p => refDes p = EmptyString) ps ->
  forall e, for_each checkRefDes_part ps e = Raise IndexError.
Proof.
  induction ps as [|p ps IH]; intros Hex e.
  - inversion Hex.
  - simpl. unfold checkRefDes_part at 1.
    destruct (refDes p) as [|c r] eqn:Hr; simpl; [reflexivity|].
    apply IH. inversion Hex as [? ? Hp | ? ? Hps]; subst; [|exact Hps].
    rewrite Hr in Hp. discriminate Hp.
Qed.

Lemma str_in_quote pre rest :
  str_in (String dquote EmptyString) (pre ++ String dquote rest)%string = true.
Proof.
  induction pre as [|c pre IH].
  - destruct rest; reflexivity.
  - change (str_in (String dquote EmptyString) (String c pre ++ String dquote rest)%string)
      with (String.prefix (String dquote EmptyString) (String c (pre ++ String dquote rest))
            || str_in (String dquote EmptyString) (pre ++ String dquote rest)%string)%bool.
    rewrite IH. apply orb_true_r.
Qed.

Lemma split_on_quote pre rest :
  no_quote pre = true ->
  split_on dquote (pre ++ String dquote rest)%string = pre :: split_on dquote rest.
Proof.
  unfold no_quote. induction pre as [|c pre IH]; intros H.
  - reflexivity.
  - cbn [all_chars] in H. apply andb_prop in H. destruct H as [Hc Hp].
    cbn [String.append split_on].
    destruct (Ascii.eqb c dquote); [discriminate Hc|].
    rewrite (IH Hp). reflexivity.
Qed.

Lemma split_on_no_quote s : no_quote s = true -> split_on dquote s = [s].
Proof.
  unfold no_quote. induction s as [|c s IH]; intros H.
  - reflexivity.
  - cbn [all_chars] in H. apply andb_prop in H. destruct H as [Hc Hp].
    cbn [split_on]. destruct (Ascii.eqb c dquote); [discriminate Hc|].
    rewrite (IH Hp). reflexivity.
Qed.

Lemma blank_no_quote s : blank s = true -> no_quote s = true.
Proof.
  unfold blank, no_quote. induction s as [|c s IH]; intros H.
  - reflexivity.
  - cbn [all_chars] in *. apply andb_prop in H. destruct H as [Hc Hp].
    rewrite (IH Hp), andb_true_r.
    destruct (Ascii.eqb c dquote) eqn:E; [|reflexivity].
    apply Ascii.eqb_eq in E. subst c. discriminate Hc.
Qed.

Lemma strip_blank s : blank s = true -> strip s = EmptyString.
Proof.
  unfold blank, strip. induction s as [|c s IH]; intros H.
  - reflexivity.
  - cbn [all_chars] in H. apply andb_prop in H. destruct H as [Hc Hp].
    cbn [lstrip_of]. rewrite Hc. apply IH. exact Hp.
Qed.

(** A quoted name followed by whitespace only: the name is read, the
    reference designator is empty. *)
Lemma getNames_blank_refdes pre nm ws l2 :
  no_quote pre = true -> no_quote nm = true -> blank ws = true ->
  getNames ((pre ++ String dquote (nm ++ String dquote ws))%string, l2)
  = Ok (nm, EmptyString).
Proof.
  intros Hpre Hnm Hws. unfold getNames. cbn [fst].
  rewrite str_in_quote, (split_on_quote pre _ Hpre), (split_on_quote nm _ Hnm),
    (split_on_no_quote ws (blank_no_quote ws Hws)).
  change (index [pre; nm; ws] 1) with (Ok nm).
  change (index [pre; nm; ws] (-1)) with (Ok ws).
  cbn [bind]. rewrite (strip_blank ws Hws). reflexivity.
Qed.

(** C10: [checkRefDesErrors] returns when every part has a non-empty
    reference designator and raises [IndexError] as soon as one is empty;
    a quoted placement line with only whitespace after the closing quote
    gives a part with an empty one, and the whole suite then raises. *)
Theorem C10_refdes_check_needs_a_first_character :
  (forall e, Forall (fun p => refDes p <> EmptyString) (parts e) ->
             exists e', checkRefDesErrors e = Ok e')
  /\ (forall e, Exists (fun p => refDes p = EmptyString) (parts e) ->
                checkRefDesErrors e = Raise IndexError)
  /\ (forall pre nm ws l2,
         no_quote pre = true -> no_quote nm = true -> blank ws = true ->
         getNames ((pre ++ String dquote (nm ++ String dquote ws))%string, l2)
         = Ok (nm, EmptyString))
  /\ getNames ex_part_lines = Ok ("CAP_0402", EmptyString)
  /\ exists e,
       emnObj_init ex_blank_refdes "parts.emn" = Ok e
       /\ map refDes (parts e) = [EmptyString]
       /\ checkRefDesErrors e = Raise IndexError
       /\ forall atan2 upper partsLibrary,
            checkAllErrors atan2 upper e partsLibrary = Raise IndexError.
Proof.
  split; [intros e H; apply checkRefDes_total; exact H|].
  split; [intros e H; apply checkRefDes_raises; exact H|].
  split; [exact getNames_blank_refdes|].
  split; [vm_compute; reflexivity|].
  eexists. split; [vm_compute; reflexivity|].
  split; [reflexivity|].
  split; [vm_compute; reflexivity|].
  intros atan2 upper partsLibrary. vm_compute. reflexivity.
Qed.

(** The check on a part named R14, and its totality on that board. *)
Lemma C10_refdes_check_needs_a_first_character_witness :
  checkRefDesErrors
    (mkEmn [] "one.emn" [mkPart (0, 0, 0)%float "TOP" "RES_0603" "R14"] [] [] "MM" [])
  = Ok (mkEmn [] "one.emn" [mkPart (0, 0, 0)%float "TOP" "RES_0603" "R14"] []
              [RRefDes (mkPartStr "RES_0603" "R14" 0 0)] "MM" [])
  /\ exists e',
       checkRefDesErrors
         (mkEmn [] "one.emn" [mkPart (0, 0, 0)%float "TOP" "RES_0603" "R14"] [] [] "MM" [])
       = Ok e'.
Proof.
  split; [vm_compute; reflexivity|].
  apply (proj1 C10_refdes_check_needs_a_first_character).
  simpl. constructor; [discriminate | constructor].
Defined.

(** ** The shape scanner and the routing keepout marker *)

(** C3 fails on the code: [ROUTE_KEEPOUT_START] is spelled [.ROUTE_KEEOUT],
    so the line that opens a routing keepout section matches no start
    marker; its end marker then hands the constructor an empty group of
    lines and [shape.__init__] raises on [sData[0]].  The same vertices in
    a routing outline section build a shape. *)
Theorem C3_route_keepout_is_not_scanned :
  ROUTE_KEEPOUT_START = ".ROUTE_KEEOUT"
  /\ existsb (fun keyword => str_in keyword (".ROUTE_KEEPOUT ECAD" ++ LF)%string)
             SHAPE_STARTS = false
  /\ spans_of ex_route_keepout = [[]]
  /\ getShapes ex_route_keepout = Raise IndexError
  /\ emnObj_init ex_route_keepout "keepout.emn" = Raise IndexError
  /\ exists sh,
       getShapes ex_route_outline = Ok [sh]
       /\ sType sh = ".ROUTE_OUTLINE"
       /\ map (fun v => (xPos v, yPos v)) (outline sh)
          = [(0, 0); (1, 0); (1, 1); (0, 0)]%float.
Proof.
  split; [reflexivity|].
  split; [vm_compute; reflexivity|].
  split; [vm_compute; reflexivity|].
  split; [vm_compute; reflexivity|].
  split; [vm_compute; reflexivity|].
  eexists. split; [vm_compute; reflexivity|].
  split; reflexivity.
Qed.

(** ** The round cutout check *)

Lemma fold_roundCutout_scan ss sh st :
  fold_left roundCutout_scan (ss ++ [sh]) st
  = (match cutouts sh with [] => [] | _ :: _ => cutouts sh end, Some sh).
Proof.
  rewrite fold_left_app. simpl. reflexivity.
Qed.

(** Only the cutouts of the last shape are looked at. *)
Lemma checkRoundCutout_last e ss sh :
  shapes e = ss ++ [sh] ->
  checkRoundCutout e = for_each (checkRound_sub (Some sh)) (cutouts sh) e.
Proof.
  intros Hs. unfold checkRoundCutout. rewrite Hs, fold_roundCutout_scan.
  destruct (cutouts sh); reflexivity.
Qed.

(** C2 fails on the code: the loop of [checkRoundCutout] that tests the
    cutouts runs once, after the loop over the shapes, on the cutouts of
    the last shape.  A full-circle cutout of the first of two shapes gets
    no message from it (and none from the closure check), so the whole
    suite reports neither; the same shape alone in its file gets the
    message. *)
Theorem C2_round_cutout_of_an_earlier_shape_is_missed :
  exists e,
    emnObj_init ex_round_then_plain "two.emn" = Ok e
    /\ map cutouts (shapes e) = [[[mkCoord 1 2 2 0; mkCoord 1 3 2 360]]; []]
    /\ checkRoundCutout e = Ok e
    /\ checkClosedErrors e = Ok e
    /\ (forall atan2 upper,
          exists e', checkAllErrors atan2 upper e None = Ok e'
                     /\ filter is_round_diag (errors e') = []
                     /\ filter is_closure_diag (errors e') = [])
    /\ exists e1 e1',
         emnObj_init ex_round_alone "one.emn" = Ok e1
         /\ map cutouts (shapes e1) = [[[mkCoord 1 2 2 0; mkCoord 1 3 2 360]]]
         /\ checkRoundCutout e1 = Ok e1'
         /\ errors e1' = [CircularCutout (mkShapeStr ".BOARD_OUTLINE" 0 0) 2 2].
Proof.
  eexists. split; [vm_compute; reflexivity|].
  split; [reflexivity|].
  split; [vm_compute; reflexivity|].
  split; [vm_compute; reflexivity|].
  split.
  - intros atan2 upper. eexists. split; [vm_compute; reflexivity|].
    split; reflexivity.
  - eexists. eexists. split; [vm_compute; reflexivity|].
    split; [reflexivity|].
    split; [vm_compute; reflexivity|].
    reflexivity.
Qed.

(** ** The height check *)

Lemma index_0_cons {A : Type} (a : A) (l : list A) : index (a :: l) 0 = Ok a.
Proof.
  unfold index. simpl List.length.
  replace (0 <? 0)%Z with false by reflexivity.
  destruct (Z.of_nat (S (List.length l)) <=? 0)%Z eqn:E.
  - apply Z.leb_le in E. lia.
  - reflexivity.
Qed.

Lemma shape__str__label sh : outline sh <> [] -> shape__str__ sh = Ok (label sh).
Proof.
  unfold shape__str__, label, first_of. destruct (outline sh) as [|v r]; intros H.
  - contradiction.
  - rewrite index_0_cons. reflexivity.
Qed.

Lemma set_errors_same e : set_errors e (errors e) = e.
Proof. destruct e; reflexivity. Qed.

Lemma append_error_set e ds d :
  append_error (set_errors e ds) d = set_errors e (ds ++ [d]).
Proof. reflexivity. Qed.

Lemma shape__str__bare sh : outline sh = [] -> shape__str__ sh = Raise IndexError.
Proof.
  unfold shape__str__. intros ->. reflexivity.
Qed.

Lemma checkHeightErrors_step_gen flag e sh :
  checkHeightErrors_step (flag, e) sh
  = if flagged_height (units e) sh
    then (s <- shape__str__ sh ;; Ok (true, append_error e (TooShort s)))
    else Ok (flag, e).
Proof.
  unfold checkHeightErrors_step, flagged_height.
  destruct (String.eqb (sType sh) PLACE_OUTLINE_START); simpl; [|reflexivity].
  destruct (String.eqb (units e) "MM"); simpl.
  - destruct (height sh <=? lit_0_026)%float; simpl; [reflexivity|].
    destruct (String.eqb (units e) "THOU"); simpl; [|reflexivity].
    destruct (height sh <=? 1)%float; reflexivity.
  - destruct (String.eqb (units e) "THOU"); simpl; [|reflexivity].
    destruct (height sh <=? 1)%float; reflexivity.
Qed.

Lemma checkHeightErrors_step_spec flag e sh :
  (flagged_height (units e) sh = true -> outline sh <> []) ->
  checkHeightErrors_step (flag, e) sh
  = Ok (if flagged_height (units e) sh
        then (true, append_error e (TooShort (label sh)))
        else (flag, e)).
Proof.
  intros Hol. rewrite checkHeightErrors_step_gen.
  destruct (flagged_height (units e) sh); [|reflexivity].
  rewrite (shape__str__label sh (Hol eq_refl)). reflexivity.
Qed.

Lemma checkHeightErrors_loop u ss :
  (forall sh, In sh ss -> flagged_height u sh = true -> outline sh <> []) ->
  forall flag e ds,
    units e = u ->
    for_each checkHeightErrors_step ss (flag, set_errors e ds)
    = Ok ((flag || existsb (flagged_height u) ss)%bool,
          set_errors e
            (ds ++ flat_map (fun sh => if flagged_height u sh
                                       then [TooShort (label sh)] else []) ss)).
Proof.
  induction ss as [|sh ss IH]; intros Hol flag e ds Hu; cbn [for_each flat_map existsb].
  - rewrite orb_false_r, app_nil_r. reflexivity.
  - rewrite checkHeightErrors_step_spec;
      change (units (set_errors e ds)) with (units e); rewrite Hu;
      [|apply Hol; left; reflexivity].
    assert (Hol' : forall s, In s ss -> flagged_height u s = true -> outline s <> [])
      by (intros s Hs; apply Hol; right; exact Hs).
    destruct (flagged_height u sh); simpl.
    + rewrite append_error_set, (IH Hol' _ _ _ Hu), orb_true_r, <- app_assoc. reflexivity.
    + rewrite (IH Hol' _ _ _ Hu). reflexivity.
Qed.

Lemma checkHeightErrors_loop_raises u ss :
  Exists (fun sh => flagged_height u sh = true /\ outline sh = []) ss ->
  forall flag e,
    units e = u ->
    for_each checkHeightErrors_step ss (flag, e) = Raise IndexError.
Proof.
  induction ss as [|sh ss IH]; intros Hex flag e Hu.
  - inversion Hex.
  - cbn [for_each]. rewrite checkHeightErrors_step_gen, Hu.
    destruct (flagged_height u sh) eqn:Hf.
    + destruct (outline sh) as [|v r] eqn:Ho.
      * rewrite (shape__str__bare sh Ho). reflexivity.
      * rewrite (shape__str__label sh) by (rewrite Ho; discriminate). cbn [bind].
        apply IH; [|exact Hu].
        inversion Hex as [? ? [_ K]|? ? K]; subst; [|exact K].
        rewrite Ho in K. discriminate K.
    + cbn [bind]. apply IH; [|exact Hu].
      inversion Hex as [? ? [K _]|? ? K]; subst; [|exact K].
      rewrite Hf in K. discriminate K.
Qed.

(** C6, as the claim states it, fails: a placement outline of height 0
    without a vertex line is flagged, and the check raises on the shape's
    name instead of appending a message. *)
Lemma C6_bare_placement_outline_raises :
  exists e sh,
    emnObj_init ex_place_outline_bare "bare.emn" = Ok e
    /\ shapes e = [sh]
    /\ sType sh = PLACE_OUTLINE_START /\ outline sh = []
    /\ flagged_height (units e) sh = true
    /\ checkHeightErrors e = Raise IndexError.
Proof.
  eexists. eexists. split; [vm_compute; reflexivity|].
  split; [reflexivity|].
  split; [reflexivity|].
  split; [reflexivity|].
  split; vm_compute; reflexivity.
Qed.

(** C6 (amended): a placement outline is flagged when its height is at most
    0.026 under MM or at most 1 under THOU (0.026 and 1 are flagged, 0.0261
    and 1.01 are not).  On a board whose flagged shapes each have an outline
    vertex, the height check appends one message per flagged shape, in
    shape order, and nothing for the other shapes (with or without
    vertices), then the keepout recommendation exactly when some shape was
    flagged.  On a board with a flagged shape without an outline vertex it
    raises [IndexError]. *)
Theorem C6_height_check :
  (forall e,
      (forall sh, In sh (shapes e) ->
                  flagged_height (units e) sh = true -> outline sh <> []) ->
      checkHeightErrors e
      = Ok (set_errors e (errors e ++ height_diags (units e) (shapes e))))
  /\ (forall e,
         Exists (fun sh => flagged_height (units e) sh = true /\ outline sh = [])
                (shapes e) ->
         checkHeightErrors e = Raise IndexError)
  /\ (exists e, emnObj_init (ex_heights "board MM") "mm.emn" = Ok e
                /\ map height (shapes e)
                   = [lit_0_026; 0x1.ab9f559b3d07dp-6; 1; 0x1.028f5c28f5c29p+0]%float
                /\ map (flagged_height (units e)) (shapes e) = [true; false; false; false])
  /\ (exists e, emnObj_init (ex_heights "board THOU") "thou.emn" = Ok e
                /\ map (flagged_height (units e)) (shapes e) = [true; true; true; false]).
Proof.
  split; [|split].
  - intros e Hol. unfold checkHeightErrors, height_diags.
    pose proof (checkHeightErrors_loop (units e) (shapes e) Hol false e (errors e) eq_refl)
      as L.
    rewrite set_errors_same in L. rewrite L. simpl.
    destruct (existsb (flagged_height (units e)) (shapes e)).
    + rewrite append_error_set, <- app_assoc. reflexivity.
    + rewrite app_nil_r. reflexivity.
  - intros e Hex. unfold checkHeightErrors.
    rewrite (checkHeightErrors_loop_raises (units e) (shapes e) Hex false e eq_refl).
    reflexivity.
  - split.
    + eexists. split; [vm_compute; reflexivity|]. split; vm_compute; reflexivity.
    + eexists. split; [vm_compute; reflexivity|]. vm_compute; reflexivity.
Qed.

(** A placement outline of height 5 without a vertex line is passed over,
    and the one of height 0 after it is reported; with the bare outline
    last and of height 0, the check raises. *)
Lemma C6_height_check_witness :
  (exists e,
      emnObj_init ex_place_outline_mixed "mixed.emn" = Ok e
      /\ map outline (shapes e)
         = [[]; [mkCoord 0 0 0 0; mkCoord 0 5 0 0; mkCoord 0 5 5 0; mkCoord 0 0 0 0]]
      /\ checkHeightErrors e
         = Ok (set_errors e
                 [TooShort (mkShapeStr ".PLACE_OUTLINE" 0 0); RecommendKeepout]))
  /\ (exists e,
         emnObj_init ex_place_outline_then_bare "bare-last.emn" = Ok e
         /\ checkHeightErrors e = Raise IndexError).
Proof.
  split.
  - eexists. split; [vm_compute; reflexivity|]. split; [reflexivity|].
    rewrite (proj1 C6_height_check).
    + vm_compute. reflexivity.
    + intros sh Hin Hf. simpl in Hin. destruct Hin as [<- | [<- | []]].
      * vm_compute in Hf. discriminate Hf.
      * discriminate.
  - eexists. split; [vm_compute; reflexivity|].
    apply (proj1 (proj2 C6_height_check)).
    apply Exists_cons_tl, Exists_cons_hd. split; vm_compute; reflexivity.
Defined.

(** ** The scanner hands the constructor the groups of [spans_of] *)

Lemma bind_ret {A : Type} (m : result A) : bind m (fun a => Ok a) = m.
Proof. destruct m; reflexivity. Qed.

Lemma getShapes_end_loop line keywords :
  forall sl cur range,
    for_each (getShapes_end line) keywords (mkShapesState sl cur range)
    = (let '(out, cur', range') := spans_end line keywords cur range in
       news <- map_m shape_init out ;;
       Ok (mkShapesState (sl ++ news) cur' range')).
Proof.
  induction keywords as [|keyword rest IH]; intros sl cur range;
    cbn [for_each spans_end].
  - cbn [map_m bind]. rewrite app_nil_r. reflexivity.
  - unfold getShapes_end at 1. destruct (str_in keyword line).
    + cbn [currentLines shapeList].
      destruct (spans_end line rest [] false) as [[out cur'] range'] eqn:Hs.
      cbn [map_m].
      destruct (shape_init cur) as [sh|err]; cbn [bind]; [|reflexivity].
      rewrite IH, Hs.
      destruct (map_m shape_init out) as [news|err]; cbn [bind]; [|reflexivity].
      rewrite <- app_assoc. reflexivity.
    + cbn [bind]. apply IH.
Qed.

Lemma getShapes_loop lines :
  forall sl cur range,
    (st <- for_each getShapes_step lines (mkShapesState sl cur range) ;;
     Ok (shapeList st))
    = (news <- map_m shape_init (spans_from lines cur range) ;; Ok (sl ++ news)).
Proof.
  induction lines as [|line rest IH]; intros sl cur range;
    cbn [for_each spans_from].
  - cbn [map_m bind shapeList]. rewrite app_nil_r. reflexivity.
  - unfold getShapes_step at 1. cbn [shapeList currentLines coordRange].
    rewrite getShapes_end_loop.
    destruct (spans_end line SHAPE_ENDS _ _) as [[out cur2] range2].
    rewrite map_m_app.
    destruct (map_m shape_init out) as [news|err]; cbn [bind]; [|reflexivity].
    rewrite IH.
    destruct (map_m shape_init (spans_from rest cur2 range2)) as [more|err];
      cbn [bind]; [|reflexivity].
    rewrite app_assoc. reflexivity.
Qed.

Theorem getShapes_spans lines :
  getShapes lines = map_m shape_init (spans_of lines).
Proof.
  unfold getShapes, spans_of. rewrite getShapes_loop. simpl. apply bind_ret.
Qed.

(** ** The placement and drill scanners hand their constructors the
       records of [part_records] and [drill_lines] *)

Lemma getParts_loop lines :
  forall st,
    (st' <- for_each getParts_step lines st ;; Ok (partList st'))
    = (news <- map_m part_init
                 (part_records_from lines (partsRange st) (firstLine st) (partLines0 st)) ;;
       Ok (partList st ++ news)).
Proof.
  induction lines as [|line rest IH]; intros [range first l0 pl];
    cbn [for_each part_records_from partsRange firstLine partLines0 partList].
  - cbn [map_m bind partList]. rewrite app_nil_r. reflexivity.
  - unfold getParts_step at 1.
    cbn [partsRange firstLine partLines0 partList].
    destruct (if str_in PLACEMENT_END line then false else range); [destruct first|].
    + cbn [bind partsRange firstLine partLines0 partList].
      destruct (str_in PLACEMENT_START line); rewrite IH; reflexivity.
    + cbn [map_m]. destruct (part_init (l0, line)) as [p|err]; cbn [bind]; [|reflexivity].
      cbn [partsRange firstLine partLines0 partList].
      assert (E : (if str_in PLACEMENT_START line
                   then mkPartsState true true l0 (pl ++ [p])
                   else mkPartsState true true l0 (pl ++ [p]))
                  = mkPartsState true true l0 (pl ++ [p]))
        by (destruct (str_in PLACEMENT_START line); reflexivity).
      rewrite E, IH. cbn [partsRange firstLine partLines0 partList].
      replace (if str_in PLACEMENT_START line then true else true) with true
        by (destruct (str_in PLACEMENT_START line); reflexivity).
      destruct (map_m part_init (part_records_from rest true true l0)) as [news|err];
        cbn [bind]; [|reflexivity].
      rewrite <- app_assoc. reflexivity.
    + cbn [bind partsRange firstLine partLines0 partList].
      destruct (str_in PLACEMENT_START line); rewrite IH; reflexivity.
Qed.

Theorem getParts_records lines :
  getParts lines = map_m part_init (part_records lines).
Proof.
  unfold getParts, part_records. rewrite getParts_loop. simpl. apply bind_ret.
Qed.

Lemma getDrills_loop lines :
  forall dl range,
    (st' <- for_each getDrills_step lines (mkDrillsState dl range) ;; Ok (drillList st'))
    = (news <- map_m drill_init (drill_lines_from lines range) ;; Ok (dl ++ news)).
Proof.
  induction lines as [|line rest IH]; intros dl range;
    cbn [for_each drill_lines_from].
  - cbn [map_m bind drillList]. rewrite app_nil_r. reflexivity.
  - unfold getDrills_step at 1. cbn [drillList drillRange].
    destruct (if str_in DRILL_END line then false else range).
    + cbn [map_m]. destruct (drill_init line) as [d|err]; cbn [bind]; [|reflexivity].
      rewrite IH.
      replace (if str_in DRILL_START line then true else true) with true
        by (destruct (str_in DRILL_START line); reflexivity).
      destruct (map_m drill_init (drill_lines_from rest true)) as [news|err];
        cbn [bind]; [|reflexivity].
      rewrite <- app_assoc. reflexivity.
    + cbn [bind]. rewrite IH. reflexivity.
Qed.

Theorem getDrills_lines lines :
  getDrills lines = map_m drill_init (drill_lines lines).
Proof.
  unfold getDrills, drill_lines. rewrite getDrills_loop. simpl. apply bind_ret.
Qed.

(** ** A malformed numeric field *)

Lemma index_In {A : Type} (l : list A) (k : Z) (a : A) : index l k = Ok a -> In a l.
Proof.
  unfold index. destruct (_ || _)%bool; [discriminate|].
  destruct (nth_error l _) as [b|] eqn:E; [|discriminate].
  intros H. injection H as <-. eapply nth_error_In. exact E.
Qed.

Ltac raise_chain Hi Hf :=
  repeat match goal with
         | |- is_ok (bind ?m _) = false =>
             first [ rewrite Hi | rewrite Hf | destruct m ]; cbn [bind is_ok]
         end;
  try reflexivity.

Lemma getCoords_step_raises st fields k :
  len fields = 4%Z -> bad_number fields k ->
  is_ok (getCoords_step st fields) = false.
Proof.
  unfold len. intros Hlen (field & Hi & Hbad). apply index_In in Hi.
  destruct fields as [|f0 [|f1 [|f2 [|f3 [|f4 r]]]]]; simpl in Hlen; try lia.
  unfold getCoords_step.
  change (index [f0; f1; f2; f3] 0) with (Ok f0).
  change (index [f0; f1; f2; f3] 1) with (Ok f1).
  change (index [f0; f1; f2; f3] 2) with (Ok f2).
  change (index [f0; f1; f2; f3] 3) with (Ok f3).
  cbn [bind].
  destruct Hi as [<- | [<- | [<- | [<- | []]]]]; raise_chain Hbad Hbad.
Qed.

Lemma shape_init_raises sData line k :
  In line sData -> len (split line) = 4%Z -> bad_number (split line) k ->
  is_ok (shape_init sData) = false.
Proof.
  intros Hline Hlen Hbad. unfold shape_init.
  destruct (index sData 0) as [l0|]; cbn [bind]; [|reflexivity].
  destruct (index (split l0) 0) as [ty|]; cbn [bind]; [|reflexivity].
  assert (Hc : is_ok (getCoords sData) = false).
  { unfold getCoords.
    assert (Hl : is_ok (for_each getCoords_step (shapeStrs sData)
                                 (mkCoordsState [] [] 0)) = false).
    { apply for_each_raises with (x := split line).
      - intros st. eapply getCoords_step_raises; eassumption.
      - unfold shapeStrs. apply in_map. apply filter_In. split; [exact Hline|].
        rewrite Hlen. reflexivity. }
    destruct (for_each getCoords_step _ _); [discriminate Hl | reflexivity]. }
  destruct (getCoords sData); [discriminate Hc | reflexivity].
Qed.

Lemma part_init_raises pData k :
  (k = 0 \/ k = 1 \/ k = 3)%Z -> bad_number (split (snd pData)) k ->
  is_ok (part_init pData) = false.
Proof.
  intros Hk (f & Hi & Hf).
  assert (Hc : is_ok (part_getCoords pData) = false).
  { unfold part_getCoords. destruct Hk as [-> | [-> | ->]]; raise_chain Hi Hf. }
  unfold part_init. destruct (part_getCoords pData); [discriminate Hc | reflexivity].
Qed.

Lemma drill_init_raises dData k :
  (k = 0 \/ k = 1 \/ k = 2)%Z -> bad_number (split dData) k ->
  is_ok (drill_init dData) = false.
Proof.
  intros Hk (f & Hi & Hf). unfold drill_init.
  destruct Hk as [-> | [-> | ->]]; raise_chain Hi Hf.
Qed.

Lemma emnObj_init_raises currentData fname :
  malformed_record currentData -> is_ok (emnObj_init currentData fname) = false.
Proof.
  intros Hbad. unfold emnObj_init.
  rewrite getParts_records, getShapes_spans, getDrills_lines.
  destruct Hbad as [(span & line & k & Hs & Hl & Hlen & _ & Hk)
                   | [(rec & k & Hr & Hk & Hb) | (line & k & Hl & Hk & Hb)]].
  - assert (H : is_ok (map_m shape_init (spans_of currentData)) = false).
    { apply map_m_raises with (x := span); [exact Hs|].
      eapply shape_init_raises; eassumption. }
    destruct (map_m part_init _); cbn [bind]; [|reflexivity].
    destruct (map_m shape_init _); [discriminate H | reflexivity].
  - assert (H : is_ok (map_m part_init (part_records currentData)) = false).
    { apply map_m_raises with (x := rec); [exact Hr|].
      eapply part_init_raises; eassumption. }
    destruct (map_m part_init _); [discriminate H | reflexivity].
  - assert (H : is_ok (map_m drill_init (drill_lines currentData)) = false).
    { apply map_m_raises with (x := line); [exact Hl|].
      eapply drill_init_raises; eassumption. }
    destruct (map_m part_init _); cbn [bind]; [|reflexivity].
    destruct (map_m shape_init _); cbn [bind]; [|reflexivity].
    destruct (getUnits currentData []) as [u errs].
    destruct (map_m drill_init _); [discriminate H | reflexivity].
Qed.

Lemma getEmnsInFolder_raises files file :
  In file files -> is_ok (emnObj_init (snd file) (fst file)) = false ->
  is_ok (getEmnsInFolder files) = false.
Proof.
  intros Hin Hbad. unfold getEmnsInFolder.
  apply for_each_raises with (x := file); [|exact Hin].
  intros st. unfold getEmnsInFolder_step.
  destruct (emnObj_init (snd file) (fst file)); [discriminate Hbad | reflexivity].
Qed.

(** C4, as the claim states it, fails: a file with a malformed vertex field
    makes the constructor raise [ValueError], and that exception leaves
    [getEmnsInFolder] and the checking loop of [main]: the well-formed file
    of the same folder, which alone is loaded and checked, is not
    processed, whichever of the two comes first.  (The same malformed line
    in a section that no end marker closes is never decoded: that file
    loads.) *)
Lemma C4_one_bad_file_aborts_the_batch :
  emnObj_init ex_bad_vertex "a_bad.emn" = Raise ValueError
  /\ is_ok (emnObj_init ex_good "b_good.emn") = true
  /\ is_ok (main_check atan2_axis upper_ascii [("b_good.emn", ex_good)] []) = true
  /\ getEmnsInFolder ex_batch = Raise ValueError
  /\ getEmnsInFolder (rev ex_batch) = Raise ValueError
  /\ main_check atan2_axis upper_ascii ex_batch [] = Raise ValueError
  /\ is_ok (emnObj_init ex_bad_vertex_unclosed "open.emn") = true.
Proof.
  repeat split; vm_compute; reflexivity.
Qed.

(** C4 (amended): when a record line reaches its decoder with a numeric
    field that [float] rejects (a four-field line of a shape section closed
    by an end marker, the second line of a placement pair, a drilled-hole
    line), the constructor of the board raises: no board and no message
    list is produced, and nothing is read as zero.  The exception also
    leaves the loader of a folder and the checking loop: no board of the
    batch is returned. *)
Theorem C4_malformed_record_propagates :
  forall files file,
    In file files -> malformed_record (snd file) ->
    (exists x, emnObj_init (snd file) (fst file) = Raise x)
    /\ (exists x, getEmnsInFolder files = Raise x)
    /\ (forall atan2 upper partsLibrary,
           exists x, main_check atan2 upper files partsLibrary = Raise x).
Proof.
  intros files file Hfile Hbad.
  assert (He : is_ok (emnObj_init (snd file) (fst file)) = false)
    by (apply emnObj_init_raises; exact Hbad).
  assert (Hb : is_ok (getEmnsInFolder files) = false)
    by (eapply getEmnsInFolder_raises; eassumption).
  split; [apply not_ok_raises; exact He|].
  split; [apply not_ok_raises; exact Hb|].
  intros atan2 upper partsLibrary. apply not_ok_raises. unfold main_check.
  destruct (getEmnsInFolder files); [discriminate Hb | reflexivity].
Qed.

(** A malformed vertex in a batch, a malformed rotation, a malformed drill
    diameter. *)
Lemma C4_malformed_record_propagates_witness :
  (exists x, getEmnsInFolder ex_batch = Raise x)
  /\ (exists x, emnObj_init ex_bad_part "part.emn" = Raise x)
  /\ (exists x, emnObj_init ex_bad_drill "drill.emn" = Raise x).
Proof.
  split; [|split].
  - apply (C4_malformed_record_propagates ex_batch ("a_bad.emn", ex_bad_vertex)).
    + left. reflexivity.
    + left. exists (skipn 4 ex_bad_vertex), ("0 9 0,5 0" ++ LF)%string, 2%Z.
      split; [vm_compute; left; reflexivity|].
      split; [vm_compute; do 3 right; left; reflexivity|].
      split; [vm_compute; reflexivity|].
      split; [lia|].
      exists "0,5". split; vm_compute; reflexivity.
  - apply (C4_malformed_record_propagates
             [("part.emn", ex_bad_part)] ("part.emn", ex_bad_part)).
    + left. reflexivity.
    + right. left.
      exists (("cap_0402 PN-1 C1" ++ LF)%string,
              ("10.0 20.0 0.0 ninety TOP PLACED" ++ LF)%string), 3%Z.
      split; [vm_compute; left; reflexivity|].
      split; [right; right; reflexivity|].
      exists "ninety". split; vm_compute; reflexivity.
  - apply (C4_malformed_record_propagates
             [("drill.emn", ex_bad_drill)] ("drill.emn", ex_bad_drill)).
    + left. reflexivity.
    + right. right.
      exists ("0.8mm 5.0 5.0 PTH BOARD VIA ECAD" ++ LF)%string, 0%Z.
      split; [vm_compute; left; reflexivity|].
      split; [left; reflexivity|].
      exists "0.8mm". split; vm_compute; reflexivity.
Defined.

(** ** Subscripts *)

Lemma index_circ (s : list coord) (k : Z) :
  (- len s <= k < len s)%Z -> index s k = Ok (circ s k).
Proof.
  unfold index, circ, len. set (n := Z.of_nat (List.length s)). intros Hk.
  assert (Hj : forall j, (0 <= j < n)%Z ->
                 nth_error s (Z.to_nat j) = Some (nth (Z.to_nat j) s origin)).
  { intros j Hj. apply nth_error_nth'. unfold n in Hj. lia. }
  destruct (k <? 0)%Z eqn:Ek.
  - apply Z.ltb_lt in Ek.
    replace (k mod n)%Z with (k + n)%Z.
    + replace ((k + n <? 0) || (n <=? k + n))%Z with false.
      * rewrite Hj by lia. reflexivity.
      * symmetry. apply orb_false_iff. split; [apply Z.ltb_ge | apply Z.leb_gt]; lia.
    + rewrite <- (Z_mod_plus_full k 1 n). rewrite Z.mod_small; lia.
  - apply Z.ltb_ge in Ek.
    rewrite (Z.mod_small k n) by lia.
    replace ((k <? 0) || (n <=? k))%Z with false.
    + rewrite Hj by lia. reflexivity.
    + symmetry. apply orb_false_iff. split; [apply Z.ltb_ge | apply Z.leb_gt]; lia.
Qed.

Lemma circ_in (s : list coord) (k : Z) : s <> [] -> In (circ s k) s.
Proof.
  intros Hs. unfold circ. apply nth_In.
  assert (0 < len s)%Z by (unfold len; destruct s; [contradiction | simpl; lia]).
  pose proof (Z.mod_pos_bound k (len s) H). unfold len in *. lia.
Qed.

Lemma circ_first (s : list coord) : s <> [] -> circ s 0 = first_of s.
Proof.
  destruct s as [|a r]; intros H; [contradiction|]. reflexivity.
Qed.

Lemma nth_last_of (s : list coord) :
  s <> [] -> nth (List.length s - 1) s origin = last_of s.
Proof.
  unfold last_of. induction s as [|a r IH]; intros H; [contradiction|].
  destruct r as [|b r']; [reflexivity|].
  simpl List.length. replace (S (S (List.length r')) - 1)%nat with (S (List.length r')) by lia.
  change (nth (S (List.length r')) (a :: b :: r') origin)
    with (nth (List.length r') (b :: r') origin).
  change (last (a :: b :: r') origin) with (last (b :: r') origin).
  rewrite <- IH by discriminate. simpl List.length.
  replace (S (List.length r') - 1)%nat with (List.length r') by lia. reflexivity.
Qed.

Lemma circ_last (s : list coord) : s <> [] -> circ s (-1) = last_of s.
Proof.
  intros Hs. rewrite <- (nth_last_of s Hs). unfold circ. f_equal.
  assert (0 < len s)%Z by (unfold len; destruct s; [contradiction | simpl; lia]).
  rewrite <- (Z_mod_plus_full (-1) 1 (len s)).
  rewrite Z.mod_small by lia. unfold len in *. lia.
Qed.

Lemma circ_second (s : list coord) : (2 <= len s)%Z -> circ s 1 = second_of s.
Proof.
  intros H. unfold circ, second_of. rewrite Z.mod_small by lia. reflexivity.
Qed.

(** ** The builder partitions the vertices into runs of one loop index *)

Lemma for_each_inv {A S : Type} (I : S -> Prop) (body : S -> A -> result S) xs :
  (forall st x st', I st -> body st x = Ok st' -> I st') ->
  forall st st', I st -> for_each body xs st = Ok st' -> I st'.
Proof.
  intros Hbody st st' Hst H. revert Hst.
  apply (for_each_rel (fun a b => I a -> I b) body) with (xs := xs) (st := st);
    [auto | auto | | exact H].
  intros st0 x st1 _ Hb Hi. eapply Hbody; eassumption.
Qed.

Lemma run_ok_one_loop cur k : run_ok cur k -> one_loop cur.
Proof.
  intros [[_ H] | (c & r & -> & _ & H)]; [left | right]; assumption.
Qed.

Lemma getCoords_step_inv st fields st' :
  coords_inv st -> getCoords_step st fields = Ok st' -> coords_inv st'.
Proof.
  intros [Hsubs Hrun] H. unfold getCoords_step in H.
  do 8 ok_inv H.
  match type of H with
  | (if (_ =? cutout ?c)%float then _ else _) = _ => set (v := c) in *
  end.
  destruct (cutoutIndex st =? cutout v)%float eqn:E; injection H as <-; split; simpl.
  - exact Hsubs.
  - destruct Hrun as [[K Hz] | (c & r & Hc & K & Hr)].
    + left. split; [exact K|]. intros u Hu. apply in_app_or in Hu.
      destruct Hu as [Hu | [<- | []]]; [apply Hz; exact Hu | rewrite <- K; exact E].
    + right. exists c, (r ++ [v]). rewrite Hc. split; [reflexivity|].
      split; [exact K|]. intros u Hu. apply in_app_or in Hu.
      destruct Hu as [Hu | [<- | []]]; [apply Hr; exact Hu | rewrite <- K; exact E].
  - apply Forall_app. split; [exact Hsubs|].
    constructor; [eapply run_ok_one_loop; exact Hrun | constructor].
  - right. exists v, []. split; [reflexivity|]. split; [reflexivity|].
    intros u [].
Qed.

Lemma getCoords_one_loop sData cs :
  getCoords sData = Ok cs -> Forall one_loop cs.
Proof.
  unfold getCoords. intros H. ok_inv H. injection H as <-.
  apply (for_each_inv coords_inv) in Ha.
  - destruct Ha as [Hsubs Hrun]. apply Forall_app. split; [exact Hsubs|].
    constructor; [eapply run_ok_one_loop; exact Hrun | constructor].
  - intros st x st'. apply getCoords_step_inv.
  - split; [constructor|]. left. split; [reflexivity|]. intros v [].
Qed.

Lemma shape_init_built sData sh : shape_init sData = Ok sh -> built sh.
Proof.
  unfold shape_init. intros H. do 5 ok_inv H. injection H as <-.
  unfold built. simpl. split.
  - destruct a1 as [|o r]; [|rewrite index_0_cons in Ha2; injection Ha2 as <-; reflexivity].
    discriminate Ha2.
  - eapply getCoords_one_loop. exact Ha1.
Qed.

Lemma emnObj_init_built currentData fname e :
  emnObj_init currentData fname = Ok e -> Forall built (shapes e).
Proof.
  intros H. apply emnObj_init_ok in H. destruct H as (_ & Hs & _).
  rewrite getShapes_spans in Hs. apply Forall_forall. intros sh Hin.
  destruct (map_m_ok_built _ _ _ Hs sh Hin) as (span & _ & Hb).
  eapply shape_init_built. exact Hb.
Qed.

Lemma toCheck_of_built sh : built sh -> toCheck_of sh = coordinates sh.
Proof.
  intros [Hc _]. rewrite Hc. unfold toCheck_of. destruct (cutouts sh); reflexivity.
Qed.

(** ** The closure check *)

Lemma eqb_zero_both (a b : float) :
  (0 =? a)%float = true -> (0 =? b)%float = true -> (a =? b)%float = true.
Proof.
  rewrite !eqb_spec. change (Prim2SF 0) with (S754_zero false).
  destruct (Prim2SF a) as [sa| | |]; destruct (Prim2SF b) as [sb| | |];
    simpl; intros Ha Hb; try discriminate; try reflexivity.
  all: try (destruct s; discriminate).
Qed.

Lemma last_of_in_tl (s : list coord) :
  (2 <= List.length s)%nat -> In (last_of s) (tl s).
Proof.
  destruct s as [|a [|b r]]; simpl; intros H; try lia.
  unfold last_of. change (last (a :: b :: r) origin) with (last (b :: r) origin).
  clear. revert b. induction r as [|c r IH]; intros b.
  - left. reflexivity.
  - change (last (b :: c :: r) origin) with (last (c :: r) origin).
    right. apply IH.
Qed.

Lemma one_loop_ends (s : list coord) :
  one_loop s -> (2 <= List.length s)%nat ->
  (cutout (first_of s) =? cutout (last_of s))%float = true.
Proof.
  intros [Hz | Hf] Hlen.
  - apply eqb_zero_both; apply Hz.
    + destruct s; [simpl in Hlen; lia | left; reflexivity].
    + pose proof (last_of_in_tl s Hlen) as Hl.
      destruct s; [destruct Hl | right; exact Hl].
  - apply Hf. apply last_of_in_tl. exact Hlen.
Qed.

Lemma checkClosed_sub_gen sh e s :
  one_loop s ->
  checkClosed_sub sh e s
  = if open_sub s
    then (str <- shape__str__ sh ;;
          Ok (append_error e
                (if ((3 <=? len s)%Z && negb (cutout (first_of s) =? 0)%float)%bool
                 then CutoutNotClosed str (xPos (first_of s)) (yPos (first_of s))
                 else NotClosed str)))
    else Ok e.
Proof.
  intros Hone. unfold checkClosed_sub, open_sub.
  destruct (3 <=? len s)%Z eqn:E3.
  - apply Z.leb_le in E3.
    assert (Hs : s <> []) by (intros ->; unfold len in E3; simpl in E3; lia).
    rewrite (index_circ s 0), (index_circ s (-1)) by lia.
    rewrite (circ_first s Hs), (circ_last s Hs). cbn [bind].
    assert (Hsl : slice3_ne (first_of s) (last_of s) = xy_differs (first_of s) (last_of s)).
    { unfold slice3_ne, xy_differs. rewrite one_loop_ends; [reflexivity | exact Hone|].
      unfold len in E3. lia. }
    rewrite Hsl. destruct (xy_differs (first_of s) (last_of s)).
    + cbn [bind andb]. destruct (cutout (first_of s) =? 0)%float; reflexivity.
    + replace (len s =? 2)%Z with false by (symmetry; apply Z.eqb_neq; lia).
      reflexivity.
  - cbn [bind andb]. destruct (len s =? 2)%Z eqn:E2.
    + apply Z.eqb_eq in E2.
      rewrite (index_circ s 1), (circ_second s) by lia. cbn [bind].
      destruct (fneq (arc (second_of s)) 360); reflexivity.
    + reflexivity.
Qed.

Lemma checkClosed_sub_spec sh e s :
  (open_sub s = true -> outline sh <> []) -> one_loop s ->
  checkClosed_sub sh e s
  = Ok (set_errors e (errors e ++ if open_sub s then [closure_diag sh s] else [])).
Proof.
  intros Hol Hone. rewrite (checkClosed_sub_gen sh e s Hone). unfold closure_diag.
  destruct (open_sub s).
  - rewrite (shape__str__label sh (Hol eq_refl)). reflexivity.
  - rewrite app_nil_r, set_errors_same. reflexivity.
Qed.

Lemma for_each_appends {A : Type} (body : emnObj -> A -> result emnObj)
  (out : A -> list diag) (xs : list A) :
  (forall x, In x xs ->
     forall e, body e x = Ok (set_errors e (errors e ++ out x))) ->
  forall e, for_each body xs e = Ok (set_errors e (errors e ++ flat_map out xs)).
Proof.
  induction xs as [|x xs IH]; intros Hbody e; cbn [for_each flat_map].
  - rewrite app_nil_r, set_errors_same. reflexivity.
  - rewrite (Hbody x (or_introl eq_refl)). cbn [bind].
    rewrite IH by (intros y Hy; apply Hbody; right; exact Hy).
    simpl errors. rewrite <- app_assoc. reflexivity.
Qed.

Lemma checkClosed_shape_spec e sh :
  built sh -> (existsb open_sub (toCheck_of sh) = true -> outline sh <> []) ->
  checkClosed_shape e sh
  = Ok (set_errors e
          (errors e ++ flat_map (fun s => if open_sub s then [closure_diag sh s] else [])
                                (toCheck_of sh))).
Proof.
  intros Hb Hol. unfold checkClosed_shape. apply for_each_appends.
  intros s Hs e0. apply checkClosed_sub_spec.
  - intros Ho. apply Hol. apply existsb_exists. exists s. split; assumption.
  - rewrite (toCheck_of_built sh Hb) in Hs. destruct Hb as [_ Hall].
    rewrite Forall_forall in Hall. apply Hall. exact Hs.
Qed.

Lemma checkClosed_subs_raise sh subs :
  outline sh = [] -> Forall one_loop subs -> existsb open_sub subs = true ->
  forall e, for_each (checkClosed_sub sh) subs e = Raise IndexError.
Proof.
  intros Ho. induction subs as [|s subs IH]; intros Hall Hex e.
  - discriminate Hex.
  - inversion Hall as [|? ? Hs Hrest]; subst. cbn [for_each existsb] in *.
    rewrite (checkClosed_sub_gen sh e s Hs).
    destruct (open_sub s).
    + rewrite (shape__str__bare sh Ho). reflexivity.
    + cbn [bind]. apply IH; assumption.
Qed.

Lemma checkClosed_shape_raises e sh :
  built sh -> existsb open_sub (toCheck_of sh) = true -> outline sh = [] ->
  checkClosed_shape e sh = Raise IndexError.
Proof.
  intros Hb Hex Ho. unfold checkClosed_shape.
  apply checkClosed_subs_raise; [exact Ho | | exact Hex].
  rewrite (toCheck_of_built sh Hb). apply Hb.
Qed.

Lemma checkClosed_shapes_raise ss :
  Forall built ss ->
  Exists (fun sh => existsb open_sub (toCheck_of sh) = true /\ outline sh = []) ss ->
  forall e, for_each checkClosed_shape ss e = Raise IndexError.
Proof.
  induction ss as [|sh ss IH]; intros Hb Hex e.
  - inversion Hex.
  - inversion Hb as [|? ? Hsh Hrest]; subst. cbn [for_each].
    destruct (existsb open_sub (toCheck_of sh)) eqn:Hopen.
    + destruct (outline sh) as [|v r] eqn:Ho.
      * rewrite (checkClosed_shape_raises e sh Hsh Hopen Ho). reflexivity.
      * rewrite (checkClosed_shape_spec e sh Hsh)
          by (intros _; rewrite Ho; discriminate).
        cbn [bind]. apply IH; [exact Hrest|].
        inversion Hex as [? ? [_ K]|? ? K]; subst; [|exact K].
        rewrite Ho in K. discriminate K.
    + rewrite (checkClosed_shape_spec e sh Hsh)
        by (rewrite Hopen; discriminate).
      cbn [bind]. apply IH; [exact Hrest|].
      inversion Hex as [? ? [K _]|? ? K]; subst; [|exact K].
      rewrite Hopen in K. discriminate K.
Qed.

(** C7, as the claim states it, fails: a shape section whose only loop is
    numbered 1 has an empty outline, and its open three-vertex cutout makes
    the check raise on the shape's name instead of appending a message. *)
Lemma C7_open_cutout_without_outline_raises :
  exists e sh s,
    emnObj_init ex_cutout_only "cutout.emn" = Ok e
    /\ shapes e = [sh] /\ outline sh = [] /\ cutouts sh = [s]
    /\ len s = 3%Z /\ xy_differs (first_of s) (last_of s) = true
    /\ checkClosedErrors e = Raise IndexError.
Proof.
  eexists. eexists. eexists. split; [vm_compute; reflexivity|].
  split; [reflexivity|]. split; [reflexivity|]. split; [reflexivity|].
  split; [reflexivity|]. split; vm_compute; reflexivity.
Qed.

(** C7 (amended): a sub-shape of three or more vertices is open iff the
    (x,y) of its first and last vertex differ; one of exactly two vertices
    iff the sweep of its second vertex is not 360; a shorter one is never
    open.  On a board built by the constructor in which every shape that
    has an open sub-shape has an outline vertex, the closure check appends,
    shape after shape and for the outline then each cutout on its own, one
    "not a closed shape" message for every open sub-shape and nothing for
    the others; the message of a sub-shape of three or more vertices with a
    loop index other than 0 carries its start.  On a board in which a shape
    with an open sub-shape has no outline vertex it raises [IndexError]. *)
Theorem C7_closure_check :
  forall currentData fname e,
    emnObj_init currentData fname = Ok e ->
    ((forall sh, In sh (shapes e) ->
                 existsb open_sub (toCheck_of sh) = true -> outline sh <> []) ->
     checkClosedErrors e = Ok (set_errors e (errors e ++ closure_diags (shapes e))))
    /\ (Exists (fun sh => existsb open_sub (toCheck_of sh) = true /\ outline sh = [])
               (shapes e) ->
        checkClosedErrors e = Raise IndexError)
    /\ (forall sh, toCheck_of sh = outline sh :: cutouts sh)
    /\ (forall s, (3 <= len s)%Z ->
                  open_sub s = xy_differs (first_of s) (last_of s))
    /\ (forall s, len s = 2%Z -> open_sub s = negb (arc (second_of s) =? 360)%float)
    /\ (forall s, (len s < 2)%Z -> open_sub s = false).
Proof.
  intros currentData fname e Hinit.
  pose proof (emnObj_init_built _ _ _ Hinit) as Hb.
  split; [|split; [|split]].
  - intros Hol. rewrite Forall_forall in Hb.
    unfold checkClosedErrors, closure_diags. apply for_each_appends.
    intros sh Hsh e0. apply checkClosed_shape_spec; [apply Hb | apply Hol]; exact Hsh.
  - intros Hex. unfold checkClosedErrors. apply checkClosed_shapes_raise; assumption.
  - intros sh. unfold toCheck_of. destruct (cutouts sh); reflexivity.
  - unfold open_sub. repeat split; intros s Hs.
    + replace (3 <=? len s)%Z with true by (symmetry; apply Z.leb_le; lia). reflexivity.
    + rewrite Hs. reflexivity.
    + replace (3 <=? len s)%Z with false by (symmetry; apply Z.leb_gt; lia).
      replace (len s =? 2)%Z with false by (symmetry; apply Z.eqb_neq; lia).
      reflexivity.
Qed.

(** A shape without outline vertex whose only loop is closed is passed
    over, and the open board outline after it is reported. *)
Lemma C7_closure_check_witness :
  exists e,
    emnObj_init ex_closed_cutout_only_then_open "mixed.emn" = Ok e
    /\ map outline (shapes e)
       = [[]; [mkCoord 0 0 0 0; mkCoord 0 9 0 0; mkCoord 0 9 9 0]]
    /\ checkClosedErrors e
       = Ok (set_errors e [NotClosed (mkShapeStr ".BOARD_OUTLINE" 0 0)]).
Proof.
  eexists. split; [vm_compute; reflexivity|]. split; [reflexivity|].
  refine (eq_trans
            (proj1 (C7_closure_check ex_closed_cutout_only_then_open "mixed.emn" _
                      ltac:(vm_compute; reflexivity)) _) _).
  - intros sh Hin Ho. simpl in Hin. destruct Hin as [<- | [<- | []]].
    + vm_compute in Ho. discriminate Ho.
    + discriminate.
  - vm_compute. reflexivity.
Defined.

(** ** The arc-tangent check *)

Lemma in_range (n : nat) (i : Z) : In i (range n) -> (0 <= i < Z.of_nat n)%Z.
Proof.
  unfold range. intros H. apply in_map_iff in H. destruct H as (k & <- & Hk).
  apply in_seq in Hk. lia.
Qed.

Lemma for_each_unchanged {A S : Type} (body : S -> A -> result S) (xs : list A) (st : S) :
  (forall x, In x xs -> body st x = Ok st) -> for_each body xs st = Ok st.
Proof.
  induction xs as [|x xs IH]; intros H; cbn [for_each]; [reflexivity|].
  rewrite (H x (or_introl eq_refl)). cbn [bind].
  apply IH. intros y Hy. apply H. right. exact Hy.
Qed.

Lemma truthy_zero (x : float) : (x =? 0)%float = true -> truthy x = false.
Proof. unfold truthy. intros ->. reflexivity. Qed.

Lemma checkArc_at_straight atan2 s e i :
  (2 < len s)%Z -> (0 <= i < len s)%Z ->
  (arc (circ s (i - 1)) =? 0)%float = true ->
  (arc (circ s i) =? 0)%float = true ->
  checkArc_at atan2 s e i = Ok e.
Proof.
  intros Hn Hi H0 H1. unfold checkArc_at.
  rewrite (index_circ s (i - 1)), (index_circ s i) by lia. cbn [bind].
  rewrite (truthy_zero _ H0), (truthy_zero _ H1). reflexivity.
Qed.

(** C1, as the claim states it, fails: on the loop A(2,0) B(0,0) C(1,0),
    whose segment into C sweeps half a degree, the step at vertex 2 (C)
    finds the tangents within tolerance and reports (0,0), the position of
    vertex 1 (B), not that of vertex 2. *)
Lemma C1_message_carries_the_previous_vertex :
  exists e' b b',
    index [spike_A; spike_B; spike_C] 2 = Ok spike_C
    /\ index [spike_A; spike_B; spike_C] (2 - 1) = Ok spike_B
    /\ checkArc_at atan2_axis [spike_A; spike_B; spike_C] empty_board 2 = Ok e'
    /\ errors e' = [InfinitesimalArc (xPos spike_B) (yPos spike_B)]
    /\ (xPos spike_B, yPos spike_B) = (0, 0)%float
    /\ (xPos spike_C, yPos spike_C) = (1, 0)%float
    /\ (xPos spike_C =? xPos spike_B)%float = false
    /\ emnObj_init ex_spike "spike.emn" = Ok b
    /\ map outline (shapes b) = [[mkCoord 0 1 0 0; spike_A; spike_B; spike_C]]
    /\ checkArcAngle atan2_axis b = Ok b'
    /\ errors b' = [InfinitesimalArc 0 0].
Proof.
  eexists. eexists. eexists.
  split; [reflexivity|]. split; [reflexivity|].
  split; [vm_compute; reflexivity|].
  split; [reflexivity|]. split; [reflexivity|]. split; [reflexivity|].
  split; [reflexivity|].
  split; [vm_compute; reflexivity|].
  split; [reflexivity|].
  split; [vm_compute; reflexivity|].
  reflexivity.
Qed.

Lemma checkArc_at_finding atan2 s e i :
  (2 < len s)%Z -> (0 <= i < len s)%Z ->
  checkArc_at atan2 s e i
  = (found <- arc_finding atan2 s i ;; Ok (set_errors e (errors e ++ found))).
Proof.
  intros Hn Hi. unfold checkArc_at, arc_finding, tangent_defect.
  rewrite (index_circ s (i - 1)), (index_circ s i), (index_circ s (i - 2)) by lia.
  cbn [bind].
  destruct (truthy (arc (circ s (i - 1))) || truthy (arc (circ s i)))%bool;
    [|cbn [bind]; rewrite app_nil_r, set_errors_same; reflexivity].
  destruct (fmod _ tau) as [alpha0|]; cbn [bind]; [|reflexivity].
  destruct (fmod _ tau) as [alpha1|]; cbn [bind]; [|reflexivity].
  destruct (fmod _ tau) as [delta|]; cbn [bind]; [|reflexivity].
  destruct (isclose delta 0 lit_0_01 lit_0_01 || isclose delta tau lit_0_01 lit_0_01)%bool;
    [reflexivity|].
  rewrite app_nil_r, set_errors_same. reflexivity.
Qed.

(** A loop whose every step appends what [out] finds appends, in order,
    all that [out] finds, and raises where [out] first raises. *)
Lemma for_each_collect {A : Type} (body : emnObj -> A -> result emnObj)
  (out : A -> result (list diag)) (xs : list A) :
  (forall x, In x xs ->
     forall e, body e x = (found <- out x ;; Ok (set_errors e (errors e ++ found)))) ->
  forall e,
    for_each body xs e
    = (found <- map_m out xs ;; Ok (set_errors e (errors e ++ List.concat found))).
Proof.
  induction xs as [|x xs IH]; intros Hbody e; cbn [for_each map_m].
  - cbn [bind List.concat]. rewrite app_nil_r, set_errors_same. reflexivity.
  - rewrite (Hbody x (or_introl eq_refl)).
    destruct (out x) as [ds|err]; cbn [bind]; [|reflexivity].
    rewrite IH by (intros y Hy; apply Hbody; right; exact Hy).
    destruct (map_m out xs) as [dss|err]; cbn [bind]; [|reflexivity].
    cbn [List.concat errors set_errors]. rewrite <- app_assoc. reflexivity.
Qed.

Lemma checkArc_sub_findings atan2 e s0 :
  checkArc_sub atan2 e s0
  = (found <- arc_findings_sub atan2 s0 ;; Ok (set_errors e (errors e ++ found))).
Proof.
  unfold checkArc_sub, arc_findings_sub.
  destruct (2 <? len (tl s0))%Z eqn:E.
  - apply Z.ltb_lt in E.
    rewrite (for_each_collect (checkArc_at atan2 (tl s0)) (arc_finding atan2 (tl s0))).
    + destruct (map_m _ _); reflexivity.
    + intros i Hi e0. apply in_range in Hi. apply checkArc_at_finding; [exact E|].
      unfold len. exact Hi.
  - cbn [bind]. rewrite app_nil_r, set_errors_same. reflexivity.
Qed.

Lemma checkArc_shape_findings atan2 e sh :
  checkArc_shape atan2 e sh
  = (found <- arc_findings_shape atan2 sh ;; Ok (set_errors e (errors e ++ found))).
Proof.
  unfold checkArc_shape, arc_findings_shape.
  replace (toCheck_of sh) with (outline sh :: cutouts sh)
    by (unfold toCheck_of; destruct (cutouts sh); reflexivity).
  rewrite (for_each_collect (checkArc_sub atan2) (arc_findings_sub atan2)).
  - destruct (map_m _ _); reflexivity.
  - intros s0 _ e0. apply checkArc_sub_findings.
Qed.

(** C1 (amended): the arc check runs over every shape of the board and, in
    each, over the outline and every cutout; a sub-shape that keeps more
    than 2 vertices once its first vertex is dropped is examined at every
    index [i] of the remaining loop, indices counted circularly: [phi0] is
    the sweep of vertex [i-1], [phi1] the sweep of vertex [i]; the test is
    made at vertex [i-1], between vertex [i-2] and vertex [i]; and when the
    computed delta is within tolerance the message carries the coordinates
    of vertex [i-1].  The check appends exactly these messages, in that
    order, and raises where the first of these tests raises. *)
Theorem C1_arc_check_reads_and_reports :
  forall atan2 e,
    checkArcAngle atan2 e
    = (found <- arc_findings atan2 (shapes e) ;;
       Ok (set_errors e (errors e ++ found))).
Proof.
  intros atan2 e. unfold checkArcAngle, arc_findings.
  rewrite (for_each_collect (checkArc_shape atan2) (arc_findings_shape atan2)).
  - destruct (map_m _ _); reflexivity.
  - intros sh _ e0. apply checkArc_shape_findings.
Qed.

(** The loop A, B, C of [ex_spike] as the cutout of the second of two
    shapes: the one message carries B, at (3,3). *)
Lemma C1_arc_check_reads_and_reports_witness :
  exists b,
    emnObj_init ex_spike_in_cutout "cutout-spike.emn" = Ok b
    /\ map cutouts (shapes b)
       = [[]; [[mkCoord 1 4 3 0; mkCoord 1 5 3 0; mkCoord 1 3 3 0;
                mkCoord 1 4 3 0.5]]]
    /\ checkArcAngle atan2_axis b = Ok (set_errors b [InfinitesimalArc 3 3]).
Proof.
  eexists. split; [vm_compute; reflexivity|]. split; [reflexivity|].
  rewrite C1_arc_check_reads_and_reports. vm_compute. reflexivity.
Defined.

(** C8: a vertex both of whose adjacent segments have sweep 0 is passed
    over without a message, so a sub-shape whose sweeps are all 0 yields
    none; the three colinear vertices (0,0), (1,0), (2,0) yield none, as a
    sub-shape and as the outline of a board. *)
Theorem C8_straight_vertices_are_skipped :
  forall atan2 e,
    (forall s i,
        (2 < len s)%Z -> (0 <= i < len s)%Z ->
        (arc (circ s (i - 1)) =? 0)%float = true ->
        (arc (circ s i) =? 0)%float = true ->
        checkArc_at atan2 s e i = Ok e)
    /\ (forall s0,
           (forall v, In v s0 -> (arc v =? 0)%float = true) ->
           checkArc_sub atan2 e s0 = Ok e)
    /\ checkArc_sub atan2 e ex_colinear_sub = Ok e
    /\ exists b,
         emnObj_init ex_colinear "line.emn" = Ok b
         /\ map outline (shapes b) = [ex_colinear_sub]
         /\ checkArcAngle atan2 b = Ok b.
Proof.
  intros atan2 e.
  assert (Hall : forall s0,
             (forall v, In v s0 -> (arc v =? 0)%float = true) ->
             checkArc_sub atan2 e s0 = Ok e).
  { intros s0 Hz. unfold checkArc_sub.
    destruct (2 <? len (tl s0))%Z eqn:E; [|reflexivity].
    apply Z.ltb_lt in E. apply for_each_unchanged. intros i Hi.
    apply in_range in Hi. fold (len (tl s0)) in Hi.
    assert (Hs : tl s0 <> []) by (intros K; rewrite K in E; unfold len in E; simpl in E; lia).
    assert (Hin : forall k, In (circ (tl s0) k) s0).
    { intros k. destruct s0 as [|a r]; [contradiction Hs; reflexivity|].
      right. apply circ_in. exact Hs. }
    apply checkArc_at_straight; [exact E | exact Hi | apply Hz, Hin | apply Hz, Hin]. }
  split; [intros s i; apply checkArc_at_straight|].
  split; [exact Hall|].
  split; [apply Hall; intros v Hv; simpl in Hv;
          repeat (destruct Hv as [<- | Hv]; [reflexivity|]); destruct Hv|].
  eexists. split; [vm_compute; reflexivity|].
  split; [reflexivity|].
  vm_compute. reflexivity.
Qed.

(** The last corner of a square of straight segments. *)
Lemma C8_straight_vertices_are_skipped_witness :
  checkArc_at atan2_axis
    [mkCoord 0 1 0 0; mkCoord 0 1 1 0; mkCoord 0 0 1 0; mkCoord 0 0 0 0]
    empty_board 3
  = Ok empty_board.
Proof.
  apply (proj1 (C8_straight_vertices_are_skipped atan2_axis empty_board)).
  - vm_compute. reflexivity.
  - vm_compute. split; [discriminate | reflexivity].
  - vm_compute. reflexivity.
  - vm_compute. reflexivity.
Defined.

(* ================================================================= *)
(** * Part VIII.  Further properties of the scanners, the decoders and
      the checks                                                     *)
(* ================================================================= *)

(** ** Markers *)

Lemma fold_start_mentions line keywords range :
  fold_left (fun r keyword => if str_in keyword line then true else r) keywords range
  = (range || mentions keywords line)%bool.
Proof.
  revert range. induction keywords as [|k ks IH]; intros range; cbn [fold_left mentions existsb].
  - rewrite orb_false_r. reflexivity.
  - rewrite IH. unfold mentions. destruct (str_in k line); destruct range; reflexivity.
Qed.

Lemma mentions_count_0 keywords line :
  mentions keywords line = false -> mention_count keywords line = 0%nat.
Proof.
  unfold mentions, mention_count. induction keywords as [|k ks IH]; cbn [existsb filter].
  - reflexivity.
  - destruct (str_in k line); [discriminate | exact IH].
Qed.

(** The end-marker loop hands over the open group once per matching
    marker: the group itself first, then empty groups. *)
Lemma spans_end_count line keywords :
  forall cur range,
    spans_end line keywords cur range
    = match mention_count keywords line with
      | O => ([], cur, range)
      | S m => (cur :: repeat [] m, [], false)
      end.
Proof.
  unfold mention_count.
  induction keywords as [|k ks IH]; intros cur range; cbn [spans_end filter].
  - reflexivity.
  - destruct (str_in k line).
    + rewrite IH. cbn [List.length].
      destruct (List.length (filter (fun keyword => str_in keyword line) ks)); reflexivity.
    + apply IH.
Qed.

Lemma spans_from_no_end lines :
  Forall (fun line => mentions SHAPE_ENDS line = false) lines ->
  forall cur range, spans_from lines cur range = [].
Proof.
  induction 1 as [|line rest Hl _ IH]; intros cur range; cbn [spans_from].
  - reflexivity.
  - rewrite spans_end_count, (mentions_count_0 _ _ Hl). apply IH.
Qed.

Lemma spans_from_quiet pre rest :
  Forall (fun line => mentions SHAPE_STARTS line = false
                      /\ mentions SHAPE_ENDS line = false) pre ->
  spans_from (pre ++ rest) [] false = spans_from rest [] false.
Proof.
  induction 1 as [|line pre [Hs He] _ IH]; cbn [spans_from app].
  - reflexivity.
  - rewrite fold_start_mentions, Hs, spans_end_count, (mentions_count_0 _ _ He).
    exact IH.
Qed.

Lemma spans_from_body body rest :
  Forall (fun line => mentions SHAPE_ENDS line = false) body ->
  forall cur,
    spans_from (body ++ rest) cur true = spans_from rest (cur ++ body) true.
Proof.
  induction 1 as [|line body He _ IH]; intros cur; cbn [spans_from app].
  - rewrite app_nil_r. reflexivity.
  - rewrite fold_start_mentions, spans_end_count, (mentions_count_0 _ _ He).
    cbn [orb]. rewrite IH, <- app_assoc. reflexivity.
Qed.

(** X1.  A shape section is built only when its end marker is met: a file
    none of whose lines holds an end marker yields no shape, whatever start
    markers and vertex lines it holds (and however malformed they are). *)
Theorem getShapes_without_end_marker :
  forall lines,
    Forall (fun line => mentions SHAPE_ENDS line = false) lines ->
    getShapes lines = Ok [].
Proof.
  intros lines H. rewrite getShapes_spans. unfold spans_of.
  rewrite (spans_from_no_end lines H). reflexivity.
Qed.

(** On the file of the malformed vertex, cut before its end marker. *)
Lemma getShapes_without_end_marker_witness :
  getShapes ex_bad_vertex_unclosed = Ok [].
Proof.
  apply getShapes_without_end_marker.
  repeat constructor.
Defined.

(** X2.  An end marker met while no section is open makes the constructor
    run on no line at all: [getShapes] raises [IndexError]. *)
Theorem getShapes_stray_end_marker :
  forall pre line post,
    Forall (fun l => mentions SHAPE_STARTS l = false
                     /\ mentions SHAPE_ENDS l = false) pre ->
    mentions SHAPE_STARTS line = false ->
    mentions SHAPE_ENDS line = true ->
    getShapes (pre ++ line :: post) = Raise IndexError.
Proof.
  intros pre line post Hpre Hs He. rewrite getShapes_spans. unfold spans_of.
  rewrite (spans_from_quiet pre _ Hpre). cbn [spans_from].
  rewrite fold_start_mentions, Hs, spans_end_count. cbn [orb].
  destruct (mention_count SHAPE_ENDS line) as [|m] eqn:E.
  - unfold mentions in He. unfold mention_count in E.
    apply existsb_exists in He. destruct He as (k & Hk & Hin).
    assert (In k (filter (fun keyword => str_in keyword line) SHAPE_ENDS))
      by (apply filter_In; split; assumption).
    destruct (filter _ SHAPE_ENDS); [contradiction | discriminate E].
  - reflexivity.
Qed.

Lemma getShapes_stray_end_marker_witness :
  getShapes (file_lines header_mm ++ (".END_VIA_KEEPOUT" ++ LF)%string
               :: file_lines [".BOARD_OUTLINE MCAD"])
  = Raise IndexError.
Proof.
  apply getShapes_stray_end_marker.
  - repeat constructor.
  - reflexivity.
  - reflexivity.
Defined.

(** X3.  One section in a file: the lines before the start marker and after
    the end marker are ignored, the group handed to the constructor runs
    from the start-marker line to the end-marker line, both included, and a
    further start marker inside the section only extends it. *)
Theorem getShapes_one_section :
  forall pre start body stop post,
    Forall (fun l => mentions SHAPE_STARTS l = false
                     /\ mentions SHAPE_ENDS l = false) pre ->
    mentions SHAPE_STARTS start = true -> mentions SHAPE_ENDS start = false ->
    Forall (fun l => mentions SHAPE_ENDS l = false) body ->
    mention_count SHAPE_ENDS stop = 1%nat ->
    Forall (fun l => mentions SHAPE_ENDS l = false) post ->
    getShapes (pre ++ start :: body ++ stop :: post)
    = (sh <- shape_init (start :: body ++ [stop]) ;; Ok [sh]).
Proof.
  intros pre start body stop post Hpre Hs1 Hs2 Hbody Hstop Hpost.
  rewrite getShapes_spans. unfold spans_of.
  rewrite (spans_from_quiet pre _ Hpre). cbn [spans_from].
  rewrite fold_start_mentions, Hs1, spans_end_count, (mentions_count_0 _ _ Hs2).
  cbn [orb app]. rewrite (spans_from_body body _ Hbody). cbn [spans_from].
  rewrite fold_start_mentions, spans_end_count, Hstop. cbn [orb repeat].
  rewrite (spans_from_no_end post Hpost). cbn [app map_m].
  destruct (shape_init (start :: body ++ [stop])); reflexivity.
Qed.

Lemma getShapes_one_section_witness :
  exists sh,
    getShapes ex_good = Ok [sh]
    /\ shape_init (skipn 4 ex_good) = Ok sh.
Proof.
  eexists. split; [|vm_compute; reflexivity].
  refine (eq_trans
            (getShapes_one_section (firstn 4 ex_good)
               (".BOARD_OUTLINE MCAD" ++ LF)%string
               (firstn 5 (skipn 5 ex_good))
               (".END_BOARD_OUTLINE" ++ LF)%string [] _ _ _ _ _ _) _).
  - repeat constructor.
  - reflexivity.
  - reflexivity.
  - repeat constructor.
  - reflexivity.
  - constructor.
  - vm_compute. reflexivity.
Defined.

(** ** The placement and drilled-holes sections *)

Lemma pairs_from_of ls :
  forall l0,
    pairs_from true l0 ls = pairs_of ls
    /\ pairs_from false l0 ls
       = match ls with
         | [] => []
         | b :: rest => (l0, b) :: pairs_of rest
         end.
Proof.
  induction ls as [|line rest IH]; intros l0.
  - split; reflexivity.
  - split.
    + cbn [pairs_from]. rewrite (proj2 (IH line)). destruct rest; reflexivity.
    + cbn [pairs_from]. rewrite (proj1 (IH l0)). reflexivity.
Qed.

Lemma part_records_outside ls :
  Forall (fun l => str_in PLACEMENT_START l = false) ls ->
  forall first l0, part_records_from ls false first l0 = [].
Proof.
  induction 1 as [|line rest Hs _ IH]; intros first l0; cbn [part_records_from].
  - reflexivity.
  - rewrite Hs. destruct (str_in PLACEMENT_END line); apply IH.
Qed.

Lemma part_records_before pre rest :
  Forall (fun l => str_in PLACEMENT_START l = false) pre ->
  forall first l0,
    part_records_from (pre ++ rest) false first l0
    = part_records_from rest false first l0.
Proof.
  induction 1 as [|line pre Hs _ IH]; intros first l0; cbn [part_records_from app].
  - reflexivity.
  - rewrite Hs. destruct (str_in PLACEMENT_END line); apply IH.
Qed.

Lemma part_records_inside body rest :
  Forall (fun l => str_in PLACEMENT_START l = false
                   /\ str_in PLACEMENT_END l = false) body ->
  forall first l0,
    exists first' l0',
      part_records_from (body ++ rest) true first l0
      = pairs_from first l0 body ++ part_records_from rest true first' l0'.
Proof.
  induction 1 as [|line body [Hs He] _ IH]; intros first l0;
    cbn [part_records_from app pairs_from].
  - exists first, l0. reflexivity.
  - rewrite Hs, He. destruct first.
    + destruct (IH false line) as (f & l & E). exists f, l. exact E.
    + destruct (IH true l0) as (f & l & E). exists f, l. rewrite E. reflexivity.
Qed.

(** X4.  One placement section in a file: its lines are taken two by two,
    each pair is decoded as one part, and an odd last line is dropped
    without any error; lines outside the section are ignored. *)
Theorem getParts_one_section :
  forall pre start body stop post,
    Forall (fun l => str_in PLACEMENT_START l = false) pre ->
    str_in PLACEMENT_START start = true ->
    Forall (fun l => str_in PLACEMENT_START l = false
                     /\ str_in PLACEMENT_END l = false) body ->
    str_in PLACEMENT_END stop = true -> str_in PLACEMENT_START stop = false ->
    Forall (fun l => str_in PLACEMENT_START l = false) post ->
    getParts (pre ++ start :: body ++ stop :: post)
    = map_m part_init (pairs_of body).
Proof.
  intros pre start body stop post Hpre Hstart Hbody Hstop1 Hstop2 Hpost.
  rewrite getParts_records. unfold part_records.
  rewrite (part_records_before pre _ Hpre). cbn [part_records_from].
  rewrite Hstart.
  replace (if str_in PLACEMENT_END start then false else false) with false
    by (destruct (str_in PLACEMENT_END start); reflexivity).
  destruct (part_records_inside body (stop :: post) Hbody true EmptyString)
    as (first' & l0' & E).
  rewrite E. cbn [part_records_from]. rewrite Hstop1, Hstop2.
  rewrite (part_records_outside post Hpost), app_nil_r.
  rewrite (proj1 (pairs_from_of body EmptyString)). reflexivity.
Qed.

Lemma getParts_one_section_witness :
  exists p,
    getParts (file_lines (header_mm ++
                [".PLACEMENT"; "cap_0402 PN-1 C1"; "10.0 20.0 0.0 90.0 TOP PLACED";
                 "res_0603 PN-2 R7"; ".END_PLACEMENT"]))
    = Ok [p]
    /\ (name p, refDes p, side p) = ("cap_0402", "C1", "TOP").
Proof.
  eexists. split.
  { refine (eq_trans
              (getParts_one_section (file_lines header_mm)
                 (".PLACEMENT" ++ LF)%string
                 (file_lines ["cap_0402 PN-1 C1"; "10.0 20.0 0.0 90.0 TOP PLACED";
                              "res_0603 PN-2 R7"])
                 (".END_PLACEMENT" ++ LF)%string [] _ _ _ _ _ _) _).
    - repeat constructor.
    - reflexivity.
    - repeat constructor.
    - reflexivity.
    - reflexivity.
    - constructor.
    - vm_compute. reflexivity. }
  reflexivity.
Defined.

Lemma drill_lines_outside ls :
  Forall (fun l => str_in DRILL_START l = false) ls ->
  drill_lines_from ls false = [].
Proof.
  induction 1 as [|line rest Hs _ IH]; cbn [drill_lines_from].
  - reflexivity.
  - rewrite Hs. destruct (str_in DRILL_END line); exact IH.
Qed.

Lemma drill_lines_before pre rest :
  Forall (fun l => str_in DRILL_START l = false) pre ->
  drill_lines_from (pre ++ rest) false = drill_lines_from rest false.
Proof.
  induction 1 as [|line pre Hs _ IH]; cbn [drill_lines_from app].
  - reflexivity.
  - rewrite Hs. destruct (str_in DRILL_END line); exact IH.
Qed.

Lemma drill_lines_inside body rest :
  Forall (fun l => str_in DRILL_END l = false) body ->
  drill_lines_from (body ++ rest) true = body ++ drill_lines_from rest true.
Proof.
  induction 1 as [|line body He _ IH]; cbn [drill_lines_from app].
  - reflexivity.
  - rewrite He.
    replace (if str_in DRILL_START line then true else true) with true
      by (destruct (str_in DRILL_START line); reflexivity).
    rewrite IH. reflexivity.
Qed.

(** X5.  One drilled-holes section in a file: every line between the two
    markers is decoded as a drill, in order, a blank line included, so a
    blank line inside the section makes the constructor raise
    [IndexError]. *)
Theorem getDrills_one_section :
  forall pre start body stop post,
    Forall (fun l => str_in DRILL_START l = false) pre ->
    str_in DRILL_START start = true ->
    Forall (fun l => str_in DRILL_END l = false) body ->
    str_in DRILL_END stop = true -> str_in DRILL_START stop = false ->
    Forall (fun l => str_in DRILL_START l = false) post ->
    getDrills (pre ++ start :: body ++ stop :: post) = map_m drill_init body
    /\ (In LF body ->
        forall fname, exists x,
          emnObj_init (pre ++ start :: body ++ stop :: post) fname = Raise x).
Proof.
  intros pre start body stop post Hpre Hstart Hbody Hstop1 Hstop2 Hpost.
  assert (E : getDrills (pre ++ start :: body ++ stop :: post) = map_m drill_init body).
  { rewrite getDrills_lines. unfold drill_lines.
    rewrite (drill_lines_before pre _ Hpre). cbn [drill_lines_from].
    rewrite Hstart.
    replace (if str_in DRILL_END start then false else false) with false
      by (destruct (str_in DRILL_END start); reflexivity).
    rewrite (drill_lines_inside body _ Hbody). cbn [drill_lines_from].
    rewrite Hstop1, Hstop2, (drill_lines_outside post Hpost), app_nil_r.
    reflexivity. }
  split; [exact E|].
  intros Hblank fname. apply not_ok_raises. unfold emnObj_init.
  destruct (getParts _); cbn [bind]; [|reflexivity].
  destruct (getShapes _); cbn [bind]; [|reflexivity].
  destruct (getUnits _ _) as [u errs]. rewrite E.
  assert (H : is_ok (map_m drill_init body) = false)
    by (apply map_m_raises with (x := LF); [exact Hblank | reflexivity]).
  destruct (map_m drill_init body); [discriminate H | reflexivity].
Qed.

Lemma getDrills_one_section_witness :
  exists d,
    getDrills (file_lines (header_mm ++
                 [".DRILLED_HOLES"; "0.8 5.0 -1.0 PTH BOARD VIA ECAD";
                  ".END_DRILLED_HOLES"]))
    = Ok [d]
    /\ drill__str__ d = mkDrillStr 0x1.999999999999ap-1 5 (-1).
Proof.
  eexists. split.
  { refine (eq_trans
              (proj1 (getDrills_one_section (file_lines header_mm)
                 (".DRILLED_HOLES" ++ LF)%string
                 (file_lines ["0.8 5.0 -1.0 PTH BOARD VIA ECAD"])
                 (".END_DRILLED_HOLES" ++ LF)%string [] _ _ _ _ _ _)) _).
    - repeat constructor.
    - reflexivity.
    - repeat constructor.
    - reflexivity.
    - reflexivity.
    - constructor.
    - vm_compute. reflexivity. }
  reflexivity.
Defined.

(** ** The units *)

Lemma getUnits_loop_skip pre rest boardUnits errs :
  Forall (fun l => no_unit_no_end l = true) pre -> pre <> [] ->
  getUnits_loop (pre ++ rest) boardUnits errs = getUnits_loop rest "ERROR" errs.
Proof.
  intros H. revert boardUnits.
  induction H as [|line pre Hl Hpre IH]; intros boardUnits Hne; [contradiction|].
  cbn [getUnits_loop app]. unfold no_unit_no_end in Hl.
  apply andb_prop in Hl. destruct Hl as [Hl H3]. apply andb_prop in Hl.
  destruct Hl as [H1 H2].
  apply negb_true_iff in H1, H2, H3. rewrite H1, H2, H3.
  destruct pre as [|l2 pre']; [reflexivity|].
  apply IH. discriminate.
Qed.

Lemma getUnits_loop_skip' pre rest errs :
  Forall (fun l => no_unit_no_end l = true) pre ->
  forall boardUnits,
    exists u, getUnits_loop (pre ++ rest) boardUnits errs = getUnits_loop rest u errs
              /\ (pre = [] -> u = boardUnits) /\ (pre <> [] -> u = "ERROR").
Proof.
  intros H boardUnits. destruct pre as [|l pre'].
  - exists boardUnits. split; [reflexivity|]. split; [reflexivity | intros K; contradiction K; reflexivity].
  - exists "ERROR". split; [apply getUnits_loop_skip; [exact H | discriminate]|].
    split; [discriminate | reflexivity].
Qed.

(** X6.  The units are decided by the first line that names a unit or ends
    the header: ["THOU"] wins over ["MM"] on that line, a unit wins over
    the header end, and only a header end without unit records the
    message.  When no line decides, the units are ["ERROR"] (empty for an
    empty file) and no message is recorded. *)
Theorem getUnits_first_deciding_line :
  (forall pre line post errs,
      Forall (fun l => no_unit_no_end l = true) pre ->
      str_in "THOU" line = true ->
      getUnits (pre ++ line :: post) errs = ("THOU", errs))
  /\ (forall pre line post errs,
         Forall (fun l => no_unit_no_end l = true) pre ->
         str_in "THOU" line = false -> str_in "MM" line = true ->
         getUnits (pre ++ line :: post) errs = ("MM", errs))
  /\ (forall pre line post errs,
         Forall (fun l => no_unit_no_end l = true) pre ->
         str_in "THOU" line = false -> str_in "MM" line = false ->
         str_in HEADER_END line = true ->
         getUnits (pre ++ line :: post) errs = ("ERROR", errs ++ [NoUnits]))
  /\ (forall lines errs,
         Forall (fun l => no_unit_no_end l = true) lines ->
         getUnits lines errs
         = (match lines with [] => EmptyString | _ :: _ => "ERROR" end, errs)).
Proof.
  unfold getUnits. repeat split.
  - intros pre line post errs Hpre H1.
    destruct (getUnits_loop_skip' pre (line :: post) errs Hpre EmptyString) as (u & E & _).
    rewrite E. cbn [getUnits_loop]. rewrite H1. reflexivity.
  - intros pre line post errs Hpre H1 H2.
    destruct (getUnits_loop_skip' pre (line :: post) errs Hpre EmptyString) as (u & E & _).
    rewrite E. cbn [getUnits_loop]. rewrite H1, H2. reflexivity.
  - intros pre line post errs Hpre H1 H2 H3.
    destruct (getUnits_loop_skip' pre (line :: post) errs Hpre EmptyString) as (u & E & _).
    rewrite E. cbn [getUnits_loop]. rewrite H1, H2, H3. reflexivity.
  - intros lines errs Hl.
    destruct (getUnits_loop_skip' lines [] errs Hl EmptyString) as (u & E & U0 & U1).
    rewrite app_nil_r in E. rewrite E. cbn [getUnits_loop].
    destruct lines; [rewrite U0 by reflexivity | rewrite U1 by discriminate]; reflexivity.
Qed.

Lemma getUnits_first_deciding_line_witness :
  getUnits (file_lines [".HEADER"; "BOARD_FILE 3.0 demo 2020/01/01 1";
                        "board THOU MM"; ".END_HEADER"]) []
  = ("THOU", [])
  /\ getUnits (file_lines [".HEADER"; ".END_HEADER"; "board MM"]) []
     = ("ERROR", [NoUnits])
  /\ getUnits (file_lines [".HEADER"; "BOARD_FILE 3.0 demo 2020/01/01 1"]) []
     = ("ERROR", []).
Proof.
  split; [|split].
  - apply (proj1 getUnits_first_deciding_line
             (file_lines [".HEADER"; "BOARD_FILE 3.0 demo 2020/01/01 1"])
             ("board THOU MM" ++ LF)%string (file_lines [".END_HEADER"]) []).
    + repeat constructor.
    + reflexivity.
  - apply (proj1 (proj2 (proj2 getUnits_first_deciding_line))
             (file_lines [".HEADER"]) (".END_HEADER" ++ LF)%string
             (file_lines ["board MM"]) []).
    + repeat constructor.
    + reflexivity.
    + reflexivity.
    + reflexivity.
  - apply (proj2 (proj2 (proj2 getUnits_first_deciding_line))
             (file_lines [".HEADER"; "BOARD_FILE 3.0 demo 2020/01/01 1"]) []).
    repeat constructor.
Defined.

(** ** The sub-shapes of a shape *)

Lemma getCoords_step_decode st fields :
  getCoords_step st fields
  = (v <- decode_vertex fields ;;
     if (cutoutIndex st =? cutout v)%float then
       Ok (mkCoordsState (subshapeList st) (currentSubshape st ++ [v]) (cutoutIndex st))
     else
       Ok (mkCoordsState (subshapeList st ++ [currentSubshape st]) [v] (cutout v))).
Proof.
  unfold getCoords_step, decode_vertex.
  destruct (index fields 0); cbn [bind]; [|reflexivity].
  destruct (float_of_str _); cbn [bind]; [|reflexivity].
  destruct (index fields 1); cbn [bind]; [|reflexivity].
  destruct (float_of_str _); cbn [bind]; [|reflexivity].
  destruct (index fields 2); cbn [bind]; [|reflexivity].
  destruct (float_of_str _); cbn [bind]; [|reflexivity].
  destruct (index fields 3); cbn [bind]; [|reflexivity].
  destruct (float_of_str _); cbn [bind]; reflexivity.
Qed.

Lemma last_index_snoc k runs s :
  last_index k (runs ++ [s]) = cutout (first_of s).
Proof. unfold last_index. rewrite fold_left_app. reflexivity. Qed.

Lemma runs_differ_snoc runs s :
  forall k,
    runs_differ k (runs ++ [s])
    <-> runs_differ k runs /\ s <> []
        /\ (last_index k runs =? cutout (first_of s))%float = false.
Proof.
  induction runs as [|r runs IH]; intros k; cbn [app runs_differ].
  - unfold last_index. cbn [fold_left]. tauto.
  - rewrite IH. unfold last_index. cbn [fold_left]. tauto.
Qed.

Lemma first_of_snoc (s : list coord) v : s <> [] -> first_of (s ++ [v]) = first_of s.
Proof. destruct s; [contradiction | reflexivity]. Qed.

Lemma partition_inv_step st vs v :
  partition_inv st vs ->
  partition_inv
    (if (cutoutIndex st =? cutout v)%float
     then mkCoordsState (subshapeList st) (currentSubshape st ++ [v]) (cutoutIndex st)
     else mkCoordsState (subshapeList st ++ [currentSubshape st]) [v] (cutout v))
    (vs ++ [v]).
Proof.
  unfold partition_inv, runs_of. destruct st as [subs cur k].
  cbn [subshapeList currentSubshape cutoutIndex].
  intros (Hc & o & rest & Hall & Hd & Hk).
  destruct (k =? cutout v)%float eqn:E;
    cbn [subshapeList currentSubshape cutoutIndex].
  - split.
    + rewrite concat_app in *. cbn [List.concat] in *. rewrite !app_nil_r in *.
      rewrite app_assoc, Hc. reflexivity.
    + destruct subs as [|o' subs'].
      * cbn [app] in *. injection Hall as <- <-.
        exists (cur ++ [v]), []. repeat split; assumption.
      * cbn [app] in *. injection Hall as <- <-.
        exists o', (subs' ++ [cur ++ [v]]).
        apply runs_differ_snoc in Hd. destruct Hd as (Hd & Hne & Hb).
        rewrite last_index_snoc in Hk.
        split; [reflexivity|]. split.
        -- apply runs_differ_snoc. rewrite (first_of_snoc cur v Hne).
           split; [exact Hd|]. split; [|exact Hb].
           intros K. apply app_eq_nil in K. destruct K as [_ K]. discriminate K.
        -- rewrite last_index_snoc, (first_of_snoc cur v Hne). exact Hk.
  - split.
    + rewrite concat_app, Hc. cbn [List.concat]. rewrite app_nil_r. reflexivity.
    + exists o, (rest ++ [[v]]). rewrite Hall. split; [reflexivity|]. split.
      * apply runs_differ_snoc. split; [exact Hd|]. split; [discriminate|].
        rewrite <- Hk. exact E.
      * rewrite last_index_snoc. reflexivity.
Qed.

Lemma getCoords_loop_partition xs :
  forall st vs,
    partition_inv st vs ->
    match for_each getCoords_step xs st with
    | Ok st' => exists ws, map_m decode_vertex xs = Ok ws /\ partition_inv st' (vs ++ ws)
    | Raise x => map_m decode_vertex xs = Raise x
    end.
Proof.
  induction xs as [|fields xs IH]; intros st vs Hinv; cbn [for_each map_m].
  - exists []. rewrite app_nil_r. split; [reflexivity | exact Hinv].
  - rewrite getCoords_step_decode.
    destruct (decode_vertex fields) as [v|x]; cbn [bind]; [|reflexivity].
    pose proof (partition_inv_step st vs v Hinv) as Hstep.
    match goal with
    | |- match bind ?m _ with _ => _ end => replace m with (Ok
        (if (cutoutIndex st =? cutout v)%float
         then mkCoordsState (subshapeList st) (currentSubshape st ++ [v]) (cutoutIndex st)
         else mkCoordsState (subshapeList st ++ [currentSubshape st]) [v] (cutout v)))
        by (destruct (cutoutIndex st =? cutout v)%float; reflexivity)
    end.
    cbn [bind]. specialize (IH _ _ Hstep).
    destruct (for_each getCoords_step xs _) as [st'|x].
    + destruct IH as (ws & Hm & Hi). exists (v :: ws). rewrite Hm. cbn [bind].
      split; [reflexivity|]. rewrite <- app_assoc in Hi. exact Hi.
    + rewrite IH. reflexivity.
Qed.

(** X7.  The sub-shapes of a shape partition its decoded vertex lines: put
    end to end they are the vertices in file order; there is always a first
    sub-shape (the outline, possibly empty); every later one is non-empty
    and begins at a vertex whose loop index differs from that of the
    sub-shape before it (0 before the first cutout); and [getCoords] raises
    exactly when, and what, decoding a vertex line raises. *)
Theorem getCoords_partition :
  forall sData,
    match getCoords sData with
    | Ok cs =>
        map_m decode_vertex (shapeStrs sData) = Ok (List.concat cs)
        /\ (exists o rest, cs = o :: rest /\ runs_differ 0 rest)
        /\ Forall one_loop cs
    | Raise x => map_m decode_vertex (shapeStrs sData) = Raise x
    end.
Proof.
  intros sData.
  assert (H0 : partition_inv (mkCoordsState [] [] 0) []).
  { split; [reflexivity|]. exists [], []. repeat split. }
  pose proof (getCoords_loop_partition (shapeStrs sData) _ _ H0) as H.
  destruct (getCoords sData) as [cs|x] eqn:E.
  - pose proof (getCoords_one_loop _ _ E) as Hone. unfold getCoords in E.
    destruct (for_each getCoords_step (shapeStrs sData) _) as [st'|]; [|discriminate E].
    cbn [bind] in E. injection E as <-.
    destruct H as (ws & Hm & (Hc & o & rest & Hall & Hd & _)).
    cbn [app] in Hc. unfold runs_of in *.
    split; [rewrite Hm, Hc; reflexivity|].
    split; [exists o, rest; split; assumption | exact Hone].
  - unfold getCoords in E.
    destruct (for_each getCoords_step (shapeStrs sData) _); [discriminate E|].
    cbn [bind] in E. injection E as <-. exact H.
Qed.

(** The open outline, closed cutout, open cutout and half circle of
    [ex_open_shapes]: four sub-shapes holding its twelve vertices. *)
Lemma getCoords_partition_witness :
  exists cs,
    getCoords (skipn 4 ex_open_shapes) = Ok cs
    /\ map (@List.length coord) cs = [3; 4; 3; 2]%nat
    /\ map_m decode_vertex (shapeStrs (skipn 4 ex_open_shapes)) = Ok (List.concat cs).
Proof.
  eexists. split; [vm_compute; reflexivity|]. split; [reflexivity|].
  pose proof (getCoords_partition (skipn 4 ex_open_shapes)) as H.
  destruct (getCoords (skipn 4 ex_open_shapes)) as [cs|x] eqn:E.
  - vm_compute in E. injection E as <-. exact (proj1 H).
  - vm_compute in E. discriminate E.
Defined.

(** ** The negative-space check *)

Lemma fold_flag_existsb {A : Type} (p : A -> bool) (l : list A) (b : bool) :
  fold_left (fun neg c => if p c then true else neg) l b = (b || existsb p l)%bool.
Proof.
  revert b. induction l as [|c l IH]; intros b; cbn [fold_left existsb].
  - rewrite orb_false_r. reflexivity.
  - rewrite IH. destruct (p c); destruct b; reflexivity.
Qed.

Lemma negShape_of_spec sh : negShape_of sh = shape_negative sh.
Proof.
  unfold negShape_of, shape_negative, neg_xy.
  assert (H : forall ll b,
             fold_left
               (fun neg coordList =>
                  fold_left
                    (fun neg0 c =>
                       if ((xPos c <? 0) || (yPos c <? 0))%float then true else neg0)
                    coordList neg) ll b
             = (b || existsb (existsb (fun c => ((xPos c <? 0) || (yPos c <? 0))%float)) ll)%bool).
  { induction ll as [|l ll IH]; intros b; cbn [fold_left existsb].
    - rewrite orb_false_r. reflexivity.
    - rewrite IH, (fold_flag_existsb (fun c => ((xPos c <? 0) || (yPos c <? 0))%float)).
      rewrite orb_assoc. reflexivity. }
  rewrite H. reflexivity.
Qed.

Lemma set_errors_nil_app e : set_errors e (errors e ++ []) = e.
Proof. rewrite app_nil_r. apply set_errors_same. Qed.

Lemma checkNeg_shape_spec e sh :
  (shape_negative sh = true -> outline sh <> []) ->
  checkNeg_shape e sh
  = Ok (set_errors e (errors e ++ if shape_negative sh
                                  then [ShapeNegative (label sh)] else [])).
Proof.
  intros Hol. unfold checkNeg_shape. rewrite negShape_of_spec.
  destruct (shape_negative sh).
  - rewrite (shape__str__label sh (Hol eq_refl)). reflexivity.
  - rewrite set_errors_nil_app. reflexivity.
Qed.

Lemma checkNeg_part_spec e p :
  checkNeg_part e p
  = Ok (set_errors e (errors e ++ if part_negative p
                                  then [PartNegative (part__str__ p)] else [])).
Proof.
  unfold checkNeg_part, part_negative, neg_xy.
  destruct (part_coordinates p) as [[x y] r]. cbn [fst snd].
  destruct ((x <? 0) || (y <? 0))%float; [reflexivity|].
  rewrite set_errors_nil_app. reflexivity.
Qed.

Lemma checkNeg_drill_spec e d :
  checkNeg_drill e d
  = Ok (set_errors e (errors e ++ if drill_negative d
                                  then [DrillNegative (drill__str__ d)] else [])).
Proof.
  unfold checkNeg_drill, drill_negative, neg_xy.
  destruct (drill_coordinates d) as [x y]. cbn [fst snd].
  destruct ((x <? 0) || (y <? 0))%float; [reflexivity|].
  rewrite set_errors_nil_app. reflexivity.
Qed.

Lemma checkNegErrors_spec e :
  (forall sh, In sh (shapes e) -> shape_negative sh = true -> outline sh <> []) ->
  checkNegErrors e = Ok (set_errors e (errors e ++ neg_diags e)).
Proof.
  intros Hol. unfold checkNegErrors, neg_diags.
  rewrite (for_each_appends checkNeg_shape
             (fun sh => if shape_negative sh then [ShapeNegative (label sh)] else []))
    by (intros sh Hsh e0; apply checkNeg_shape_spec; apply Hol; exact Hsh).
  cbn [bind].
  rewrite (for_each_appends checkNeg_part
             (fun p => if part_negative p then [PartNegative (part__str__ p)] else []))
    by (intros p _ e0; apply checkNeg_part_spec).
  cbn [bind].
  rewrite (for_each_appends checkNeg_drill
             (fun d => if drill_negative d then [DrillNegative (drill__str__ d)] else []))
    by (intros d _ e0; apply checkNeg_drill_spec).
  cbn [errors set_errors]. rewrite <- !app_assoc. reflexivity.
Qed.

(** X8.  The negative-space check appends one message per shape that has a
    vertex with x < 0 or y < 0 anywhere in its outline or cutouts (one
    message however many such vertices), then one per part, then one per
    drill, each in its own order; a coordinate equal to zero is not
    negative.  It needs the outline vertex that names a reported shape. *)
Theorem checkNegErrors_reports_each_entity_once :
  forall e,
    (forall sh, In sh (shapes e) -> shape_negative sh = true -> outline sh <> []) ->
    checkNegErrors e = Ok (set_errors e (errors e ++ neg_diags e))
    /\ neg_xy 0 0 = false /\ neg_xy (-0) 0 = false.
Proof.
  intros e Hol. split; [|split; reflexivity].
  apply checkNegErrors_spec. exact Hol.
Qed.

(** A triangle with two vertices below the axis, a part left of it and a
    hole at the origin: one message for the shape, one for the part. *)
Lemma checkNegErrors_reports_each_entity_once_witness :
  exists e e',
    emnObj_init
      (file_lines (header_mm ++
         [".BOARD_OUTLINE MCAD"; "1.6";
          "0 0 0 0"; "0 5 -1 0"; "0 9 -2 0"; "0 0 0 0";
          ".END_BOARD_OUTLINE";
          ".DRILLED_HOLES"; "0.8 0 0 PTH BOARD VIA ECAD"; ".END_DRILLED_HOLES";
          ".PLACEMENT"; "cap_0402 PN-1 C1"; "-3.0 20.0 0.0 90.0 TOP PLACED";
          ".END_PLACEMENT"])) "neg.emn" = Ok e
    /\ checkNegErrors e = Ok e'
    /\ errors e' = [ShapeNegative (mkShapeStr ".BOARD_OUTLINE" 0 0);
                    PartNegative (mkPartStr "cap_0402" "C1" (-3) 20)].
Proof.
  eexists. eexists. split; [vm_compute; reflexivity|]. split.
  { refine (proj1 (checkNegErrors_reports_each_entity_once _ _)).
    intros sh Hin _. cbn [shapes] in Hin. destruct Hin as [<- | []]. discriminate. }
  vm_compute. reflexivity.
Defined.

(** ** The reference designator check, when it returns *)

Lemma checkRefDes_part_spec e p :
  refDes p <> EmptyString ->
  checkRefDes_part e p
  = Ok (set_errors e (errors e ++ if starts_with_R (refDes p)
                                  then [RRefDes (part__str__ p)] else [])).
Proof.
  intros Hne. unfold checkRefDes_part, starts_with_R.
  destruct (refDes p) as [|c r]; [contradiction|]. cbn [first_char bind].
  destruct (Ascii.eqb c "R"); [reflexivity|].
  rewrite set_errors_nil_app. reflexivity.
Qed.

(** X9.  When every part has a reference designator, the check appends one
    message for each part whose designator begins with a capital ["R"], in
    part order, and nothing for the others (["C14"], lower-case ["r2"]). *)
Theorem checkRefDesErrors_reports_capital_R :
  forall e,
    Forall (fun p => refDes p <> EmptyString) (parts e) ->
    checkRefDesErrors e = Ok (set_errors e (errors e ++ refdes_diags (parts e))).
Proof.
  intros e Hne. unfold checkRefDesErrors, refdes_diags.
  apply for_each_appends. intros p Hp e0. apply checkRefDes_part_spec.
  rewrite Forall_forall in Hne. apply Hne. exact Hp.
Qed.

Lemma checkRefDesErrors_reports_capital_R_witness :
  checkRefDesErrors
    (mkEmn [] "three.emn"
       [mkPart (0, 0, 0)%float "TOP" "RES" "R14";
        mkPart (1, 1, 0)%float "TOP" "CAP" "C14";
        mkPart (2, 2, 0)%float "TOP" "RES" "r2"] [] [] "MM" [])
  = Ok (mkEmn [] "three.emn"
          [mkPart (0, 0, 0)%float "TOP" "RES" "R14";
           mkPart (1, 1, 0)%float "TOP" "CAP" "C14";
           mkPart (2, 2, 0)%float "TOP" "RES" "r2"] []
          [RRefDes (mkPartStr "RES" "R14" 0 0)] "MM" []).
Proof.
  refine (eq_trans (checkRefDesErrors_reports_capital_R _ _) _).
  - cbn [parts]. repeat constructor; discriminate.
  - vm_compute. reflexivity.
Defined.

(** ** The library check, when it runs *)

Lemma prefix_empty s : String.prefix EmptyString s = true.
Proof. destruct s; reflexivity. Qed.

Lemma str_in_cc_underscore s : str_in "_cc" s = true -> str_in "_" s = true.
Proof.
  induction s as [|c s IH]; cbn [str_in].
  - cbn. discriminate.
  - intros H. apply orb_prop in H. apply orb_true_iff. destruct H as [H | H].
    + left. cbn [String.prefix] in *.
      destruct (ascii_dec "_" c); [apply prefix_empty | discriminate H].
    + right. apply IH. exact H.
Qed.

Lemma invalid_name_spec nm :
  (str_in "_" nm || str_in "^" nm || str_in "_cc" nm)%bool = invalid_name nm.
Proof.
  unfold invalid_name. destruct (str_in "_cc" nm) eqn:E.
  - rewrite (str_in_cc_underscore nm E). reflexivity.
  - rewrite orb_false_r. reflexivity.
Qed.

Lemma checkLib_loop upper lib ps :
  forall flag e ds,
    for_each (checkLib_part upper lib) ps (flag, set_errors e ds)
    = Ok ((flag || existsb (fun p => invalid_name (name p)) ps)%bool,
          set_errors e
            (ds ++ flat_map
                     (fun p =>
                        if invalid_name (name p) then [InvalidChars (name p) (refDes p)]
                        else if list_in (upper (name p)) lib then []
                             else [NotInLibrary (name p)])
                     ps)).
Proof.
  induction ps as [|p ps IH]; intros flag e ds; cbn [for_each flat_map existsb].
  - rewrite orb_false_r, app_nil_r. reflexivity.
  - unfold checkLib_part at 1. rewrite invalid_name_spec.
    destruct (invalid_name (name p)); cbn [negb andb bind].
    + rewrite andb_false_r. rewrite append_error_set, IH, orb_true_r, <- app_assoc.
      reflexivity.
    + rewrite andb_true_r. destruct (list_in (upper (name p)) lib); cbn [negb].
      * rewrite IH. reflexivity.
      * rewrite append_error_set, IH, <- app_assoc. reflexivity.
Qed.

Lemma checkLibErrors_spec upper e lib :
  checkLibErrors upper e lib
  = Ok (set_errors e (errors e ++ lib_diags upper lib (parts e))).
Proof.
  unfold checkLibErrors, lib_diags.
  pose proof (checkLib_loop upper lib (parts e) false e (errors e)) as L.
  rewrite set_errors_same in L. rewrite L. cbn [bind orb].
  destruct (existsb (fun p => invalid_name (name p)) (parts e)).
  - rewrite append_error_set, <- app_assoc. reflexivity.
  - rewrite app_nil_r. reflexivity.
Qed.

(** X10.  The library check never raises.  For each part in turn it reports
    an underscore or caret in the name, and only otherwise a name whose
    upper-case form is not in the library; it appends the summary once,
    after all parts, when some name was invalid.  The test for ["_cc"] adds
    nothing to the test for the underscore. *)
Theorem checkLibErrors_reports :
  forall upper e lib,
    checkLibErrors upper e lib
    = Ok (set_errors e (errors e ++ lib_diags upper lib (parts e))).
Proof.
  intros upper e lib. apply checkLibErrors_spec.
Qed.

(** ** The round cutout check, on the shape it looks at *)

Lemma checkRound_sub_gen sh e s :
  checkRound_sub (Some sh) e s
  = if round_sub s
    then (str <- shape__str__ sh ;;
          Ok (append_error e
                (CircularCutout str (xPos (first_of s)) (yPos (first_of s)))))
    else Ok e.
Proof.
  unfold checkRound_sub, round_sub.
  destruct (len s =? 2)%Z eqn:E2; cbn [andb bind]; [|reflexivity].
  apply Z.eqb_eq in E2.
  rewrite (index_circ s 1), (circ_second s) by lia. cbn [bind].
  destruct (arc (second_of s) =? 360)%float; cbn [bind]; [|reflexivity].
  assert (Hs : s <> []) by (intros ->; unfold len in E2; simpl in E2; lia).
  rewrite (index_circ s 0), (circ_first s Hs) by lia.
  destruct (shape__str__ sh); reflexivity.
Qed.

Lemma checkRound_sub_spec sh e s :
  (round_sub s = true -> outline sh <> []) ->
  checkRound_sub (Some sh) e s
  = Ok (set_errors e
          (errors e ++ if round_sub s
                       then [CircularCutout (label sh) (xPos (first_of s)) (yPos (first_of s))]
                       else [])).
Proof.
  intros Hol. rewrite checkRound_sub_gen. destruct (round_sub s).
  - rewrite (shape__str__label sh (Hol eq_refl)). reflexivity.
  - rewrite set_errors_nil_app. reflexivity.
Qed.

Lemma checkRound_subs_raise sh subs :
  outline sh = [] -> existsb round_sub subs = true ->
  forall e, for_each (checkRound_sub (Some sh)) subs e = Raise IndexError.
Proof.
  intros Ho. induction subs as [|s subs IH]; intros Hex e.
  - discriminate Hex.
  - cbn [for_each existsb] in *. rewrite checkRound_sub_gen.
    destruct (round_sub s).
    + rewrite (shape__str__bare sh Ho). reflexivity.
    + cbn [bind]. apply IH. exact Hex.
Qed.

(** X11.  The round cutout check looks at the last shape of the board
    only.  When that shape has an outline vertex, or no full-circle cutout
    (a cutout of exactly two vertices whose second sweeps 360), the check
    appends one message per full-circle cutout, carrying the cutout's first
    vertex; the outline itself is never tested, so a full-circle outline is
    not reported.  When that shape has a full-circle cutout and no outline
    vertex, the check raises [IndexError].  A board without shapes gets no
    message. *)
Theorem checkRoundCutout_reports_last_shape :
  (forall e ss sh,
      shapes e = ss ++ [sh] ->
      (existsb round_sub (cutouts sh) = true -> outline sh <> []) ->
      checkRoundCutout e = Ok (set_errors e (errors e ++ round_diags sh)))
  /\ (forall e ss sh,
         shapes e = ss ++ [sh] ->
         existsb round_sub (cutouts sh) = true -> outline sh = [] ->
         checkRoundCutout e = Raise IndexError)
  /\ (forall e, shapes e = [] -> checkRoundCutout e = Ok e).
Proof.
  split; [|split].
  - intros e ss sh Hs Hol. rewrite (checkRoundCutout_last e ss sh Hs).
    unfold round_diags. apply for_each_appends.
    intros s Hin e0. apply checkRound_sub_spec.
    intros Hr. apply Hol. apply existsb_exists. exists s. split; assumption.
  - intros e ss sh Hs Hex Ho. rewrite (checkRoundCutout_last e ss sh Hs).
    apply checkRound_subs_raise; assumption.
  - intros e Hs. unfold checkRoundCutout. rewrite Hs. reflexivity.
Qed.

(** A disc (an outline of two vertices sweeping 360 and no cutout) gets no
    message; a section whose only loop is numbered 1 and is a full circle
    makes the check raise. *)
Lemma checkRoundCutout_reports_last_shape_witness :
  (exists e,
      emnObj_init
        (file_lines (header_mm ++
           [".BOARD_OUTLINE MCAD"; "1.6"; "0 0 0 0"; "0 5 0 360";
            ".END_BOARD_OUTLINE"])) "disc.emn" = Ok e
      /\ checkRoundCutout e = Ok e)
  /\ (exists e,
         emnObj_init ex_round_cutout_only "hole.emn" = Ok e
         /\ map outline (shapes e) = [[]]
         /\ checkRoundCutout e = Raise IndexError).
Proof.
  split.
  - eexists. split; [vm_compute; reflexivity|].
    refine (eq_trans
              (proj1 checkRoundCutout_reports_last_shape _ [] _ _ _) _).
    + cbn [shapes app]. reflexivity.
    + discriminate.
    + vm_compute. reflexivity.
  - eexists. split; [vm_compute; reflexivity|]. split; [reflexivity|].
    refine (proj1 (proj2 checkRoundCutout_reports_last_shape) _ [] _ _ _ _).
    + cbn [shapes app]. reflexivity.
    + vm_compute. reflexivity.
    + reflexivity.
Defined.

(** ** The order of the messages *)

Lemma adds_kind_inv (k : diag -> bool) e e' :
  adds (fun d => k d = true) e e' ->
  exists ds, errors e' = errors e ++ ds /\ all_of k ds.
Proof.
  intros (_ & ds & E & F). exists ds. split; assumption.
Qed.

Lemma checkHeightErrors_kind e e' :
  checkHeightErrors e = Ok e' -> adds (fun d => is_height_diag d = true) e e'.
Proof.
  unfold checkHeightErrors. intros H. ok_inv H. destruct a as [flag e1].
  apply (for_each_adds_flag (fun d => is_height_diag d = true)) in Ha.
  - simpl in Ha. eapply adds_trans; [exact Ha|]. repeat adds_step.
  - clear. intros [flag e] sh st' H. unfold checkHeightErrors_step in H.
    destruct (_ && _ && _)%bool in H; [|destruct (_ && _ && _)%bool in H];
      simpl in H; repeat adds_step; simpl; repeat adds_step.
Qed.

Lemma checkNegErrors_kind e e' :
  checkNegErrors e = Ok e' -> adds (fun d => is_neg_diag d = true) e e'.
Proof.
  unfold checkNegErrors. intros H. ok_inv H. ok_inv H.
  apply (for_each_adds (fun d => is_neg_diag d = true)) in Ha, Ha0, H.
  - eapply adds_trans; [exact Ha|]. eapply adds_trans; eassumption.
  - clear. intros e d e' H. unfold checkNeg_drill in H.
    destruct (drill_coordinates d). repeat adds_step.
  - clear. intros e p e' H. unfold checkNeg_part in H.
    destruct (part_coordinates p) as [[x y] r]. repeat adds_step.
  - clear. intros e sh e' H. unfold checkNeg_shape in H. repeat adds_step.
Qed.

Lemma checkClosedErrors_kind e e' :
  checkClosedErrors e = Ok e' -> adds (fun d => is_closure_diag d = true) e e'.
Proof.
  apply for_each_adds. intros e0 sh e1. apply for_each_adds.
  intros e2 s e3 H. unfold checkClosed_sub in H. repeat adds_step.
Qed.

Lemma checkRefDesErrors_kind e e' :
  checkRefDesErrors e = Ok e' -> adds (fun d => is_refdes_diag d = true) e e'.
Proof.
  apply for_each_adds. intros e0 p e1 H. unfold checkRefDes_part in H.
  repeat adds_step.
Qed.

Lemma checkRoundCutout_kind e e' :
  checkRoundCutout e = Ok e' -> adds (fun d => is_round_diag d = true) e e'.
Proof.
  unfold checkRoundCutout. destruct (fold_left _ _ _) as [toCheck cur].
  apply for_each_adds. intros e0 s e1 H. unfold checkRound_sub in H.
  repeat adds_step.
Qed.

Lemma checkEmpty_kind e e' :
  checkEmpty e = Ok e' -> adds (fun d => is_empty_diag d = true) e e'.
Proof.
  unfold checkEmpty. intros H. injection H as <-.
  destruct (shapes e); repeat adds_step.
Qed.

Lemma checkArcAngle_kind atan2 e e' :
  checkArcAngle atan2 e = Ok e' -> adds (fun d => is_arc_diag d = true) e e'.
Proof.
  apply for_each_adds. intros e0 sh e1. apply for_each_adds.
  intros e2 s e3 H. unfold checkArc_sub in H.
  destruct (2 <? len (tl s))%Z; [|repeat adds_step].
  revert H. apply for_each_adds. intros e4 i e5 H.
  unfold checkArc_at in H. repeat adds_step.
Qed.

Lemma checkLibErrors_kind upper e lib e' :
  checkLibErrors upper e lib = Ok e' -> adds (fun d => is_lib_diag d = true) e e'.
Proof.
  unfold checkLibErrors. intros H. ok_inv H. destruct a as [flag e1].
  apply (for_each_adds_flag (fun d => is_lib_diag d = true)) in Ha.
  - simpl in Ha. eapply adds_trans; [exact Ha|].
    injection H as <-. destruct flag; [apply adds_append; reflexivity | apply adds_refl].
  - clear. intros [flag e] p st' H. unfold checkLib_part in H.
    injection H as <-. simpl.
    destruct (_ || _ || _)%bool; destruct (_ && _)%bool;
      repeat first [ apply adds_refl
                   | apply adds_append; reflexivity
                   | eapply adds_trans; [|apply adds_append; reflexivity] ].
Qed.

(** X12.  The suite writes its messages check by check, in one fixed order:
    what [checkAllErrors] appends is the messages of the height check, then
    those of the negative-space, closure, reference designator, round
    cutout, empty data and arc checks, then those of the library check,
    which are none when no (or an empty) library is given. *)
Theorem checkAllErrors_message_order :
  forall atan2 upper e partsLibrary e',
    checkAllErrors atan2 upper e partsLibrary = Ok e' ->
    exists h n c r o m a l,
      errors e' = errors e ++ h ++ n ++ c ++ r ++ o ++ m ++ a ++ l
      /\ all_of is_height_diag h /\ all_of is_neg_diag n
      /\ all_of is_closure_diag c /\ all_of is_refdes_diag r
      /\ all_of is_round_diag o /\ all_of is_empty_diag m
      /\ all_of is_arc_diag a /\ all_of is_lib_diag l
      /\ (library_given partsLibrary = false -> l = []).
Proof.
  intros atan2 upper e partsLibrary e' H.
  rewrite checkAllErrors_seven in H. ok_inv H. rename a into e7, Ha into H7.
  unfold seven_checks in H7. do 6 ok_inv H7.
  apply checkHeightErrors_kind, adds_kind_inv in Ha. destruct Ha as (h & Eh & Fh).
  apply checkNegErrors_kind, adds_kind_inv in Ha0. destruct Ha0 as (n & En & Fn).
  apply checkClosedErrors_kind, adds_kind_inv in Ha1. destruct Ha1 as (c & Ec & Fc).
  apply checkRefDesErrors_kind, adds_kind_inv in Ha2. destruct Ha2 as (r & Er & Fr).
  apply checkRoundCutout_kind, adds_kind_inv in Ha3. destruct Ha3 as (o & Eo & Fo).
  apply checkEmpty_kind, adds_kind_inv in Ha4. destruct Ha4 as (m & Em & Fm).
  apply checkArcAngle_kind, adds_kind_inv in H7. destruct H7 as (a' & Ea & Fa).
  assert (Hl : exists l, errors e' = errors e7 ++ l /\ all_of is_lib_diag l
                         /\ (library_given partsLibrary = false -> l = [])).
  { destruct (library_given partsLibrary).
    - apply checkLibErrors_kind, adds_kind_inv in H. destruct H as (l & El & Fl).
      exists l. split; [exact El | split; [exact Fl | discriminate]].
    - injection H as <-. exists []. rewrite app_nil_r.
      split; [reflexivity | split; [constructor | reflexivity]]. }
  destruct Hl as (l & El & Fl & Hnil).
  exists h, n, c, r, o, m, a', l.
  split; [|repeat (split; [assumption|]); exact Hnil].
  rewrite El, Ea, Em, Eo, Er, Ec, En, Eh, <- !app_assoc. reflexivity.
Qed.

(** No unit, a part left of the origin and an open outline: the message of
    the constructor, then negative space before closure. *)
Lemma checkAllErrors_message_order_witness :
  exists e e',
    emnObj_init
      (file_lines
         [".HEADER"; ".END_HEADER";
          ".BOARD_OUTLINE MCAD"; "1.6"; "0 0 0 0"; "0 9 0 0"; "0 9 9 0";
          ".END_BOARD_OUTLINE";
          ".PLACEMENT"; "cap PN-1 C1"; "-3.0 20.0 0.0 90.0 TOP PLACED";
          ".END_PLACEMENT"]) "order.emn" = Ok e
    /\ checkAllErrors atan2_axis upper_ascii e None = Ok e'
    /\ errors e' = [NoUnits;
                    PartNegative (mkPartStr "cap" "C1" (-3) 20);
                    NotClosed (mkShapeStr ".BOARD_OUTLINE" 0 0)]
    /\ exists h n c r o m a l,
         errors e' = errors e ++ h ++ n ++ c ++ r ++ o ++ m ++ a ++ l
         /\ all_of is_height_diag h /\ all_of is_neg_diag n
         /\ all_of is_closure_diag c /\ all_of is_refdes_diag r
         /\ all_of is_round_diag o /\ all_of is_empty_diag m
         /\ all_of is_arc_diag a /\ all_of is_lib_diag l
         /\ (library_given None = false -> l = []).
Proof.
  eexists. eexists. split; [vm_compute; reflexivity|].
  split; [vm_compute; reflexivity|]. split; [reflexivity|].
  apply (checkAllErrors_message_order atan2_axis upper_ascii _ None).
  vm_compute. reflexivity.
Defined.

(** ** Text that holds no IDF section *)

(** X13.  A file none of whose lines closes a shape section or opens a
    placement or drilled-holes section loads as a board without shapes,
    parts and drills, and the suite then appends exactly the "No shapes
    found" message, whatever the library. *)
Theorem text_without_sections_is_an_empty_board :
  forall lines fname,
    Forall inert_line lines ->
    exists e,
      emnObj_init lines fname = Ok e
      /\ shapes e = [] /\ parts e = [] /\ drills e = []
      /\ forall atan2 upper partsLibrary,
           checkAllErrors atan2 upper e partsLibrary = Ok (append_error e NoShapes).
Proof.
  intros lines fname H.
  assert (Hs : getShapes lines = Ok []).
  { rewrite getShapes_spans. unfold spans_of. rewrite spans_from_no_end; [reflexivity|].
    eapply Forall_impl; [|exact H]. intros l (Hl & _). exact Hl. }
  assert (Hp : getParts lines = Ok []).
  { rewrite getParts_records. unfold part_records.
    rewrite part_records_outside; [reflexivity|].
    eapply Forall_impl; [|exact H]. intros l (_ & Hl & _). exact Hl. }
  assert (Hd : getDrills lines = Ok []).
  { rewrite getDrills_lines. unfold drill_lines.
    rewrite drill_lines_outside; [reflexivity|].
    eapply Forall_impl; [|exact H]. intros l (_ & _ & Hl). exact Hl. }
  unfold emnObj_init. rewrite Hp, Hs, Hd. cbn [bind].
  destruct (getUnits lines []) as [u errs]. cbn [bind].
  eexists. split; [reflexivity|]. repeat split.
  intros atan2 upper partsLibrary.
  destruct partsLibrary as [[|x l]|]; reflexivity.
Qed.

Lemma text_without_sections_is_an_empty_board_witness :
  exists e e',
    emnObj_init (file_lines ["Dear Sir,"; "please find the board attached."])
                "letter.emn" = Ok e
    /\ checkAllErrors atan2_axis upper_ascii e (Some ["CAP"]) = Ok e'
    /\ errors e' = [NoShapes].
Proof.
  destruct (text_without_sections_is_an_empty_board
              (file_lines ["Dear Sir,"; "please find the board attached."])
              "letter.emn") as (e & He & _ & _ & _ & Hc).
  - repeat constructor.
  - exists e, (append_error e NoShapes).
    split; [exact He|]. split; [apply Hc|].
    vm_compute in He. injection He as <-. reflexivity.
Defined.

(** ** What the arc check can raise *)

Lemma for_each_raises_only {A S : Type} (Q : exn -> Prop) (body : S -> A -> result S) xs :
  (forall st x err, In x xs -> body st x = Raise err -> Q err) ->
  forall st err, for_each body xs st = Raise err -> Q err.
Proof.
  induction xs as [|x xs IH]; intros Hbody st err H; cbn [for_each] in H.
  - discriminate H.
  - destruct (body st x) as [st1|err1] eqn:E; cbn [bind] in H.
    + eapply IH; [|exact H]. intros st0 y err0 Hy. apply Hbody. right. exact Hy.
    + injection H as <-. eapply Hbody; [left; reflexivity | exact E].
Qed.

Lemma fmod_raises x y err : fmod x y = Raise err -> err = ValueError.
Proof.
  unfold fmod.
  destruct (is_nan x || is_nan y)%bool; [discriminate|].
  destruct (is_infinity x); [intros H; injection H as <-; reflexivity|].
  destruct (is_zero y); [intros H; injection H as <-; reflexivity|].
  destruct (is_infinity y); [discriminate|].
  destruct (is_zero x); discriminate.
Qed.

Lemma bind_raise_inv {A B : Type} (m : result A) (k : A -> result B) err :
  bind m k = Raise err ->
  m = Raise err \/ exists a, m = Ok a /\ k a = Raise err.
Proof.
  destruct m as [a|x]; cbn [bind]; intros H.
  - right. exists a. split; [reflexivity | exact H].
  - left. injection H as <-. reflexivity.
Qed.

Lemma checkArc_at_raises atan2 s e i err :
  (2 < len s)%Z -> (0 <= i < len s)%Z ->
  checkArc_at atan2 s e i = Raise err -> err = ValueError.
Proof.
  intros Hn Hi. unfold checkArc_at.
  rewrite (index_circ s (i - 1)), (index_circ s i), (index_circ s (i - 2)) by lia.
  cbn [bind].
  destruct (truthy _ || truthy _)%bool; [|discriminate].
  intros H.
  apply bind_raise_inv in H. destruct H as [H|(alpha0 & _ & H)];
    [eapply fmod_raises; exact H|].
  apply bind_raise_inv in H. destruct H as [H|(alpha1 & _ & H)];
    [eapply fmod_raises; exact H|].
  apply bind_raise_inv in H. destruct H as [H|(delta & _ & H)];
    [eapply fmod_raises; exact H|].
  destruct (_ || _)%bool; discriminate H.
Qed.

(** X14.  The arc check never fails on a subscript: whatever the shapes,
    the only exception it can raise is the [ValueError] of [math.fmod] (a
    math domain error, as an infinite sweep gives); and a sub-shape of
    fewer than four vertices is not examined at all. *)
Theorem checkArcAngle_raises_only_ValueError :
  forall atan2 e,
    (forall err, checkArcAngle atan2 e = Raise err -> err = ValueError)
    /\ (forall s, (List.length s <= 3)%nat -> checkArc_sub atan2 e s = Ok e).
Proof.
  intros atan2 e. split.
  - unfold checkArcAngle. intros err.
    apply (for_each_raises_only (fun x => x = ValueError)).
    intros e0 sh err0 _. unfold checkArc_shape.
    apply (for_each_raises_only (fun x => x = ValueError)).
    intros e1 s err1 _. unfold checkArc_sub.
    destruct (2 <? len (tl s))%Z eqn:E; [|discriminate].
    apply Z.ltb_lt in E.
    apply (for_each_raises_only (fun x => x = ValueError)).
    intros e2 i err2 Hi. apply in_range in Hi. apply checkArc_at_raises; [exact E|].
    unfold len. exact Hi.
  - intros s Hs. unfold checkArc_sub.
    replace (2 <? len (tl s))%Z with false; [reflexivity|].
    symmetry. apply Z.ltb_ge. unfold len. destruct s; simpl in *; lia.
Qed.

(** A square whose last side is given an infinite sweep. *)
Lemma checkArcAngle_raises_only_ValueError_witness :
  exists e,
    emnObj_init
      (file_lines (header_mm ++
         [".BOARD_OUTLINE MCAD"; "1.6";
          "0 0 0 0"; "0 1 0 0"; "0 1 1 0"; "0 0 1 0"; "0 0 0 inf";
          ".END_BOARD_OUTLINE"])) "inf.emn" = Ok e
    /\ checkArcAngle atan2_axis e = Raise ValueError.
Proof.
  eexists. split; [vm_compute; reflexivity|].
  match goal with
  | |- ?m = _ => destruct m as [e'|err] eqn:E
  end.
  - vm_compute in E. discriminate E.
  - f_equal.
    eapply (proj1 (checkArcAngle_raises_only_ValueError atan2_axis _)). exact E.
Defined.

(** ** The names of a placement line *)

Lemma index_snoc_last {A : Type} (l : list A) (a : A) : index (l ++ [a]) (-1) = Ok a.
Proof.
  unfold index. rewrite length_app. cbn [List.length].
  replace (-1 <? 0)%Z with true by reflexivity.
  replace (-1 + Z.of_nat (List.length l + 1))%Z with (Z.of_nat (List.length l)) by lia.
  replace ((Z.of_nat (List.length l) <? 0)
           || (Z.of_nat (List.length l + 1) <=? Z.of_nat (List.length l)))%Z with false.
  - rewrite Nat2Z.id, nth_error_app2 by lia. rewrite Nat.sub_diag. reflexivity.
  - symmetry. apply orb_false_iff. split; [apply Z.ltb_ge | apply Z.leb_gt]; lia.
Qed.

Lemma index_1_cons {A : Type} (a b : A) (l : list A) : index (a :: b :: l) 1 = Ok b.
Proof.
  unfold index. cbn [List.length].
  replace (1 <? 0)%Z with false by reflexivity.
  replace ((1 <? 0) || (Z.of_nat (S (S (List.length l))) <=? 1))%Z with false.
  - reflexivity.
  - symmetry. apply orb_false_iff. split; [reflexivity | apply Z.leb_gt; lia].
Qed.

Lemma split_on_lacks sep s : lacks sep s = true -> split_on sep s = [s].
Proof.
  unfold lacks. induction s as [|c s IH]; intros H.
  - reflexivity.
  - cbn [all_chars] in H. apply andb_prop in H. destruct H as [Hc Hp].
    cbn [split_on]. destruct (Ascii.eqb c sep); [discriminate Hc|].
    rewrite (IH Hp). reflexivity.
Qed.

Lemma split_on_cut sep pre rest :
  lacks sep pre = true ->
  split_on sep (pre ++ String sep rest)%string = pre :: split_on sep rest.
Proof.
  unfold lacks. induction pre as [|c pre IH]; intros H.
  - cbn [String.append split_on]. rewrite Ascii.eqb_refl. reflexivity.
  - cbn [all_chars] in H. apply andb_prop in H. destruct H as [Hc Hp].
    cbn [String.append split_on].
    destruct (Ascii.eqb c sep); [discriminate Hc|].
    rewrite (IH Hp). reflexivity.
Qed.

(** The last piece is what follows the last separator. *)
Lemma split_on_tail sep body tail :
  lacks sep tail = true ->
  exists init, init <> []
               /\ split_on sep (body ++ String sep tail)%string = init ++ [tail].
Proof.
  intros Ht. induction body as [|c body (init & Hi & IH)].
  - exists [EmptyString]. split; [discriminate|].
    cbn [String.append split_on]. rewrite Ascii.eqb_refl, (split_on_lacks _ _ Ht).
    reflexivity.
  - cbn [String.append split_on]. rewrite IH. destruct (Ascii.eqb c sep).
    + exists (EmptyString :: init). split; [discriminate | reflexivity].
    + destruct init as [|w ws]; [contradiction|].
      exists (String c w :: ws). split; [discriminate | reflexivity].
Qed.

Lemma no_quote_str_in s :
  no_quote s = true -> str_in (String dquote EmptyString) s = false.
Proof.
  unfold no_quote. induction s as [|c s IH]; intros H.
  - reflexivity.
  - cbn [all_chars] in H. apply andb_prop in H. destruct H as [Hc Hp].
    cbn [str_in]. rewrite (IH Hp), orb_false_r.
    cbn [String.prefix]. destruct (ascii_dec dquote c) as [E|E]; [|reflexivity].
    subst c. discriminate Hc.
Qed.

Lemma split_tokens_nonempty s : Forall (fun w => w <> EmptyString) (split s).
Proof.
  induction s as [|c r IH].
  - constructor.
  - cbn [split]. destruct (isspace c); [exact IH|].
    destruct r as [|c' r']; [repeat constructor; discriminate|].
    destruct (isspace c'); [constructor; [discriminate | exact IH]|].
    destruct (split (String c' r')) as [|w ws].
    + repeat constructor. discriminate.
    + inversion IH; subst. constructor; [discriminate | assumption].
Qed.

Lemma split_of_blank s : blank s = true -> split s = [].
Proof.
  unfold blank. induction s as [|c r IH]; intros H.
  - reflexivity.
  - cbn [all_chars] in H. apply andb_prop in H. destruct H as [Hc Hr].
    cbn [split]. rewrite Hc. exact (IH Hr).
Qed.

Lemma split_of_text s : blank s = false -> split s <> [].
Proof.
  unfold blank. induction s as [|c r IH]; intros H.
  - discriminate H.
  - cbn [all_chars] in H. cbn [split]. destruct (isspace c).
    + apply IH. exact H.
    + destruct r as [|c' r']; [discriminate|].
      destruct (isspace c'); [discriminate|].
      destruct (split (String c' r')); discriminate.
Qed.

(** X15.  A quoted placement line: the part name is the text between the
    first two double quotes and the reference designator is the stripped
    text after the LAST double quote, whatever stands in between; with a
    single double quote on the line both are taken from the text after it. *)
Theorem getNames_quoted_line :
  forall pre nm tail l1,
    no_quote pre = true -> no_quote nm = true -> no_quote tail = true ->
    getNames ((pre ++ String dquote (nm ++ String dquote tail))%string, l1)
    = Ok (nm, strip tail)
    /\ (forall mid,
          getNames ((pre ++ String dquote (nm ++ String dquote
                       (mid ++ String dquote tail)))%string, l1)
          = Ok (nm, strip tail))
    /\ getNames ((pre ++ String dquote tail)%string, l1) = Ok (tail, strip tail).
Proof.
  intros pre nm tail l1 Hpre Hnm Htail. unfold getNames. cbn [fst].
  rewrite !str_in_quote. repeat split.
  - rewrite (split_on_quote pre _ Hpre), (split_on_quote nm _ Hnm),
      (split_on_no_quote tail Htail).
    rewrite index_1_cons. change [pre; nm; tail] with ([pre; nm] ++ [tail]).
    rewrite index_snoc_last. reflexivity.
  - intros mid.
    rewrite str_in_quote, (split_on_quote pre _ Hpre), (split_on_quote nm _ Hnm).
    destruct (split_on_tail dquote mid tail Htail) as (init & _ & ->).
    rewrite index_1_cons.
    change (pre :: nm :: init ++ [tail]) with ((pre :: nm :: init) ++ [tail]).
    rewrite index_snoc_last. reflexivity.
  - rewrite (split_on_quote pre _ Hpre), (split_on_no_quote tail Htail).
    rewrite index_1_cons. change [pre; tail] with ([pre] ++ [tail]).
    rewrite index_snoc_last. reflexivity.
Qed.

Lemma getNames_quoted_line_witness :
  getNames ("pkg " ++ String dquote ("CAP 0603" ++ String dquote (" x " ++
              String dquote " C12 ")), "1 2 3 4 TOP PLACED")%string
  = Ok ("CAP 0603", "C12")
  /\ getNames ("pkg " ++ String dquote "CAP C12", "1 2 3 4 TOP PLACED")%string
     = Ok ("CAP C12", "CAP C12").
Proof.
  split.
  - refine (proj1 (proj2 (getNames_quoted_line "pkg " "CAP 0603" " C12 " _ _ _ _)) " x ");
      reflexivity.
  - refine (proj2 (proj2 (getNames_quoted_line "pkg " EmptyString "CAP C12" _ _ _ _)));
      reflexivity.
Defined.

(** X16.  A placement line without a double quote: a line of whitespace
    only raises [IndexError]; any other line gives its first token as the
    part name and its last token as the reference designator, and neither
    is empty, so the reference designator check can read its first
    character. *)
Theorem getNames_bare_line :
  forall l0 l1,
    no_quote l0 = true ->
    (blank l0 = true -> getNames (l0, l1) = Raise IndexError)
    /\ (blank l0 = false ->
        exists nm ws,
          split l0 = nm :: ws
          /\ getNames (l0, l1) = Ok (nm, last ws nm)
          /\ nm <> EmptyString /\ last ws nm <> EmptyString).
Proof.
  intros l0 l1 Hq. unfold getNames. cbn [fst].
  rewrite (no_quote_str_in l0 Hq). split; intros Hb.
  - rewrite (split_of_blank l0 Hb). reflexivity.
  - pose proof (split_of_text l0 Hb) as Hne.
    pose proof (split_tokens_nonempty l0) as Htok.
    destruct (split l0) as [|nm ws]; [contradiction|].
    exists nm, ws. split; [reflexivity|].
    rewrite index_0_cons. cbn [bind].
    assert (Hl : index (nm :: ws) (-1) = Ok (last ws nm)
                 /\ last ws nm <> EmptyString).
    { inversion Htok as [|? ? Hnm Hws]; subst.
      destruct (exists_last (l := nm :: ws)) as (r & x & E); [discriminate|].
      rewrite E, index_snoc_last.
      assert (Hx : last ws nm = x).
      { destruct ws as [|w ws'].
        - destruct r as [|r0 r']; [injection E as ->; reflexivity|].
          injection E as _ E. destruct r'; discriminate E.
        - transitivity (last (nm :: w :: ws') nm); [reflexivity|].
          rewrite E. apply last_last. }
      split; [rewrite Hx; reflexivity|].
      rewrite Hx. rewrite E in Htok. apply Forall_app in Htok.
      destruct Htok as [_ Hx']. inversion Hx'; assumption. }
    destruct Hl as [-> Hl]. cbn [bind].
    split; [reflexivity|]. split; [|exact Hl].
    inversion Htok; assumption.
Qed.

Lemma getNames_bare_line_witness :
  getNames ("   ", "1 2 3 4 TOP PLACED") = Raise IndexError
  /\ getNames ("pkg-0603 PN-1 C12", "1 2 3 4 TOP PLACED") = Ok ("pkg-0603", "C12")
  /\ getNames ("lonely", "1 2 3 4 TOP PLACED") = Ok ("lonely", "lonely").
Proof.
  split; [|split].
  - apply (getNames_bare_line "   " "1 2 3 4 TOP PLACED"); reflexivity.
  - destruct (proj2 (getNames_bare_line "pkg-0603 PN-1 C12" "1 2 3 4 TOP PLACED"
                       eq_refl) eq_refl) as (nm & ws & Hs & Hg & _).
    vm_compute in Hs. injection Hs as <- <-. exact Hg.
  - destruct (proj2 (getNames_bare_line "lonely" "1 2 3 4 TOP PLACED"
                       eq_refl) eq_refl) as (nm & ws & Hs & Hg & _).
    vm_compute in Hs. injection Hs as <- <-. exact Hg.
Defined.

(** ** The batch of a folder *)

Lemma getEmnsInFolder_loop files acc :
  for_each getEmnsInFolder_step files acc
  = (bs <- map_m (fun file => emnObj_init (snd file) (fst file)) files ;;
     Ok (acc ++ bs)).
Proof.
  revert acc. induction files as [|file files IH]; intros acc.
  - cbn [for_each map_m bind]. rewrite app_nil_r. reflexivity.
  - cbn [for_each map_m]. unfold getEmnsInFolder_step at 1.
    destruct (emnObj_init (snd file) (fst file)) as [e|x]; cbn [bind]; [|reflexivity].
    rewrite IH.
    destruct (map_m _ files) as [bs|x]; cbn [bind]; [|reflexivity].
    rewrite <- app_assoc. reflexivity.
Qed.

Lemma map_m_Forall2 {A B : Type} (f : A -> result B) xs ys :
  map_m f xs = Ok ys -> Forall2 (fun x y => f x = Ok y) xs ys.
Proof.
  revert ys. induction xs as [|x xs IH]; intros ys H; cbn [map_m] in H.
  - injection H as <-. constructor.
  - ok_inv H. ok_inv H. injection H as <-. constructor; [assumption|].
    apply IH. assumption.
Qed.

(** X17.  A batch that comes back gives one checked board per file, in the
    order of the files: the board of a file is what the constructor builds
    from its lines and the suite then checks against the library, and it
    carries the name of its file. *)
Theorem main_check_one_board_per_file :
  forall atan2 upper files partsLibrary boards,
    main_check atan2 upper files partsLibrary = Ok boards ->
    Forall2 (fun file b =>
               exists e,
                 emnObj_init (snd file) (fst file) = Ok e
                 /\ checkAllErrors atan2 upper e (Some partsLibrary) = Ok b
                 /\ fileName b = fst file)
            files boards.
Proof.
  intros atan2 upper files lib boards H. unfold main_check in H. ok_inv H.
  unfold getEmnsInFolder in Ha. rewrite getEmnsInFolder_loop in Ha.
  ok_inv Ha. injection Ha as <-. cbn [app] in H.
  apply map_m_Forall2 in Ha0, H.
  revert boards H. induction Ha0 as [|file e files es Hfe _ IH]; intros boards H.
  - inversion H. constructor.
  - inversion H as [|? b ? bs Hb Hbs]; subst. constructor; [|apply IH; exact Hbs].
    exists e. split; [exact Hfe|]. split; [exact Hb|].
    apply checkAllErrors_adds in Hb. destruct Hb as [(_ & Hn & _) _].
    rewrite Hn. apply emnObj_init_ok in Hfe. apply Hfe.
Qed.

Lemma main_check_one_board_per_file_witness :
  exists boards,
    main_check atan2_axis upper_ascii
      [("a.emn", file_lines header_mm); ("b.emn", file_lines [".HEADER"])] ["CAP"]
    = Ok boards
    /\ map fileName boards = ["a.emn"; "b.emn"]
    /\ Forall2 (fun file b =>
               exists e,
                 emnObj_init (snd file) (fst file) = Ok e
                 /\ checkAllErrors atan2_axis upper_ascii e (Some ["CAP"]) = Ok b
                 /\ fileName b = fst file)
            [("a.emn", file_lines header_mm); ("b.emn", file_lines [".HEADER"])]
            boards.
Proof.
  eexists. split; [vm_compute; reflexivity|]. split; [reflexivity|].
  apply (main_check_one_board_per_file atan2_axis upper_ascii _ ["CAP"]).
  vm_compute. reflexivity.
Defined.

(** ** The dropped file *)

Lemma length_append (a b : string) :
  String.length (a ++ b)%string = (String.length a + String.length b)%nat.
Proof.
  induction a as [|c a IH]; [reflexivity|]. cbn [String.append String.length].
  rewrite IH. reflexivity.
Qed.

Lemma prefix_cut (a s : string) :
  String.prefix a s = true -> exists r, s = (a ++ r)%string.
Proof.
  revert s. induction a as [|x a IH]; intros s H.
  - exists s. reflexivity.
  - destruct s as [|y s]; [discriminate H|]. cbn [String.prefix] in H.
    destruct (ascii_dec x y) as [<-|_]; [|discriminate H].
    destruct (IH s H) as (r & ->). exists r. reflexivity.
Qed.

Lemma str_in_cut (sub s : string) :
  str_in sub s = true -> exists l r, s = (l ++ sub ++ r)%string.
Proof.
  induction s as [|c s IH]; cbn [str_in]; intros H.
  - rewrite orb_false_r in H. destruct (prefix_cut _ _ H) as (r & E).
    exists EmptyString, r. exact E.
  - apply orb_prop in H. destruct H as [H|H].
    + destruct (prefix_cut _ _ H) as (r & E). exists EmptyString, r. exact E.
    + destruct (IH H) as (l & r & ->). exists (String c l), r. reflexivity.
Qed.

Lemma append_nil_r (s : string) : (s ++ EmptyString)%string = s.
Proof.
  induction s as [|c s IH]; [reflexivity|]. cbn [String.append]. rewrite IH. reflexivity.
Qed.

Lemma str_in_whole (sub s : string) :
  str_in sub s = true -> (String.length s <= String.length sub)%nat -> s = sub.
Proof.
  intros H Hlen. destruct (str_in_cut _ _ H) as (l & r & ->).
  rewrite !length_append in Hlen.
  destruct l as [|? ?]; [|cbn [String.length] in Hlen; lia].
  destruct r as [|? ?]; [|cbn [String.length] in Hlen; lia].
  cbn [String.append]. apply append_nil_r.
Qed.

Lemma last_chars_cut n s :
  (String.length (last_chars n s) <= n)%nat
  /\ exists stem, s = (stem ++ last_chars n s)%string.
Proof.
  induction s as [|c s (IHl & stem & IHs)].
  - split; [cbn; lia | exists EmptyString; reflexivity].
  - cbn [last_chars]. destruct (String.length (String c s) <=? n)%nat eqn:E.
    + apply Nat.leb_le in E. split; [exact E | exists EmptyString; reflexivity].
    + split; [exact IHl|]. exists (String c stem). cbn [String.append].
      rewrite <- IHs. reflexivity.
Qed.

Lemma last_chars_suffix stem ext :
  ext <> EmptyString ->
  last_chars (String.length ext) (stem ++ ext)%string = ext.
Proof.
  intros Hext. induction stem as [|c stem IH].
  - cbn [String.append]. destruct ext as [|x ext]; [contradiction|].
    cbn [last_chars]. rewrite Nat.leb_refl. reflexivity.
  - cbn [String.append last_chars].
    replace (String.length (String c (stem ++ ext)) <=? String.length ext)%nat
      with false; [exact IH|].
    symmetry. apply Nat.leb_gt. cbn [String.length]. rewrite length_append. lia.
Qed.

Lemma last_chars_emn stem : last_chars 4 (stem ++ ".emn")%string = ".emn".
Proof.
  apply (last_chars_suffix stem ".emn"). discriminate.
Qed.

Lemma str_in_refl (s : string) : str_in s s = true.
Proof.
  assert (H : forall a, String.prefix a a = true).
  { induction a as [|c a IH]; [reflexivity|]. cbn [String.prefix].
    destruct (ascii_dec c c); [exact IH | contradiction]. }
  destruct s; cbn [str_in]; rewrite H; reflexivity.
Qed.

Lemma names_file_last userIn name :
  names_file userIn name -> index (split_on backslash userIn) (-1) = Ok name.
Proof.
  intros (Hn & [-> | (d & ->)]).
  - rewrite (split_on_lacks _ _ Hn). apply (index_snoc_last []).
  - destruct (split_on_tail backslash d name Hn) as (init & _ & ->).
    apply index_snoc_last.
Qed.

(** X18.  A dropped path is taken apart at its last backslash; the file
    is loaded, under the name after that backslash, exactly when that name
    ends with the four characters [.emn] (in lower case), and the call
    then fails just as the constructor does; any other name gives an empty
    list with nothing read. *)
Theorem getDraggedFile_wants_the_emn_extension :
  forall userIn name lineList,
    names_file userIn name ->
    ((exists stem, name = (stem ++ ".emn")%string) ->
     getDraggedFile userIn lineList
     = (newEmnObj <- emnObj_init lineList name ;; Ok [newEmnObj]))
    /\ ((forall stem, name <> (stem ++ ".emn")%string) ->
        forall anyLines, getDraggedFile userIn anyLines = Ok []).
Proof.
  intros userIn name lineList Hn. unfold getDraggedFile.
  rewrite (names_file_last _ _ Hn). cbn [bind]. split.
  - intros (stem & ->).
    rewrite last_chars_emn, str_in_refl. reflexivity.
  - intros Hno anyLines.
    destruct (str_in ".emn" (last_chars 4 name)) eqn:E; [|reflexivity].
    destruct (last_chars_cut 4 name) as (Hl & stem & Hs).
    apply str_in_whole in E; [|exact Hl].
    rewrite E in Hs. destruct (Hno stem Hs).
Qed.

Lemma getDraggedFile_wants_the_emn_extension_witness :
  (exists e, getDraggedFile "C:\boards\rev2\main.emn" (file_lines header_mm) = Ok [e]
             /\ fileName e = "main.emn")
  /\ getDraggedFile "C:\boards\MAIN.EMN" (file_lines header_mm) = Ok []
  /\ getDraggedFile "main.emn.bak" (file_lines header_mm) = Ok [].
Proof.
  split; [|split].
  - eexists. split.
    + refine (eq_trans
               (proj1 (getDraggedFile_wants_the_emn_extension
                         "C:\boards\rev2\main.emn" "main.emn" (file_lines header_mm) _) _) _).
      * split; [reflexivity|]. right. exists "C:\boards\rev2". reflexivity.
      * exists "main". reflexivity.
      * vm_compute. reflexivity.
    + reflexivity.
  - apply (proj2 (getDraggedFile_wants_the_emn_extension
                    "C:\boards\MAIN.EMN" "MAIN.EMN" [] 
                    (conj eq_refl (or_intror (ex_intro _ "C:\boards" eq_refl))))).
    intros stem E. apply (f_equal (last_chars 4)) in E.
    rewrite last_chars_emn in E. discriminate E.
  - apply (proj2 (getDraggedFile_wants_the_emn_extension
                    "main.emn.bak" "main.emn.bak" []
                    (conj eq_refl (or_introl eq_refl)))).
    intros stem E. apply (f_equal (last_chars 4)) in E.
    rewrite last_chars_emn in E. discriminate E.
Defined.

(** ** The library files *)

Lemma lacks_remove_same c s : lacks c (remove_char c s) = true.
Proof.
  unfold lacks. induction s as [|x s IH]; [reflexivity|]. cbn [remove_char].
  destruct (Ascii.eqb x c) eqn:E; [exact IH|].
  cbn [all_chars]. rewrite E, IH. reflexivity.
Qed.

Lemma lacks_remove_other c d s : lacks c s = true -> lacks c (remove_char d s) = true.
Proof.
  unfold lacks. induction s as [|x s IH]; intros H; [reflexivity|].
  cbn [all_chars] in H. apply andb_prop in H. destruct H as [Hx Hs].
  cbn [remove_char]. destruct (Ascii.eqb x d); [exact (IH Hs)|].
  cbn [all_chars]. rewrite Hx, (IH Hs). reflexivity.
Qed.

Lemma all_chars_lstrip p sp s : all_chars p s = true -> all_chars p (lstrip_of sp s) = true.
Proof.
  induction s as [|x s IH]; intros H; [reflexivity|]. cbn [lstrip_of].
  destruct (sp x); [|exact H].
  cbn [all_chars] in H. apply andb_prop in H. apply IH, H.
Qed.

Lemma all_chars_rstrip p sp s : all_chars p s = true -> all_chars p (rstrip_of sp s) = true.
Proof.
  induction s as [|x s IH]; intros H; [reflexivity|].
  cbn [all_chars] in H. apply andb_prop in H. destruct H as [Hx Hs].
  cbn [rstrip_of]. specialize (IH Hs).
  destruct (rstrip_of sp s) as [|y r].
  - destruct (sp x); [reflexivity|]. cbn [all_chars]. rewrite Hx. reflexivity.
  - cbn [all_chars] in *. rewrite Hx, IH. reflexivity.
Qed.

Lemma lacks_strip c s : lacks c s = true -> lacks c (strip s) = true.
Proof.
  intros H. unfold lacks, strip. apply all_chars_rstrip, all_chars_lstrip. exact H.
Qed.

Lemma upper_ascii_char_keeps c x :
  upper_ascii_char c = c ->
  (forall y, upper_ascii_char y = c -> y = c) ->
  Ascii.eqb (upper_ascii_char x) c = Ascii.eqb x c.
Proof.
  intros Hc Hinj. destruct (Ascii.eqb x c) eqn:E.
  - apply Ascii.eqb_eq in E. subst x. rewrite Hc. apply Ascii.eqb_refl.
  - destruct (Ascii.eqb (upper_ascii_char x) c) eqn:E'; [|reflexivity].
    apply Ascii.eqb_eq in E'. apply Hinj in E'. subst x.
    rewrite Ascii.eqb_refl in E. discriminate E.
Qed.

Lemma upper_ascii_to_ampersand y : upper_ascii_char y = ampersand -> y = ampersand.
Proof.
  destruct y as [[] [] [] [] [] [] [] []]; vm_compute; intros H;
    first [reflexivity | discriminate H].
Qed.

Lemma upper_ascii_keeps_ampersand : upper_keeps upper_ascii ampersand.
Proof.
  unfold upper_keeps, lacks. induction s as [|x s IH]; [reflexivity|].
  cbn [upper_ascii all_chars]. rewrite IH.
  rewrite (upper_ascii_char_keeps ampersand x eq_refl upper_ascii_to_ampersand).
  reflexivity.
Qed.

Lemma readLibFile_lacks upper c libLines :
  c = ampersand \/ c = apostrophe -> upper_keeps upper c ->
  Forall (fun entry => lacks c entry = true) (readLibFile upper libLines).
Proof.
  intros Hc Hup. unfold readLibFile. apply Forall_forall. intros entry Hin.
  apply in_map_iff in Hin. destruct Hin as (line & <- & _).
  rewrite Hup. apply lacks_strip. destruct Hc as [-> | ->].
  - apply lacks_remove_other, lacks_remove_same.
  - apply lacks_remove_same.
Qed.

(** X19.  The part numbers read from a library file hold no ampersand and
    no apostrophe, while a part name is looked up as it stands: a part
    whose name holds one of the two is found in no library that
    [readLibFile] has read, and (its name being free of underscore and
    caret) the library check reports it as missing.  [upper] is assumed
    to leave the two characters alone. *)
Theorem readLibFile_never_matches_ampersand :
  forall upper c libLines p,
    c = ampersand \/ c = apostrophe ->
    upper_keeps upper c ->
    lacks c (name p) = false ->
    list_in (upper (name p)) (readLibFile upper libLines) = false
    /\ (invalid_name (name p) = false ->
        forall e, In p (parts e) ->
          exists e',
            checkLibErrors upper e (readLibFile upper libLines) = Ok e'
            /\ In (NotInLibrary (name p)) (errors e')).
Proof.
  intros upper c libLines p Hc Hup Hp.
  assert (Hno : list_in (upper (name p)) (readLibFile upper libLines) = false).
  { pose proof (readLibFile_lacks upper c libLines Hc Hup) as Hall.
    unfold list_in. induction Hall as [|entry rest He _ IH]; [reflexivity|].
    cbn [existsb]. rewrite IH, orb_false_r.
    destruct (String.eqb (upper (name p)) entry) eqn:E; [|reflexivity].
    apply String.eqb_eq in E. rewrite <- E, Hup, Hp in He. discriminate He. }
  split; [exact Hno|]. intros Hvalid e Hin.
  rewrite checkLibErrors_spec. eexists. split; [reflexivity|].
  cbn [errors set_errors]. apply in_or_app. right.
  unfold lib_diags. apply in_or_app. left.
  apply in_flat_map. exists p. split; [exact Hin|].
  rewrite Hvalid, Hno. left. reflexivity.
Qed.

(** A library line for the part [r&d-100] is read as [RD-100 ...]; the
    board part of that name is reported as missing. *)
Lemma readLibFile_never_matches_ampersand_witness :
  readLibFile upper_ascii (file_lines ["'r&d-100' ; resistor"; "* comment"])
  = ["RD-100 ; RESISTOR"]
  /\ list_in (upper_ascii "r&d-100")
       (readLibFile upper_ascii (file_lines ["'r&d-100' ; resistor"; "* comment"]))
     = false.
Proof.
  split; [vm_compute; reflexivity|].
  apply (readLibFile_never_matches_ampersand upper_ascii ampersand
           (file_lines ["'r&d-100' ; resistor"; "* comment"])
           (mkPart (0, 0, 0)%float "TOP" "r&d-100" "R1")).
  - left. reflexivity.
  - exact upper_ascii_keeps_ampersand.
  - reflexivity.
Defined.
